(** * CumRoad SOAP API: a shallow embedding of the operation handlers

    The development follows [src/soap_service.py] (the spyne service
    [CumRoadService]) and [src/simple_soap_service.py] (the simplified
    service [CumRoadSOAPService] with its request router).

    Modelling conventions.
    - The SQLite database is a record of three tables, each a list of rows
      in insertion order together with its AUTOINCREMENT sequence value.
      [SELECT .. WHERE c] followed by [fetchone] is [find c]; [UPDATE] maps
      over the matching rows; [DELETE] filters them out; [INSERT] appends
      a row whose id is one more than the larger of the sequence value
      and the largest rowid present.  An INTEGER is a signed 64-bit
      integer: sqlite3 raises [OverflowError] when a statement is given a
      Python [int] outside that range, as the id and quantity arguments of
      a call may be.  The rowids of a table are such integers, so the id
      of a row that the table holds binds.  The user id of a verified
      token is the one [Login] signed, a rowid.  A REAL column holds a
      binary64 float, and a NaN bound to a [NOT NULL] REAL column is the
      NULL that SQLite makes of it, i.e. an [IntegrityError].  The
      foreign keys of the schema are declared but not enforced (no
      connection turns the pragma on), so a product can be deleted while
      orders refer to it.
    - Python [int] is [Z]; Python [float] is a primitive binary64 float;
      [str] is [string]; an absent (None) field is [None].
    - [CURRENT_TIMESTAMP] and [datetime.utcnow()] are the [now] argument
      of a call, in seconds of a clock that runs in UTC.  The request
      objects ([user_input], [order_update], ..) are present; their fields
      may be absent.
    - A handler runs on the service object, with its [db] and [auth].  It
      is a function from the store to an outcome and the store
      it leaves behind: a raised [Fault], an uncaught Python exception or
      a returned value.  Statements that were committed before a later
      line raises stay committed.
    - SHA-256 and HS256 signing are symbolic: a digest records the text it
      was computed from, a token records its claims and the signing key. *)

From Stdlib Require Import ZArith List String Ascii Bool Lia.
From Stdlib Require Import PrimFloat SpecFloat FloatOps FloatAxioms.
Import ListNotations.

Local Open Scope string_scope.
Local Open Scope list_scope.
Local Open Scope Z_scope.

(** ** Python values *)

Module Py.

(** Truth value of an optional [str]: [None] and [''] are false. *)
Definition truthy_str (s : option string) : bool :=
  match s with
  | None => false
  | Some "" => false
  | Some _ => true
  end.

(** Truth value of an optional [int]: [None] and [0] are false. *)
Definition truthy_int (n : option Z) : bool :=
  match n with
  | None => false
  | Some z => negb (z =? 0)
  end.

(** Truth value of an optional [float]: [None], [0.0] and [-0.0] are
    false; every other float, NaN included, is true. *)
Definition truthy_float (x : option float) : bool :=
  match x with
  | None => false
  | Some f => negb (PrimFloat.eqb f PrimFloat.zero)
  end.

(** The [str] behind a field that was tested to be true. *)
Definition the_str (s : option string) : string :=
  match s with
  | Some v => v
  | None => ""
  end.

(** The number behind a field that was tested to be true. *)
Definition the_int (n : option Z) : Z :=
  match n with
  | Some v => v
  | None => 0
  end.

Definition the_float (x : option float) : float :=
  match x with
  | Some v => v
  | None => PrimFloat.zero
  end.

(** [len(s)]. *)
Definition len (s : string) : Z := Z.of_nat (String.length s).

(** [a or b] on optional strings whose second operand is a [str]. *)
Definition str_or (a : option string) (b : string) : string :=
  match a with
  | Some s => if truthy_str a then s else b
  | None => b
  end.

(** [s.split('@')[0]]: the text before the first ['@'], all of [s]
    when it has none. *)
Fixpoint split_at_0 (s : string) : string :=
  match s with
  | EmptyString => EmptyString
  | String c rest =>
      if Ascii.eqb c "@"%char then EmptyString else String c (split_at_0 rest)
  end.

(** [float(n)] for an [int]: the nearest binary64 value, and
    [OverflowError] ([None]) when that is out of range. *)
Definition float_of_int (n : Z) : option float :=
  let f := SF2Prim (binary_normalize prec emax n 0 false) in
  if PrimFloat.is_infinity f then None else Some f.

(** [x * n] for a [float] [x] and an [int] [n]. *)
Definition float_mul_int (x : float) (n : Z) : option float :=
  match float_of_int n with
  | Some f => Some (PrimFloat.mul x f)
  | None => None
  end.

(** Uncaught exceptions. *)
Inductive exn : Type :=
| TypeError (msg : string)
| AttributeError (msg : string)
| OverflowError (msg : string)
| IntegrityError (msg : string).

(** [dict.get] on the items of a dict. *)
Fixpoint dict_find {V : Type} (k : string) (d : list (string * V)) : option V :=
  match d with
  | [] => None
  | (k', v) :: rest => if String.eqb k k' then Some v else dict_find k rest
  end.

End Py.

(** ** Credentials: [hashlib.sha256] and [jwt] *)

Definition JWT_SECRET : string := "your-secret-key-change-this-in-production".

(** The hex digest of a text. *)
Inductive digest : Type :=
| Sha256Hex (text : string).

Definition digest_eqb (a b : digest) : bool :=
  match a, b with
  | Sha256Hex x, Sha256Hex y => String.eqb x y
  end.

Record Claims : Type := mkClaims {
  claim_user_id : Z;
  claim_email : string;
  claim_exp : Z
}.

(** A bearer token as the service receives it: a JWT with its claims and
    the key that signed it, or any other text. *)
Inductive Token : Type :=
| Jwt (payload : Claims) (key : string)
| Text (s : string).

Module AuthManager.

Definition hash_password (password : string) : digest :=
  Sha256Hex password.

Definition verify_password (password : string) (hash : digest) : bool :=
  digest_eqb (hash_password password) hash.

(** The payload expires 24 hours after it is issued. *)
Definition generate_token (now : Z) (user_id : Z) (email : string) : Token :=
  Jwt (mkClaims user_id email (now + 86400)) JWT_SECRET.

(** [jwt.decode]: the signature must be by [JWT_SECRET] and the expiry
    must lie in the future; every failure is [None]. *)
Definition verify_token (now : Z) (token : Token) : option Claims :=
  match token with
  | Jwt payload key =>
      if String.eqb key JWT_SECRET && (now <? claim_exp payload)
      then Some payload else None
  | Text _ => None
  end.

End AuthManager.

(** ** The database *)

Record UserRow : Type := mkUserRow {
  user_id_of : Z;
  user_email : string;
  user_password_hash : digest;
  user_name : string;
  user_role : string;
  user_created_at : Z;
  user_updated_at : Z
}.

Record ProductRow : Type := mkProductRow {
  product_id_of : Z;
  product_name : string;
  product_description : option string;
  product_price : float;
  product_image_url : option string;
  product_user_id : Z;
  product_created_at : Z;
  product_updated_at : Z
}.

Record OrderRow : Type := mkOrderRow {
  order_id_of : Z;
  order_user_id : Z;
  order_product_id : Z;
  order_quantity : Z;
  order_total_price : float;
  order_status : string;
  order_created_at : Z;
  order_updated_at : Z
}.

Record Store : Type := mkStore {
  users : list UserRow;
  users_seq : Z;
  products : list ProductRow;
  products_seq : Z;
  orders : list OrderRow;
  orders_seq : Z
}.

Definition empty_store : Store := mkStore [] 0 [] 0 [] 0.

Module Sql.

(** The rowid an AUTOINCREMENT table gives to the next inserted row. *)
Definition next_rowid (ids : list Z) (seq : Z) : Z :=
  Z.max seq (fold_right Z.max 0 ids) + 1.

(** The integers that an INTEGER holds: 64 bits, signed. *)
Definition int64 (n : Z) : bool :=
  (-9223372036854775808 <=? n) && (n <=? 9223372036854775807).

Arguments int64 : simpl never.

(** A NaN bound to a REAL column is stored as NULL. *)
Definition real_is_null (x : float) : bool := PrimFloat.is_nan x.

Definition user_by_id (id : Z) (s : Store) : option UserRow :=
  find (fun u => user_id_of u =? id) (users s).

Definition user_by_email (email : string) (s : Store) : option UserRow :=
  find (fun u => String.eqb (user_email u) email) (users s).

Definition product_by_id (id : Z) (s : Store) : option ProductRow :=
  find (fun p => product_id_of p =? id) (products s).

Definition order_by_id (id : Z) (s : Store) : option OrderRow :=
  find (fun o => order_id_of o =? id) (orders s).

Definition set_users (us : list UserRow) (seq : Z) (s : Store) : Store :=
  mkStore us seq (products s) (products_seq s) (orders s) (orders_seq s).

Definition set_products (ps : list ProductRow) (seq : Z) (s : Store) : Store :=
  mkStore (users s) (users_seq s) ps seq (orders s) (orders_seq s).

Definition set_orders (os : list OrderRow) (seq : Z) (s : Store) : Store :=
  mkStore (users s) (users_seq s) (products s) (products_seq s) os seq.

End Sql.


(** ** Handlers: store passing with faults and exceptions *)

Record ServiceFault : Type := mkFault {
  fault_status : Z;
  fault_title : string;
  fault_detail : string;
  fault_code : option Z;
  fault_field : option string
}.

Inductive outcome (A : Type) : Type :=
| Returned (a : A)
| Raised (f : ServiceFault)
| Crashed (e : Py.exn).

Arguments Returned {A} a.
Arguments Raised {A} f.
Arguments Crashed {A} e.

Definition Handler (A : Type) : Type := Store -> outcome A * Store.

Definition ret {A : Type} (a : A) : Handler A :=
  fun s => (Returned a, s).

Definition bind {A B : Type} (c : Handler A) (k : A -> Handler B) : Handler B :=
  fun s =>
    match c s with
    | (Returned a, s') => k a s'
    | (Raised f, s') => (Raised f, s')
    | (Crashed e, s') => (Crashed e, s')
    end.

Definition raise {A : Type} (f : ServiceFault) : Handler A :=
  fun s => (Raised f, s).

Definition crash {A : Type} (e : Py.exn) : Handler A :=
  fun s => (Crashed e, s).

Definition read_db : Handler Store :=
  fun s => (Returned s, s).

Definition commit (s' : Store) : Handler unit :=
  fun _ => (Returned tt, s').

Declare Scope handler_scope.
Delimit Scope handler_scope with handler.
Notation "x <- c ;; k" := (bind c (fun x => k))
  (at level 61, c at next level, right associativity) : handler_scope.
Notation "c ;; k" := (bind c (fun _ => k))
  (at level 61, right associativity) : handler_scope.
Local Open Scope handler_scope.

(** The outcome and the final store of a call. *)
Definition result_of {A : Type} (r : outcome A * Store) : outcome A := fst r.
Definition store_of {A : Type} (r : outcome A * Store) : Store := snd r.

(** ** The service's data models *)

Module User.
Record t : Type := mk {
  id : Z;
  email : string;
  name : string;
  role : string;
  created_at : Z;
  updated_at : Z
}.
End User.

Module UserWithToken.
Record t : Type := mk {
  id : Z;
  email : string;
  name : string;
  role : string;
  created_at : Z;
  updated_at : Z;
  token : Token
}.
End UserWithToken.

Module UserInput.
Record t : Type := mk {
  email : option string;
  password : option string;
  name : option string
}.
End UserInput.

Module UserUpdateInput.
Record t : Type := mk {
  name : option string;
  password : option string
}.
End UserUpdateInput.

Module LoginInput.
Record t : Type := mk {
  email : option string;
  password : option string
}.
End LoginInput.

Module Product.
Record t : Type := mk {
  id : Z;
  name : string;
  description : option string;
  price : float;
  image_url : option string;
  user_id : Z;
  created_at : Z;
  updated_at : Z
}.
End Product.

Module ProductInput.
Record t : Type := mk {
  name : option string;
  description : option string;
  price : option float;
  image_url : option string
}.
End ProductInput.

Module ProductUpdateInput.
Record t : Type := mk {
  name : option string;
  description : option string;
  price : option float;
  image_url : option string
}.
End ProductUpdateInput.

Module Order.
Record t : Type := mk {
  id : Z;
  user_id : Z;
  product_id : Z;
  quantity : Z;
  total_price : float;
  status : string;
  created_at : Z;
  updated_at : Z;
  product : Product.t
}.
End Order.

Module OrderInput.
Record t : Type := mk {
  product_id : option Z;
  quantity : option Z
}.
End OrderInput.

Module OrderUpdateInput.
Record t : Type := mk {
  quantity : option Z;
  status : option string
}.
End OrderUpdateInput.

(** ** SQL statements of the service *)

Module Dml.

(** The assignments of an [UPDATE users SET ..]. *)
Inductive user_set : Type :=
| SetUserName (v : string)
| SetUserPasswordHash (v : digest)
| SetUserUpdatedAt.

Definition assign_user (now : Z) (r : UserRow) (a : user_set) : UserRow :=
  match a with
  | SetUserName v =>
      mkUserRow (user_id_of r) (user_email r) (user_password_hash r) v
                (user_role r) (user_created_at r) (user_updated_at r)
  | SetUserPasswordHash v =>
      mkUserRow (user_id_of r) (user_email r) v (user_name r)
                (user_role r) (user_created_at r) (user_updated_at r)
  | SetUserUpdatedAt =>
      mkUserRow (user_id_of r) (user_email r) (user_password_hash r) (user_name r)
                (user_role r) (user_created_at r) now
  end.

(** [UPDATE users SET updates WHERE id = ?]. *)
Definition update_users (now : Z) (updates : list user_set) (id : Z)
    (rows : list UserRow) : list UserRow :=
  map (fun r => if user_id_of r =? id then fold_left (assign_user now) updates r else r)
      rows.

(** [DELETE FROM users WHERE id = ?]. *)
Definition delete_users (id : Z) (rows : list UserRow) : list UserRow :=
  filter (fun r => negb (user_id_of r =? id)) rows.

(** The assignments of an [UPDATE products SET ..]. *)
Inductive product_set : Type :=
| SetProductName (v : string)
| SetProductDescription (v : string)
| SetProductPrice (v : float)
| SetProductImageUrl (v : string)
| SetProductUpdatedAt.

Definition assign_product (now : Z) (r : ProductRow) (a : product_set) : ProductRow :=
  match a with
  | SetProductName v =>
      mkProductRow (product_id_of r) v (product_description r) (product_price r)
                   (product_image_url r) (product_user_id r)
                   (product_created_at r) (product_updated_at r)
  | SetProductDescription v =>
      mkProductRow (product_id_of r) (product_name r) (Some v) (product_price r)
                   (product_image_url r) (product_user_id r)
                   (product_created_at r) (product_updated_at r)
  | SetProductPrice v =>
      mkProductRow (product_id_of r) (product_name r) (product_description r) v
                   (product_image_url r) (product_user_id r)
                   (product_created_at r) (product_updated_at r)
  | SetProductImageUrl v =>
      mkProductRow (product_id_of r) (product_name r) (product_description r)
                   (product_price r) (Some v) (product_user_id r)
                   (product_created_at r) (product_updated_at r)
  | SetProductUpdatedAt =>
      mkProductRow (product_id_of r) (product_name r) (product_description r)
                   (product_price r) (product_image_url r) (product_user_id r)
                   (product_created_at r) now
  end.

(** An assignment that would put NULL in the [NOT NULL] price column. *)
Definition product_set_null (a : product_set) : bool :=
  match a with
  | SetProductPrice v => Sql.real_is_null v
  | _ => false
  end.

(** [UPDATE products SET updates WHERE id = ?]. *)
Definition update_products (now : Z) (updates : list product_set) (id : Z)
    (rows : list ProductRow) : list ProductRow :=
  map (fun r => if product_id_of r =? id
                then fold_left (assign_product now) updates r else r)
      rows.

(** [DELETE FROM products WHERE id = ?]. *)
Definition delete_products (id : Z) (rows : list ProductRow) : list ProductRow :=
  filter (fun r => negb (product_id_of r =? id)) rows.

(** The assignments of an [UPDATE orders SET ..]. *)
Inductive order_set : Type :=
| SetOrderQuantity (v : Z)
| SetOrderTotalPrice (v : float)
| SetOrderStatus (v : string)
| SetOrderUpdatedAt.

Definition assign_order (now : Z) (r : OrderRow) (a : order_set) : OrderRow :=
  match a with
  | SetOrderQuantity v =>
      mkOrderRow (order_id_of r) (order_user_id r) (order_product_id r) v
                 (order_total_price r) (order_status r)
                 (order_created_at r) (order_updated_at r)
  | SetOrderTotalPrice v =>
      mkOrderRow (order_id_of r) (order_user_id r) (order_product_id r)
                 (order_quantity r) v (order_status r)
                 (order_created_at r) (order_updated_at r)
  | SetOrderStatus v =>
      mkOrderRow (order_id_of r) (order_user_id r) (order_product_id r)
                 (order_quantity r) (order_total_price r) v
                 (order_created_at r) (order_updated_at r)
  | SetOrderUpdatedAt =>
      mkOrderRow (order_id_of r) (order_user_id r) (order_product_id r)
                 (order_quantity r) (order_total_price r) (order_status r)
                 (order_created_at r) now
  end.

(** An assignment whose value sqlite3 cannot bind: a quantity outside
    64 bits. *)
Definition order_set_overflow (a : order_set) : bool :=
  match a with
  | SetOrderQuantity v => negb (Sql.int64 v)
  | _ => false
  end.

(** An assignment that would put NULL in the [NOT NULL] total_price column. *)
Definition order_set_null (a : order_set) : bool :=
  match a with
  | SetOrderTotalPrice v => Sql.real_is_null v
  | _ => false
  end.

(** [UPDATE orders SET updates WHERE id = ?]. *)
Definition update_orders (now : Z) (updates : list order_set) (id : Z)
    (rows : list OrderRow) : list OrderRow :=
  map (fun r => if order_id_of r =? id
                then fold_left (assign_order now) updates r else r)
      rows.

(** [DELETE FROM orders WHERE id = ?]. *)
Definition delete_orders (id : Z) (rows : list OrderRow) : list OrderRow :=
  filter (fun r => negb (order_id_of r =? id)) rows.

(** The columns a [SELECT id, email, name, role, created_at, updated_at]
    reads of a user row. *)
Definition user_columns (r : UserRow) : User.t :=
  User.mk (user_id_of r) (user_email r) (user_name r) (user_role r)
          (user_created_at r) (user_updated_at r).

Definition product_columns (r : ProductRow) : Product.t :=
  Product.mk (product_id_of r) (product_name r) (product_description r)
             (product_price r) (product_image_url r) (product_user_id r)
             (product_created_at r) (product_updated_at r).

Definition order_columns (o : OrderRow) (p : ProductRow) : Order.t :=
  Order.mk (order_id_of o) (order_user_id o) (order_product_id o)
           (order_quantity o) (order_total_price o) (order_status o)
           (order_created_at o) (order_updated_at o) (product_columns p).

(** The rows of [orders o JOIN products p ON o.product_id = p.id] for one
    order: the order with its product, none when the product is gone. *)
Definition join_product (db : Store) (o : OrderRow) : list Order.t :=
  match Sql.product_by_id (order_product_id o) db with
  | Some p => [order_columns o p]
  | None => []
  end.

(** [SELECT .. FROM orders o JOIN products p ON o.product_id = p.id
    WHERE cond]. *)
Definition select_orders (cond : OrderRow -> bool) (db : Store) : list Order.t :=
  flat_map (join_product db) (filter cond (orders db)).

End Dml.

(** ** [soap_service.py]: class [CumRoadService] *)

Module CumRoadService.

Definition _raise_soap_fault {A : Type} (status : Z) (title detail : string)
    (code : option Z) (field : option string) : Handler A :=
  raise (mkFault status title detail code field).

(** The exception of subscripting the [None] a [fetchone] gave. *)
Definition none_subscript : Py.exn :=
  Py.TypeError "'NoneType' object is not subscriptable".

Definition not_null_failed (column : string) : Py.exn :=
  Py.IntegrityError ("NOT NULL constraint failed: " ++ column)%string.

Definition int_too_large : Py.exn :=
  Py.OverflowError "int too large to convert to float".

Definition _authenticate_user (now : Z) (token : option Token) : Handler Claims :=
  match token with
  | None | Some (Text "") =>
      _raise_soap_fault 401 "Authentication Required"
        "Authentication token is required" (Some 2001) None
  | Some t =>
      match AuthManager.verify_token now t with
      | None =>
          _raise_soap_fault 401 "Invalid Token"
            "Authentication token is invalid or expired" (Some 2002) None
      | Some payload => ret payload
      end
  end.

(** The exception of binding an [int] that SQLite cannot hold. *)
Definition int_too_large_for_sqlite : Py.exn :=
  Py.OverflowError "Python int too large to convert to SQLite INTEGER".

(** [cursor.execute(sql, (.., n, ..))] with an [int] [n]: sqlite3 binds
    a 64-bit integer and raises [OverflowError] for any other. *)
Definition bind_int (n : Z) : Handler unit :=
  if Sql.int64 n then ret tt else crash int_too_large_for_sqlite.

(** Binding the id of a [SELECT .. WHERE id = ?].  The rowids of a
    table are 64-bit integers, so the id of a row that the table holds
    binds; an id that no row has binds when it is a 64-bit integer. *)
Definition bind_rowid {Row : Type} (lookup : Z -> Store -> option Row) (id : Z)
    : Handler unit :=
  db <- read_db ;;
  match lookup id db with
  | Some _ => ret tt
  | None => bind_int id
  end.

Definition _get_user_by_id (user_id : Z) : Handler (option User.t) :=
  bind_rowid Sql.user_by_id user_id ;;
  db <- read_db ;;
  ret (option_map Dml.user_columns (Sql.user_by_id user_id db)).

(** *** User operations *)

Definition GetAllUsers : Handler (list User.t) :=
  db <- read_db ;;
  ret (map Dml.user_columns (users db)).

Definition CreateUser (now : Z) (user_input : UserInput.t) : Handler User.t :=
  if negb (Py.truthy_str (UserInput.email user_input))
     || negb (Py.truthy_str (UserInput.password user_input))
  then _raise_soap_fault 400 "Validation Error"
         "Email and password are required" (Some 1001) None
  else
    let email := Py.the_str (UserInput.email user_input) in
    let password := Py.the_str (UserInput.password user_input) in
    if Py.len password <? 8
    then _raise_soap_fault 422 "Invalid Password"
           "Password must be at least 8 characters long" (Some 1002) (Some "password")
    else
      db <- read_db ;;
      match Sql.user_by_email email db with
      | Some _ =>
          _raise_soap_fault 409 "Email Already Registered"
            "The email address is already registered" (Some 1003) (Some "email")
      | None =>
          let password_hash := AuthManager.hash_password password in
          let name := Py.str_or (UserInput.name user_input) (Py.split_at_0 email) in
          let user_id := Sql.next_rowid (map user_id_of (users db)) (users_seq db) in
          commit (Sql.set_users
                    (users db ++ [mkUserRow user_id email password_hash name "user" now now])
                    user_id db) ;;
          user_data <- _get_user_by_id user_id ;;
          match user_data with
          | Some user_data => ret user_data
          | None => crash none_subscript
          end
      end.

Definition GetUserById (user_id : Z) : Handler User.t :=
  user_data <- _get_user_by_id user_id ;;
  match user_data with
  | None =>
      _raise_soap_fault 404 "Resource Not Found"
        "The requested user was not found" (Some 3001) None
  | Some user_data => ret user_data
  end.

Definition UpdateUser (now : Z) (user_id : Z) (user_update : UserUpdateInput.t)
    (token : option Token) : Handler User.t :=
  payload <- _authenticate_user now token ;;
  user_data <- _get_user_by_id user_id ;;
  db <- read_db ;;
  match user_data with
  | None =>
      _raise_soap_fault 404 "Resource Not Found"
        "The requested user was not found" (Some 3001) None
  | Some user_data =>
      if negb (claim_user_id payload =? user_id)
         && negb (String.eqb (User.role user_data) "admin")
      then _raise_soap_fault 403 "Unauthorized"
             "Not authorized to perform this action" (Some 2003) None
      else
        let updates :=
          if Py.truthy_str (UserUpdateInput.name user_update)
          then [Dml.SetUserName (Py.the_str (UserUpdateInput.name user_update))]
          else [] in
        updates <-
          (if Py.truthy_str (UserUpdateInput.password user_update)
           then
             let password := Py.the_str (UserUpdateInput.password user_update) in
             if Py.len password <? 8
             then _raise_soap_fault 422 "Invalid Password"
                    "Password must be at least 8 characters long"
                    (Some 1002) (Some "password")
             else ret (updates
                       ++ [Dml.SetUserPasswordHash (AuthManager.hash_password password)])
           else ret updates) ;;
        (match updates with
         | [] => ret tt
         | _ :: _ =>
             commit (Sql.set_users
                       (Dml.update_users now (updates ++ [Dml.SetUserUpdatedAt])
                          user_id (users db))
                       (users_seq db) db)
         end) ;;
        user_data <- _get_user_by_id user_id ;;
        match user_data with
        | Some user_data => ret user_data
        | None => crash none_subscript
        end
  end.

Definition DeleteUser (now : Z) (user_id : Z) (token : option Token) : Handler unit :=
  payload <- _authenticate_user now token ;;
  user_data <- _get_user_by_id user_id ;;
  db <- read_db ;;
  match user_data with
  | None =>
      _raise_soap_fault 404 "Resource Not Found"
        "The requested user was not found" (Some 3001) None
  | Some user_data =>
      if negb (claim_user_id payload =? user_id)
         && negb (String.eqb (User.role user_data) "admin")
      then _raise_soap_fault 403 "Unauthorized"
             "Not authorized to perform this action" (Some 2003) None
      else
        bind_int user_id ;;
        commit (Sql.set_users (Dml.delete_users user_id (users db)) (users_seq db) db)
  end.

(** *** Session operations *)

Definition Login (now : Z) (credentials : LoginInput.t) : Handler UserWithToken.t :=
  if negb (Py.truthy_str (LoginInput.email credentials))
     || negb (Py.truthy_str (LoginInput.password credentials))
  then _raise_soap_fault 400 "Validation Error"
         "Email and password are required" (Some 1001) None
  else
    let email := Py.the_str (LoginInput.email credentials) in
    let password := Py.the_str (LoginInput.password credentials) in
    db <- read_db ;;
    match Sql.user_by_email email db with
    | None =>
        _raise_soap_fault 401 "Invalid Credentials"
          "Invalid email or password" (Some 2001) None
    | Some row =>
        if negb (AuthManager.verify_password password (user_password_hash row))
        then _raise_soap_fault 401 "Invalid Credentials"
               "Invalid email or password" (Some 2001) None
        else
          let token := AuthManager.generate_token now (user_id_of row) (user_email row) in
          ret (UserWithToken.mk (user_id_of row) (user_email row) (user_name row)
                 (user_role row) (user_created_at row) (user_updated_at row) token)
    end.

Definition Logout (now : Z) (token : option Token) : Handler unit :=
  _authenticate_user now token ;;
  ret tt.

(** *** Product operations *)

Definition GetAllProducts : Handler (list Product.t) :=
  db <- read_db ;;
  ret (map Dml.product_columns (products db)).

Definition CreateProduct (now : Z) (product_input : ProductInput.t)
    (token : option Token) : Handler Product.t :=
  payload <- _authenticate_user now token ;;
  if negb (Py.truthy_str (ProductInput.name product_input))
     || negb (Py.truthy_float (ProductInput.price product_input))
  then _raise_soap_fault 400 "Validation Error"
         "Name and price are required" (Some 1001) None
  else
    db <- read_db ;;
    let name := Py.the_str (ProductInput.name product_input) in
    let price := Py.the_float (ProductInput.price product_input) in
    if Sql.real_is_null price
    then crash (not_null_failed "products.price")
    else
      let product_id :=
        Sql.next_rowid (map product_id_of (products db)) (products_seq db) in
      commit (Sql.set_products
                (products db
                 ++ [mkProductRow product_id name
                       (Some (Py.str_or (ProductInput.description product_input) ""))
                       price
                       (Some (Py.str_or (ProductInput.image_url product_input) ""))
                       (claim_user_id payload) now now])
                product_id db) ;;
      db' <- read_db ;;
      match Sql.product_by_id product_id db' with
      | Some row => ret (Dml.product_columns row)
      | None => crash none_subscript
      end.

Definition GetProductById (product_id : Z) : Handler Product.t :=
  bind_rowid Sql.product_by_id product_id ;;
  db <- read_db ;;
  match Sql.product_by_id product_id db with
  | None =>
      _raise_soap_fault 404 "Resource Not Found"
        "The requested product was not found" (Some 3001) None
  | Some row => ret (Dml.product_columns row)
  end.

(** The [updates] list that [UpdateProduct] builds from its input. *)
Definition product_updates (product_update : ProductUpdateInput.t)
    : list Dml.product_set :=
  (if Py.truthy_str (ProductUpdateInput.name product_update)
   then [Dml.SetProductName (Py.the_str (ProductUpdateInput.name product_update))]
   else [])
  ++ (match ProductUpdateInput.description product_update with
      | Some d => [Dml.SetProductDescription d]
      | None => []
      end)
  ++ (if Py.truthy_float (ProductUpdateInput.price product_update)
      then [Dml.SetProductPrice (Py.the_float (ProductUpdateInput.price product_update))]
      else [])
  ++ (match ProductUpdateInput.image_url product_update with
      | Some u => [Dml.SetProductImageUrl u]
      | None => []
      end).

Definition UpdateProduct (now : Z) (product_id : Z)
    (product_update : ProductUpdateInput.t) (token : option Token)
    : Handler Product.t :=
  payload <- _authenticate_user now token ;;
  bind_rowid Sql.product_by_id product_id ;;
  db <- read_db ;;
  match Sql.product_by_id product_id db with
  | None =>
      _raise_soap_fault 404 "Resource Not Found"
        "The requested product was not found" (Some 3001) None
  | Some row =>
      if negb (product_user_id row =? claim_user_id payload)
      then _raise_soap_fault 403 "Unauthorized"
             "Not authorized to perform this action" (Some 2003) None
      else
        let updates := product_updates product_update in
        (match updates with
         | [] => ret tt
         | _ :: _ =>
             if existsb Dml.product_set_null updates
             then crash (not_null_failed "products.price")
             else commit (Sql.set_products
                            (Dml.update_products now
                               (updates ++ [Dml.SetProductUpdatedAt])
                               product_id (products db))
                            (products_seq db) db)
         end) ;;
        db' <- read_db ;;
        match Sql.product_by_id product_id db' with
        | Some row => ret (Dml.product_columns row)
        | None => crash none_subscript
        end
  end.

Definition DeleteProduct (now : Z) (product_id : Z) (token : option Token)
    : Handler unit :=
  payload <- _authenticate_user now token ;;
  bind_rowid Sql.product_by_id product_id ;;
  db <- read_db ;;
  match Sql.product_by_id product_id db with
  | None =>
      _raise_soap_fault 404 "Resource Not Found"
        "The requested product was not found" (Some 3001) None
  | Some row =>
      if negb (product_user_id row =? claim_user_id payload)
      then _raise_soap_fault 403 "Unauthorized"
             "Not authorized to perform this action" (Some 2003) None
      else
        bind_int product_id ;;
        commit (Sql.set_products (Dml.delete_products product_id (products db))
                  (products_seq db) db)
  end.

(** *** Order operations *)

Definition GetAllOrders (now : Z) (token : option Token) : Handler (list Order.t) :=
  payload <- _authenticate_user now token ;;
  db <- read_db ;;
  ret (Dml.select_orders (fun o => order_user_id o =? claim_user_id payload) db).

Definition CreateOrder (now : Z) (order_input : OrderInput.t)
    (token : option Token) : Handler Order.t :=
  payload <- _authenticate_user now token ;;
  if negb (Py.truthy_int (OrderInput.product_id order_input))
     || negb (Py.truthy_int (OrderInput.quantity order_input))
     || (Py.the_int (OrderInput.quantity order_input) <? 1)
  then _raise_soap_fault 400 "Validation Error"
         "Product ID and quantity (>= 1) are required" (Some 1001) None
  else
    let product_id := Py.the_int (OrderInput.product_id order_input) in
    let quantity := Py.the_int (OrderInput.quantity order_input) in
    bind_rowid Sql.product_by_id product_id ;;
    db <- read_db ;;
    match Sql.product_by_id product_id db with
    | None =>
        _raise_soap_fault 404 "Resource Not Found"
          "The requested product was not found" (Some 3001) None
    | Some product_row =>
        match Py.float_mul_int (product_price product_row) quantity with
        | None => crash int_too_large
        | Some total_price =>
            bind_int quantity ;;
            if Sql.real_is_null total_price
            then crash (not_null_failed "orders.total_price")
            else
              let order_id :=
                Sql.next_rowid (map order_id_of (orders db)) (orders_seq db) in
              commit (Sql.set_orders
                        (orders db
                         ++ [mkOrderRow order_id (claim_user_id payload) product_id
                               quantity total_price "pending" now now])
                        order_id db) ;;
              db' <- read_db ;;
              match Dml.select_orders (fun o => order_id_of o =? order_id) db' with
              | row :: _ => ret row
              | [] => crash none_subscript
              end
        end
    end.

Definition GetOrderById (now : Z) (order_id : Z) (token : option Token)
    : Handler Order.t :=
  payload <- _authenticate_user now token ;;
  bind_rowid Sql.order_by_id order_id ;;
  db <- read_db ;;
  match Dml.select_orders
          (fun o => (order_id_of o =? order_id)
                    && (order_user_id o =? claim_user_id payload)) db with
  | [] =>
      _raise_soap_fault 404 "Resource Not Found"
        "The requested order was not found" (Some 3001) None
  | row :: _ => ret row
  end.

(** [status in ['pending', 'completed', 'cancelled']]. *)
Definition status_listed (status : string) : bool :=
  existsb (String.eqb status) ["pending"; "completed"; "cancelled"].

(** The quantity part of the [updates] list of [UpdateOrder]: the new
    quantity and, when the product still has a price row, the new total. *)
Definition quantity_updates (db : Store) (current_product_id : Z)
    (order_update : OrderUpdateInput.t) : outcome (list Dml.order_set) :=
  if Py.truthy_int (OrderUpdateInput.quantity order_update)
     && (1 <=? Py.the_int (OrderUpdateInput.quantity order_update))
  then
    let current_quantity := Py.the_int (OrderUpdateInput.quantity order_update) in
    match Sql.product_by_id current_product_id db with
    | Some price_row =>
        match Py.float_mul_int (product_price price_row) current_quantity with
        | None => Crashed int_too_large
        | Some new_total =>
            Returned [Dml.SetOrderQuantity current_quantity;
                      Dml.SetOrderTotalPrice new_total]
        end
    | None => Returned [Dml.SetOrderQuantity current_quantity]
    end
  else Returned [].

(** The status part of the [updates] list of [UpdateOrder]. *)
Definition status_updates (order_update : OrderUpdateInput.t) : list Dml.order_set :=
  if Py.truthy_str (OrderUpdateInput.status order_update)
     && status_listed (Py.the_str (OrderUpdateInput.status order_update))
  then [Dml.SetOrderStatus (Py.the_str (OrderUpdateInput.status order_update))]
  else [].

Definition UpdateOrder (now : Z) (order_id : Z) (order_update : OrderUpdateInput.t)
    (token : option Token) : Handler Order.t :=
  payload <- _authenticate_user now token ;;
  bind_rowid Sql.order_by_id order_id ;;
  db <- read_db ;;
  match Sql.order_by_id order_id db with
  | None =>
      _raise_soap_fault 404 "Resource Not Found"
        "The requested order was not found" (Some 3001) None
  | Some row =>
      if negb (order_user_id row =? claim_user_id payload)
      then _raise_soap_fault 403 "Unauthorized"
             "Not authorized to perform this action" (Some 2003) None
      else
        updates <- (fun s => (quantity_updates db (order_product_id row) order_update, s)) ;;
        let updates := updates ++ status_updates order_update in
        (match updates with
         | [] => ret tt
         | _ :: _ =>
             if existsb Dml.order_set_overflow updates
             then crash int_too_large_for_sqlite
             else if existsb Dml.order_set_null updates
             then crash (not_null_failed "orders.total_price")
             else commit (Sql.set_orders
                            (Dml.update_orders now (updates ++ [Dml.SetOrderUpdatedAt])
                               order_id (orders db))
                            (orders_seq db) db)
         end) ;;
        db' <- read_db ;;
        match Dml.select_orders (fun o => order_id_of o =? order_id) db' with
        | row :: _ => ret row
        | [] => crash none_subscript
        end
  end.

Definition DeleteOrder (now : Z) (order_id : Z) (token : option Token)
    : Handler unit :=
  payload <- _authenticate_user now token ;;
  bind_rowid Sql.order_by_id order_id ;;
  db <- read_db ;;
  match Sql.order_by_id order_id db with
  | None =>
      _raise_soap_fault 404 "Resource Not Found"
        "The requested order was not found" (Some 3001) None
  | Some row =>
      if negb (order_user_id row =? claim_user_id payload)
      then _raise_soap_fault 403 "Unauthorized"
             "Not authorized to perform this action" (Some 2003) None
      else
        bind_int order_id ;;
        commit (Sql.set_orders (Dml.delete_orders order_id (orders db))
                  (orders_seq db) db)
  end.

End CumRoadService.

(** ** [simple_soap_service.py]: class [CumRoadSOAPService] *)

Module CumRoadSOAPService.

(** A parameter of a parsed request: the text of a simple element (read as
    a token where one is expected), or the fields of a complex one. *)
Inductive param : Type :=
| Simple (text : option Token)
| Complex (fields : list (string * option string)).

Definition Params : Type := list (string * param).

(** The XML documents the handlers return, by their content. *)
Inductive response : Type :=
| soap_fault (fault_code fault_string : string) (detail : option string)
| CreateUserResponse (user : User.t)
| GetAllUsersResponse (users : list User.t)
| LoginResponse (user : UserWithToken.t)
| GetAllProductsResponse (products : list Product.t)
| CreateProductResponse (product : Product.t).

Definition create_soap_fault (fault_code fault_string : string)
    (detail : option string) : response :=
  soap_fault fault_code fault_string detail.

Definition no_get (type_name : string) : Py.exn :=
  Py.AttributeError ("'" ++ type_name ++ "' object has no attribute 'get'")%string.

(** [params.get(key, {})] followed by the first [.get] on the result. *)
Definition fields_of (key : string) (params : Params)
    : Handler (list (string * option string)) :=
  match Py.dict_find key params with
  | None => ret []
  | Some (Complex fields) => ret fields
  | Some (Simple (Some _)) => crash (no_get "str")
  | Some (Simple None) => crash (no_get "NoneType")
  end.

(** [d.get(key)] on a dict of optional texts. *)
Definition get (key : string) (d : list (string * option string)) : option string :=
  match Py.dict_find key d with
  | Some v => v
  | None => None
  end.

(** [d.get(key, default)]. *)
Definition get_default (key : string) (default : string)
    (d : list (string * option string)) : option string :=
  match Py.dict_find key d with
  | Some v => v
  | None => Some default
  end.

Definition _get_user_by_id (user_id : Z) (db : Store) : option User.t :=
  option_map Dml.user_columns (Sql.user_by_id user_id db).

Definition create_user (now : Z) (params : Params) : Handler response :=
  user_data <- fields_of "user" params ;;
  let email := get "email" user_data in
  let password := get "password" user_data in
  let name :=
    get_default "name"
      (if Py.truthy_str email then Py.split_at_0 (Py.the_str email) else "User")
      user_data in
  if negb (Py.truthy_str email) || negb (Py.truthy_str password)
  then ret (create_soap_fault "Client" "Validation Error"
              (Some "Email and password are required"))
  else
    let email := Py.the_str email in
    let password := Py.the_str password in
    if Py.len password <? 8
    then ret (create_soap_fault "Client" "Invalid Password"
                (Some "Password must be at least 8 characters long"))
    else
      db <- read_db ;;
      match Sql.user_by_email email db with
      | Some _ =>
          ret (create_soap_fault "Client" "Email Already Registered"
                 (Some "The email address is already registered"))
      | None =>
          let password_hash := AuthManager.hash_password password in
          match name with
          | None => crash (CumRoadService.not_null_failed "users.name")
          | Some name =>
              let user_id := Sql.next_rowid (map user_id_of (users db)) (users_seq db) in
              commit (Sql.set_users
                        (users db
                         ++ [mkUserRow user_id email password_hash name "user" now now])
                        user_id db) ;;
              db' <- read_db ;;
              match _get_user_by_id user_id db' with
              | Some user => ret (CreateUserResponse user)
              | None => crash CumRoadService.none_subscript
              end
          end
      end.

Definition get_all_users (params : Params) : Handler response :=
  db <- read_db ;;
  ret (GetAllUsersResponse (map Dml.user_columns (users db))).

Definition login (now : Z) (params : Params) : Handler response :=
  credentials <- fields_of "credentials" params ;;
  let email := get "email" credentials in
  let password := get "password" credentials in
  if negb (Py.truthy_str email) || negb (Py.truthy_str password)
  then ret (create_soap_fault "Client" "Validation Error"
              (Some "Email and password are required"))
  else
    db <- read_db ;;
    match Sql.user_by_email (Py.the_str email) db with
    | None =>
        ret (create_soap_fault "Client" "Invalid Credentials"
               (Some "Invalid email or password"))
    | Some row =>
        if negb (AuthManager.verify_password (Py.the_str password)
                   (user_password_hash row))
        then ret (create_soap_fault "Client" "Invalid Credentials"
                    (Some "Invalid email or password"))
        else
          let token := AuthManager.generate_token now (user_id_of row) (user_email row) in
          ret (LoginResponse
                 (UserWithToken.mk (user_id_of row) (user_email row) (user_name row)
                    (user_role row) (user_created_at row) (user_updated_at row) token))
    end.

(** The product element of a response prints [description or ''] and
    [image_url or '']. *)
Definition product_element (row : ProductRow) : Product.t :=
  Product.mk (product_id_of row) (product_name row)
    (Some (Py.str_or (product_description row) ""))
    (product_price row)
    (Some (Py.str_or (product_image_url row) ""))
    (product_user_id row) (product_created_at row) (product_updated_at row).

Definition get_all_products (params : Params) : Handler response :=
  db <- read_db ;;
  ret (GetAllProductsResponse (map product_element (products db))).

Section FloatParser.

(** [float(text)]: the parsed number, [None] for the [ValueError] of a text
    that is no number. *)
Variable float_of_str : string -> option float.

Definition create_product (now : Z) (params : Params) : Handler response :=
  match Py.dict_find "token" params with
  | None | Some (Simple None) | Some (Simple (Some (Text ""))) =>
      ret (create_soap_fault "Client" "Authentication Required"
             (Some "Authentication token is required"))
  | Some (Complex _) =>
      ret (create_soap_fault "Client" "Invalid Token"
             (Some "Authentication token is invalid or expired"))
  | Some (Simple (Some token)) =>
      match AuthManager.verify_token now token with
      | None =>
          ret (create_soap_fault "Client" "Invalid Token"
                 (Some "Authentication token is invalid or expired"))
      | Some payload =>
          product_data <- fields_of "product" params ;;
          let name := get "name" product_data in
          let description := get_default "description" "" product_data in
          let price := get "price" product_data in
          let image_url := get_default "image_url" "" product_data in
          if negb (Py.truthy_str name) || negb (Py.truthy_str price)
          then ret (create_soap_fault "Client" "Validation Error"
                      (Some "Name and price are required"))
          else
            match float_of_str (Py.the_str price) with
            | None =>
                ret (create_soap_fault "Client" "Validation Error"
                       (Some "Invalid price format"))
            | Some price =>
                db <- read_db ;;
                if Sql.real_is_null price
                then crash (CumRoadService.not_null_failed "products.price")
                else
                  let product_id :=
                    Sql.next_rowid (map product_id_of (products db)) (products_seq db) in
                  commit (Sql.set_products
                            (products db
                             ++ [mkProductRow product_id (Py.the_str name) description
                                   price image_url (claim_user_id payload) now now])
                            product_id db) ;;
                  db' <- read_db ;;
                  match Sql.product_by_id product_id db' with
                  | Some row => ret (CreateProductResponse (product_element row))
                  | None => crash CumRoadService.none_subscript
                  end
            end
      end
  end.

(** [str(e)] of an exception. *)
Definition exn_str (e : Py.exn) : string :=
  match e with
  | Py.TypeError msg | Py.AttributeError msg
  | Py.OverflowError msg | Py.IntegrityError msg => msg
  end.

(** [process_request] after the envelope has been parsed into an operation
    name and its parameters: route, and turn every exception into a
    Server fault. *)
Definition process_request (now : Z) (operation : string) (params : Params)
    : Store -> response * Store :=
  fun db =>
    let routed :=
      if String.eqb operation "CreateUserRequest" then create_user now params db
      else if String.eqb operation "GetAllUsersRequest" then get_all_users params db
      else if String.eqb operation "LoginRequest" then login now params db
      else if String.eqb operation "GetAllProductsRequest" then get_all_products params db
      else if String.eqb operation "CreateProductRequest" then create_product now params db
      else (Returned (create_soap_fault "Client" "Unknown Operation"
                        (Some ("Operation " ++ operation ++ " is not supported")%string)),
            db) in
    match routed with
    | (Returned r, db') => (r, db')
    | (Raised f, db') =>
        (create_soap_fault "Server" "Internal Error" (Some (fault_detail f)), db')
    | (Crashed e, db') =>
        (create_soap_fault "Server" "Internal Error" (Some (exn_str e)), db')
    end.

End FloatParser.

End CumRoadSOAPService.

(** ** One call of the spyne service *)

Module Operation.

Inductive t : Type :=
| GetAllUsers
| CreateUser (user_input : UserInput.t)
| GetUserById (user_id : Z)
| UpdateUser (user_id : Z) (user_update : UserUpdateInput.t) (token : option Token)
| DeleteUser (user_id : Z) (token : option Token)
| Login (credentials : LoginInput.t)
| Logout (token : option Token)
| GetAllProducts
| CreateProduct (product_input : ProductInput.t) (token : option Token)
| GetProductById (product_id : Z)
| UpdateProduct (product_id : Z) (product_update : ProductUpdateInput.t)
    (token : option Token)
| DeleteProduct (product_id : Z) (token : option Token)
| GetAllOrders (token : option Token)
| CreateOrder (order_input : OrderInput.t) (token : option Token)
| GetOrderById (order_id : Z) (token : option Token)
| UpdateOrder (order_id : Z) (order_update : OrderUpdateInput.t) (token : option Token)
| DeleteOrder (order_id : Z) (token : option Token).

(** The store a call made at time [now] leaves behind. *)
Definition run (now : Z) (op : t) (db : Store) : Store :=
  match op with
  | GetAllUsers => store_of (CumRoadService.GetAllUsers db)
  | CreateUser i => store_of (CumRoadService.CreateUser now i db)
  | GetUserById i => store_of (CumRoadService.GetUserById i db)
  | UpdateUser i u tok => store_of (CumRoadService.UpdateUser now i u tok db)
  | DeleteUser i tok => store_of (CumRoadService.DeleteUser now i tok db)
  | Login c => store_of (CumRoadService.Login now c db)
  | Logout tok => store_of (CumRoadService.Logout now tok db)
  | GetAllProducts => store_of (CumRoadService.GetAllProducts db)
  | CreateProduct i tok => store_of (CumRoadService.CreateProduct now i tok db)
  | GetProductById i => store_of (CumRoadService.GetProductById i db)
  | UpdateProduct i u tok => store_of (CumRoadService.UpdateProduct now i u tok db)
  | DeleteProduct i tok => store_of (CumRoadService.DeleteProduct now i tok db)
  | GetAllOrders tok => store_of (CumRoadService.GetAllOrders now tok db)
  | CreateOrder i tok => store_of (CumRoadService.CreateOrder now i tok db)
  | GetOrderById i tok => store_of (CumRoadService.GetOrderById now i tok db)
  | UpdateOrder i u tok => store_of (CumRoadService.UpdateOrder now i u tok db)
  | DeleteOrder i tok => store_of (CumRoadService.DeleteOrder now i tok db)
  end.

End Operation.

(** ** Predicates of the statements *)

(** The caller presents a token that [_authenticate_user] accepts at time
    [now], with these claims. *)
Definition authenticates (now : Z) (token : option Token) (payload : Claims) : Prop :=
  exists t, token = Some t /\ AuthManager.verify_token now t = Some payload.

(** No two user rows share an email. *)
Definition emails_unique (db : Store) : Prop :=
  NoDup (map user_email (users db)).

(** The primary key of the orders table. *)
Definition order_ids_unique (db : Store) : Prop :=
  NoDup (map order_id_of (orders db)).

(** The faults by name. *)
Definition Unauthorized : ServiceFault :=
  mkFault 403 "Unauthorized" "Not authorized to perform this action" (Some 2003) None.

Definition ValidationError (detail : string) : ServiceFault :=
  mkFault 400 "Validation Error" detail (Some 1001) None.

Definition InvalidPassword : ServiceFault :=
  mkFault 422 "Invalid Password" "Password must be at least 8 characters long"
    (Some 1002) (Some "password").

Definition EmailAlreadyRegistered : ServiceFault :=
  mkFault 409 "Email Already Registered" "The email address is already registered"
    (Some 1003) (Some "email").

Definition ResourceNotFound (what : string) : ServiceFault :=
  mkFault 404 "Resource Not Found" ("The requested " ++ what ++ " was not found")%string
    (Some 3001) None.

(** Whether a text contains ['@']. *)
Fixpoint has_at (s : string) : bool :=
  match s with
  | EmptyString => false
  | String c rest => Ascii.eqb c "@"%char || has_at rest
  end.

(** ** Stores and tokens of the examples *)

(** The store of the authorization examples: an administrator (id 1) and
    two ordinary users (ids 2 and 3). *)
Definition staff_db : Store :=
  mkStore [mkUserRow 1 "root@x.com" (Sha256Hex "rootpassword") "root" "admin" 10 10;
           mkUserRow 2 "bob@x.com" (Sha256Hex "bobpassword") "bob" "user" 20 20;
           mkUserRow 3 "eve@x.com" (Sha256Hex "evepassword") "eve" "user" 30 30]
          3 [] 0 [] 0.

Definition token_of (uid : Z) (email : string) : option Token :=
  Some (AuthManager.generate_token 100 uid email).

(** A shop: two users, one product of user 1, one order by each user. *)
Definition shop_db : Store :=
  mkStore [mkUserRow 1 "a@x.com" (Sha256Hex "longenough1") "a" "user" 100 100;
           mkUserRow 2 "b@x.com" (Sha256Hex "longenough2") "b" "user" 110 110]
          2
          [mkProductRow 1 "Widget" (Some "") 10%float (Some "") 1 300 300]
          1
          [mkOrderRow 1 1 1 3 30%float "pending" 400 400;
           mkOrderRow 2 2 1 1 10%float "pending" 410 410]
          2.

(** The store after a user registers, offers a product, orders it and then
    withdraws the product. *)
Definition withdrawn_product_db : Store :=
  let tok := token_of 1 "a@x.com" in
  let db1 := Operation.run 100
               (Operation.CreateUser
                  (UserInput.mk (Some "a@x.com") (Some "longenough1") None))
               empty_store in
  let db2 := Operation.run 300
               (Operation.CreateProduct
                  (ProductInput.mk (Some "Widget") None (Some 10%float) None) tok)
               db1 in
  let db3 := Operation.run 400
               (Operation.CreateOrder (OrderInput.mk (Some 1) (Some 2)) tok) db2 in
  Operation.run 600 (Operation.DeleteProduct 1 tok) db3.

(** A second store: [shop_db] with another user's orders changed and a
    product added that the caller's orders do not refer to. *)
Definition shop_db_other_orders : Store :=
  mkStore (users shop_db) 2
          [mkProductRow 1 "Widget" (Some "") 10%float (Some "") 1 300 300;
           mkProductRow 2 "Gizmo" (Some "") 5%float (Some "") 2 310 310]
          2
          [mkOrderRow 1 1 1 3 30%float "pending" 400 400;
           mkOrderRow 3 2 2 4 20%float "completed" 420 430]
          3.

(** ** One call of the spyne service, with its outcome *)

Module Call.

(** How a call ended, whatever it returns. *)
Inductive status : Type :=
| Done
| Faulted (f : ServiceFault)
| Failed (e : Py.exn).

Definition status_of {A : Type} (r : outcome A * Store) : status * Store :=
  match r with
  | (Returned _, db) => (Done, db)
  | (Raised f, db) => (Faulted f, db)
  | (Crashed e, db) => (Failed e, db)
  end.

(** The status of a call made at time [now] and the store it leaves. *)
Definition exec (now : Z) (op : Operation.t) (db : Store) : status * Store :=
  match op with
  | Operation.GetAllUsers => status_of (CumRoadService.GetAllUsers db)
  | Operation.CreateUser i => status_of (CumRoadService.CreateUser now i db)
  | Operation.GetUserById i => status_of (CumRoadService.GetUserById i db)
  | Operation.UpdateUser i u tok =>
      status_of (CumRoadService.UpdateUser now i u tok db)
  | Operation.DeleteUser i tok => status_of (CumRoadService.DeleteUser now i tok db)
  | Operation.Login c => status_of (CumRoadService.Login now c db)
  | Operation.Logout tok => status_of (CumRoadService.Logout now tok db)
  | Operation.GetAllProducts => status_of (CumRoadService.GetAllProducts db)
  | Operation.CreateProduct i tok =>
      status_of (CumRoadService.CreateProduct now i tok db)
  | Operation.GetProductById i => status_of (CumRoadService.GetProductById i db)
  | Operation.UpdateProduct i u tok =>
      status_of (CumRoadService.UpdateProduct now i u tok db)
  | Operation.DeleteProduct i tok =>
      status_of (CumRoadService.DeleteProduct now i tok db)
  | Operation.GetAllOrders tok => status_of (CumRoadService.GetAllOrders now tok db)
  | Operation.CreateOrder i tok => status_of (CumRoadService.CreateOrder now i tok db)
  | Operation.GetOrderById i tok =>
      status_of (CumRoadService.GetOrderById now i tok db)
  | Operation.UpdateOrder i u tok =>
      status_of (CumRoadService.UpdateOrder now i u tok db)
  | Operation.DeleteOrder i tok => status_of (CumRoadService.DeleteOrder now i tok db)
  end.

(** The token argument of the operations that take one. *)
Definition token_argument (op : Operation.t) : option (option Token) :=
  match op with
  | Operation.UpdateUser _ _ tok | Operation.DeleteUser _ tok
  | Operation.Logout tok | Operation.CreateProduct _ tok
  | Operation.UpdateProduct _ _ tok | Operation.DeleteProduct _ tok
  | Operation.GetAllOrders tok | Operation.CreateOrder _ tok
  | Operation.GetOrderById _ tok | Operation.UpdateOrder _ _ tok
  | Operation.DeleteOrder _ tok => Some tok
  | _ => None
  end.

(** The operations whose handlers contain no INSERT, UPDATE or DELETE. *)
Definition reads_only (op : Operation.t) : bool :=
  match op with
  | Operation.GetAllUsers | Operation.GetUserById _ | Operation.Login _
  | Operation.Logout _ | Operation.GetAllProducts | Operation.GetProductById _
  | Operation.GetAllOrders _ | Operation.GetOrderById _ _ => true
  | _ => false
  end.

End Call.

(** ** [str.split] and the tag names of [parse_soap_request] *)

Module SOAPHelper.

(** [c in s]. *)
Fixpoint contains (c : ascii) (s : string) : bool :=
  match s with
  | EmptyString => false
  | String a rest => Ascii.eqb a c || contains c rest
  end.

(** [s.split(sep)] for a one-character separator: the pieces of [s]
    between the separators, in order; never an empty list. *)
Fixpoint split (sep : ascii) (s : string) : list string :=
  match s with
  | EmptyString => [EmptyString]
  | String a rest =>
      if Ascii.eqb a sep then EmptyString :: split sep rest
      else
        match split sep rest with
        | piece :: pieces => String a piece :: pieces
        | [] => [String a EmptyString]
        end
  end.

(** [tag.split('}')[-1] if '}' in tag else tag]: the name of an element
    without its namespace. *)
Definition local_name (tag : string) : string :=
  if contains "}"%char tag then last (split "}"%char tag) tag else tag.

End SOAPHelper.

(** ** More predicates of the statements *)

Definition AuthenticationRequired : ServiceFault :=
  mkFault 401 "Authentication Required" "Authentication token is required"
    (Some 2001) None.

Definition InvalidToken : ServiceFault :=
  mkFault 401 "Invalid Token" "Authentication token is invalid or expired"
    (Some 2002) None.

Definition InvalidCredentials : ServiceFault :=
  mkFault 401 "Invalid Credentials" "Invalid email or password" (Some 2001) None.

(** [not token]. *)
Definition no_token (token : option Token) : bool :=
  match token with
  | None | Some (Text "") => true
  | Some _ => false
  end.

(** Every order row has a quantity of at least 1 and one of the three
    statuses. *)
Definition orders_well_formed (db : Store) : Prop :=
  Forall (fun o => 1 <= order_quantity o
                   /\ CumRoadService.status_listed (order_status o) = true)
         (orders db).

(** No table holds a rowid above its sequence value. *)
Definition sequences_cover_ids (db : Store) : Prop :=
  Forall (fun u => user_id_of u <= users_seq db) (users db)
  /\ Forall (fun p => product_id_of p <= products_seq db) (products db)
  /\ Forall (fun o => order_id_of o <= orders_seq db) (orders db).

(** The staff of [staff_db] with a product of user 2 and an order of
    user 3 for it. *)
Definition staff_shop_db : Store :=
  mkStore (users staff_db) 3
          [mkProductRow 1 "Widget" (Some "") 10%float (Some "") 2 300 300] 1
          [mkOrderRow 1 3 1 2 20%float "pending" 400 400] 1.

(** How a lookup under an id that no row has ends: with Resource Not
    Found for a 64-bit id, with the exception of the bind for any other;
    the store stays as it is. *)
Definition not_found_or_overflow {A : Type} (what : string) (id : Z) (db : Store)
    : outcome A * Store :=
  if Sql.int64 id
  then (Raised (ResourceNotFound what), db)
  else (Crashed CumRoadService.int_too_large_for_sqlite, db).

(** An assignment of [UPDATE orders] that keeps a row well formed. *)
Definition order_set_well_formed (a : Dml.order_set) : Prop :=
  match a with
  | Dml.SetOrderQuantity v => 1 <= v
  | Dml.SetOrderStatus v => CumRoadService.status_listed v = true
  | _ => True
  end.

(** From [db] to [db'] no sequence value went down, and every row of
    [db'] has the id of a row of [db] or an id above the sequence value
    of [db]. *)
Definition ids_only_advance (db db' : Store) : Prop :=
  (users_seq db <= users_seq db'
   /\ Forall (fun r => In (user_id_of r) (map user_id_of (users db))
                       \/ users_seq db < user_id_of r) (users db'))
  /\ (products_seq db <= products_seq db'
      /\ Forall (fun r => In (product_id_of r) (map product_id_of (products db))
                          \/ products_seq db < product_id_of r) (products db'))
  /\ (orders_seq db <= orders_seq db'
      /\ Forall (fun r => In (order_id_of r) (map order_id_of (orders db))
                          \/ orders_seq db < order_id_of r) (orders db')).

(** Every user of [db'] is a user of [db] with the same id, email and
    role, or has the role [user]. *)
Definition no_role_gained (db db' : Store) : Prop :=
  Forall (fun u' => user_role u' = "user"
                    \/ exists u, In u (users db)
                                 /\ user_id_of u = user_id_of u'
                                 /\ user_email u = user_email u'
                                 /\ user_role u = user_role u')
         (users db').

(** The answer of the simplified service that corresponds to an outcome of
    the spyne service: the response element around a returned value, a
    Client fault with the title and detail of a raised fault. *)
Definition answered {A : Type} (wrap : A -> CumRoadSOAPService.response)
    (r : outcome A * Store) : outcome CumRoadSOAPService.response * Store :=
  match r with
  | (Returned a, db) => (Returned (wrap a), db)
  | (Raised f, db) =>
      (Returned (CumRoadSOAPService.create_soap_fault "Client" (fault_title f)
                   (Some (fault_detail f))), db)
  | (Crashed e, db) => (Crashed e, db)
  end.

(** * Properties *)

(** ** Authentication and lookups *)

Lemma authenticate_ok (now : Z) (token : option Token) (payload : Claims) (db : Store) :
  authenticates now token payload ->
  CumRoadService._authenticate_user now token db = (Returned payload, db).
Proof.
  intros (t & -> & Hv). unfold CumRoadService._authenticate_user.
  destruct t as [p k | s].
  - rewrite Hv. reflexivity.
  - discriminate Hv.
Qed.

Lemma issued_token_verifies (issued now uid : Z) (e : string) :
  now < issued + 86400 ->
  AuthManager.verify_token now (AuthManager.generate_token issued uid e)
  = Some (mkClaims uid e (issued + 86400)).
Proof.
  intros Hlt. unfold AuthManager.verify_token, AuthManager.generate_token.
  rewrite String.eqb_refl. cbn [claim_exp andb].
  destruct (Z.ltb_spec now (issued + 86400)); [reflexivity | lia].
Qed.

Lemma truthy_str_Some (s : string) : s <> "" -> Py.truthy_str (Some s) = true.
Proof. destruct s; [congruence | reflexivity]. Qed.

Lemma truthy_str_true (o : option string) :
  Py.truthy_str o = true -> exists s, o = Some s /\ s <> "".
Proof.
  destruct o as [[|c s]|]; simpl; try discriminate.
  intros _. eexists; split; [reflexivity | discriminate].
Qed.

Lemma len_nonempty (s : string) : 1 <= Py.len s -> s <> "".
Proof. destruct s; unfold Py.len; simpl; [lia | discriminate]. Qed.

Lemma find_app_fresh {A : Type} (c : A -> bool) (l : list A) (x : A) :
  find c l = None -> find c (l ++ [x]) = if c x then Some x else None.
Proof.
  induction l as [|a l IH]; simpl; [reflexivity|].
  destruct (c a); [discriminate | exact IH].
Qed.

Lemma find_app_old {A : Type} (c : A -> bool) (l : list A) (x r : A) :
  find c l = Some r -> find c (l ++ [x]) = Some r.
Proof.
  induction l as [|a l IH]; simpl; [discriminate|].
  destruct (c a); [trivial | exact IH].
Qed.

Lemma fold_max_bound (ids : list Z) (i : Z) :
  In i ids -> i <= fold_right Z.max 0 ids.
Proof.
  induction ids as [|a ids IH]; simpl; [tauto|].
  intros [-> | Hin]; [lia | specialize (IH Hin); lia].
Qed.

(** The next rowid is not the id of a row of the table. *)
Lemma next_rowid_fresh (ids : list Z) (seq : Z) :
  ~ In (Sql.next_rowid ids seq) ids.
Proof.
  intros Hin. apply fold_max_bound in Hin. unfold Sql.next_rowid in Hin. lia.
Qed.

Lemma find_id_fresh {A : Type} (key : A -> Z) (l : list A) (i : Z) :
  ~ In i (map key l) -> find (fun r => key r =? i) l = None.
Proof.
  induction l as [|a l IH]; simpl; [reflexivity|].
  intros Hn. destruct (Z.eqb_spec (key a) i) as [E|E]; [tauto|].
  apply IH. tauto.
Qed.

(** ** Binding an id *)

Lemma bind_int_int64 (n : Z) (db : Store) :
  Sql.int64 n = true -> CumRoadService.bind_int n db = (Returned tt, db).
Proof. intros H. unfold CumRoadService.bind_int. rewrite H. reflexivity. Qed.

Lemma bind_int_overflow (n : Z) (db : Store) :
  Sql.int64 n = false ->
  CumRoadService.bind_int n db
  = (Crashed CumRoadService.int_too_large_for_sqlite, db).
Proof. intros H. unfold CumRoadService.bind_int. rewrite H. reflexivity. Qed.

Lemma bind_rowid_found {Row : Type} (lookup : Z -> Store -> option Row) (id : Z)
    (db : Store) (row : Row) :
  lookup id db = Some row ->
  CumRoadService.bind_rowid lookup id db = (Returned tt, db).
Proof.
  intros H. unfold CumRoadService.bind_rowid, bind, read_db. rewrite H. reflexivity.
Qed.

Lemma bind_rowid_int64 {Row : Type} (lookup : Z -> Store -> option Row) (id : Z)
    (db : Store) :
  Sql.int64 id = true ->
  CumRoadService.bind_rowid lookup id db = (Returned tt, db).
Proof.
  intros H. unfold CumRoadService.bind_rowid, bind, read_db.
  destruct (lookup id db); [reflexivity | apply bind_int_int64, H].
Qed.

Lemma bind_rowid_overflow {Row : Type} (lookup : Z -> Store -> option Row) (id : Z)
    (db : Store) :
  lookup id db = None -> Sql.int64 id = false ->
  CumRoadService.bind_rowid lookup id db
  = (Crashed CumRoadService.int_too_large_for_sqlite, db).
Proof.
  intros H Hid. unfold CumRoadService.bind_rowid, bind, read_db. rewrite H.
  apply bind_int_overflow, Hid.
Qed.

(** Binding an id either goes through or ends the call with the store as
    it was; it does not go through only for an id outside 64 bits that no
    row has. *)
Lemma bind_rowid_cases {Row : Type} (lookup : Z -> Store -> option Row) (id : Z)
    (db : Store) :
  CumRoadService.bind_rowid lookup id db = (Returned tt, db)
  \/ (lookup id db = None /\ Sql.int64 id = false
      /\ CumRoadService.bind_rowid lookup id db
         = (Crashed CumRoadService.int_too_large_for_sqlite, db)).
Proof.
  destruct (lookup id db) as [row|] eqn:H.
  - left. apply (bind_rowid_found _ _ _ row H).
  - destruct (Sql.int64 id) eqn:Hid.
    + left. apply bind_rowid_int64, Hid.
    + right. split; [reflexivity|]. split; [reflexivity|].
      apply bind_rowid_overflow; assumption.
Qed.

Lemma get_user_found (uid : Z) (db : Store) (row : UserRow) :
  Sql.user_by_id uid db = Some row ->
  CumRoadService._get_user_by_id uid db = (Returned (Some (Dml.user_columns row)), db).
Proof.
  intros H. unfold CumRoadService._get_user_by_id, bind.
  rewrite (bind_rowid_found _ _ _ row H). unfold read_db, ret. rewrite H. reflexivity.
Qed.

Lemma get_user_absent (uid : Z) (db : Store) :
  Sql.user_by_id uid db = None ->
  CumRoadService._get_user_by_id uid db
  = if Sql.int64 uid then (Returned None, db)
    else (Crashed CumRoadService.int_too_large_for_sqlite, db).
Proof.
  intros H. unfold CumRoadService._get_user_by_id, bind.
  destruct (Sql.int64 uid) eqn:Hid.
  - rewrite (bind_rowid_int64 _ _ _ Hid). unfold read_db, ret. rewrite H. reflexivity.
  - rewrite (bind_rowid_overflow _ _ _ H Hid). reflexivity.
Qed.

(** [_get_user_by_id] answers with the row under the id, or ends the
    call for an id outside 64 bits that no row has; the store stays. *)
Lemma get_user_cases (uid : Z) (db : Store) :
  CumRoadService._get_user_by_id uid db
  = (Returned (option_map Dml.user_columns (Sql.user_by_id uid db)), db)
  \/ (Sql.user_by_id uid db = None /\ Sql.int64 uid = false
      /\ CumRoadService._get_user_by_id uid db
         = (Crashed CumRoadService.int_too_large_for_sqlite, db)).
Proof.
  destruct (Sql.user_by_id uid db) as [row|] eqn:H.
  - left. apply get_user_found, H.
  - rewrite (get_user_absent _ _ H).
    destruct (Sql.int64 uid); [left; reflexivity | right; auto].
Qed.

(** Case analysis on the binding of an id in the goal. *)
Ltac fetch_user :=
  match goal with
  | |- context [CumRoadService._get_user_by_id ?i ?d] =>
      destruct (get_user_cases i d) as [-> | (_ & _ & ->)]
  end.

Ltac bind_id :=
  match goal with
  | |- context [CumRoadService.bind_rowid ?l ?i ?d] =>
      destruct (bind_rowid_cases l i d) as [-> | (_ & _ & ->)]
  end.

(** ** CreateUser *)

(** What [CreateUser] does on a new email with a long enough password. *)
Lemma CreateUser_new_email (now : Z) (e pw : string) (nm : option string) (db : Store) :
  e <> "" -> 8 <= Py.len pw -> Sql.user_by_email e db = None ->
  let uid := Sql.next_rowid (map user_id_of (users db)) (users_seq db) in
  let row := mkUserRow uid e (AuthManager.hash_password pw)
               (Py.str_or nm (Py.split_at_0 e)) "user" now now in
  CumRoadService.CreateUser now (UserInput.mk (Some e) (Some pw) nm) db
  = (Returned (Dml.user_columns row), Sql.set_users (users db ++ [row]) uid db).
Proof.
  intros He Hpw Hfree uid row. unfold CumRoadService.CreateUser.
  cbn [UserInput.email UserInput.password UserInput.name Py.the_str].
  rewrite (truthy_str_Some e He).
  rewrite (truthy_str_Some pw) by (apply len_nonempty; lia).
  cbn [negb orb].
  destruct (Z.ltb_spec (Py.len pw) 8) as [Hlt|_]; [lia|].
  unfold bind, read_db, commit. rewrite Hfree. fold uid. fold row.
  rewrite (get_user_found uid _ row); [reflexivity|].
  unfold Sql.user_by_id, Sql.set_users. cbn [users].
  rewrite find_app_fresh
    by (apply (find_id_fresh user_id_of); apply next_rowid_fresh).
  subst row. cbn [user_id_of]. rewrite Z.eqb_refl. reflexivity.
Qed.

(** C5. Registering a new email [e] with a password of at least 8
    characters succeeds, and a following [Login] with the same credentials,
    on any store in which that user's row is the one [CreateUser] wrote,
    succeeds and returns a token that verifies (until it expires, 24 hours
    after the login) to claims carrying the id [CreateUser] returned. *)
Theorem CreateUser_then_Login (now : Z) (e pw : string) (nm : option string)
    (db : Store) :
  e <> "" ->
  Sql.user_by_email e db = None ->
  8 <= Py.len pw ->
  exists user db1,
    CumRoadService.CreateUser now (UserInput.mk (Some e) (Some pw) nm) db
    = (Returned user, db1)
    /\ forall later db2,
         Sql.user_by_email e db2 = Sql.user_by_email e db1 ->
         exists session,
           CumRoadService.Login later (LoginInput.mk (Some e) (Some pw)) db2
           = (Returned session, db2)
           /\ UserWithToken.id session = User.id user
           /\ forall t, t < later + 86400 ->
                exists claims,
                  AuthManager.verify_token t (UserWithToken.token session) = Some claims
                  /\ claim_user_id claims = User.id user.
Proof.
  intros He Hfree Hpw.
  pose proof (CreateUser_new_email now e pw nm db He Hpw Hfree) as Hcreate.
  cbv zeta in Hcreate.
  eexists _, _. split; [exact Hcreate|].
  intros later db2 Hsame.
  assert (Hrow : Sql.user_by_email e db2
                 = Some (mkUserRow
                           (Sql.next_rowid (map user_id_of (users db)) (users_seq db))
                           e (AuthManager.hash_password pw)
                           (Py.str_or nm (Py.split_at_0 e)) "user" now now)).
  { rewrite Hsame. unfold Sql.user_by_email, Sql.set_users. cbn [users].
    rewrite find_app_fresh by exact Hfree.
    cbn [user_email]. rewrite String.eqb_refl. reflexivity. }
  unfold CumRoadService.Login.
  cbn [LoginInput.email LoginInput.password Py.the_str].
  rewrite (truthy_str_Some e He).
  rewrite (truthy_str_Some pw) by (apply len_nonempty; lia).
  cbn [negb orb]. unfold bind, read_db, ret. rewrite Hrow.
  cbn [user_password_hash user_id_of user_email user_name user_role
       user_created_at user_updated_at].
  unfold AuthManager.verify_password, AuthManager.hash_password, digest_eqb.
  rewrite String.eqb_refl. cbn [negb].
  eexists. split; [reflexivity|]. split; [reflexivity|].
  intros t Ht. cbn [UserWithToken.token].
  rewrite (issued_token_verifies later t _ e Ht).
  eexists. split; reflexivity.
Qed.

Lemma CreateUser_then_Login_witness :
  exists user db1,
    CumRoadService.CreateUser 100
      (UserInput.mk (Some "a@x.com") (Some "longenough1") None) empty_store
    = (Returned user, db1)
    /\ forall later db2,
         Sql.user_by_email "a@x.com" db2 = Sql.user_by_email "a@x.com" db1 ->
         exists session,
           CumRoadService.Login later
             (LoginInput.mk (Some "a@x.com") (Some "longenough1")) db2
           = (Returned session, db2)
           /\ UserWithToken.id session = User.id user
           /\ forall t, t < later + 86400 ->
                exists claims,
                  AuthManager.verify_token t (UserWithToken.token session) = Some claims
                  /\ claim_user_id claims = User.id user.
Proof.
  apply (CreateUser_then_Login 100 "a@x.com" "longenough1" None empty_store).
  - discriminate.
  - reflexivity.
  - vm_compute. discriminate.
Defined.

(** The spec's scenario, run on the empty store. *)
Example login_after_create_scenario :
  let db1 := store_of (CumRoadService.CreateUser 100
                         (UserInput.mk (Some "a@x.com") (Some "longenough1") None)
                         empty_store) in
  option_map claim_user_id
    (match result_of (CumRoadService.Login 200
                        (LoginInput.mk (Some "a@x.com") (Some "longenough1")) db1) with
     | Returned session => AuthManager.verify_token 300 (UserWithToken.token session)
     | _ => None
     end)
  = Some 1.
Proof. reflexivity. Qed.

(** ** The default display name *)

(** [split('@')[0]] is the text before the first ['@']. *)
Lemma split_at_0_prefix (local domain : string) :
  has_at local = false ->
  Py.split_at_0 (local ++ String "@"%char domain)%string = local.
Proof.
  induction local as [|c local IH]; simpl; [reflexivity|].
  destruct (Ascii.eqb c "@"%char); simpl; [discriminate|].
  intros H. rewrite (IH H). reflexivity.
Qed.

(** In the spyne service a new user without a name, or with an empty one,
    is created under the text of the email before its first ['@']. *)
Lemma CreateUser_default_name (now : Z) (local domain pw : string)
    (nm : option string) (db : Store) :
  let e := (local ++ String "@"%char domain)%string in
  has_at local = false ->
  Py.truthy_str nm = false ->
  8 <= Py.len pw ->
  Sql.user_by_email e db = None ->
  exists user db',
    CumRoadService.CreateUser now (UserInput.mk (Some e) (Some pw) nm) db
    = (Returned user, db')
    /\ User.name user = local
    /\ option_map user_name (Sql.user_by_id (User.id user) db') = Some local.
Proof.
  intros e Hlocal Hnm Hpw Hfree.
  assert (He : e <> "") by (subst e; destruct local; discriminate).
  pose proof (CreateUser_new_email now e pw nm db He Hpw Hfree) as Hcreate.
  cbv zeta in Hcreate. eexists _, _. split; [exact Hcreate|].
  assert (Hname : Py.str_or nm (Py.split_at_0 e) = local).
  { unfold Py.str_or. destruct nm as [s|].
    - rewrite Hnm. apply split_at_0_prefix, Hlocal.
    - apply split_at_0_prefix, Hlocal. }
  cbn [Dml.user_columns User.name User.id user_name user_id_of].
  split; [exact Hname|].
  unfold Sql.user_by_id, Sql.set_users. cbn [users].
  rewrite find_app_fresh
    by (apply (find_id_fresh user_id_of); apply next_rowid_fresh).
  cbn [user_id_of]. rewrite Z.eqb_refl. cbn [option_map user_name].
  rewrite Hname. reflexivity.
Qed.

(** C10. The simplified service reads the name with [dict.get] and a
    default, which only covers a missing key: a request whose name element
    is present but empty binds [None] to the NOT NULL name column, so the
    call ends in an Internal Error fault and creates no user, where the
    spyne service on the same input creates user "a". *)
Theorem create_user_empty_name_element :
  let fields := [("email", Some "a@x.com"); ("password", Some "longenough1");
                 ("name", None)] in
  let params := [("user", CumRoadSOAPService.Complex fields)] in
  CumRoadSOAPService.create_user 100 params empty_store
  = (Crashed (Py.IntegrityError "NOT NULL constraint failed: users.name"), empty_store)
  /\ (forall float_of_str,
        CumRoadSOAPService.process_request float_of_str 100 "CreateUserRequest"
          params empty_store
        = (CumRoadSOAPService.soap_fault "Server" "Internal Error"
             (Some "NOT NULL constraint failed: users.name"),
           empty_store))
  /\ CumRoadSOAPService.create_user 100
       [("user", CumRoadSOAPService.Complex
                   [("email", Some "a@x.com"); ("password", Some "longenough1")])]
       empty_store
     = (Returned (CumRoadSOAPService.CreateUserResponse
                    (User.mk 1 "a@x.com" "a" "user" 100 100)),
        mkStore [mkUserRow 1 "a@x.com" (Sha256Hex "longenough1") "a" "user" 100 100]
          1 [] 0 [] 0)
  /\ result_of (CumRoadService.CreateUser 100
                  (UserInput.mk (Some "a@x.com") (Some "longenough1") (Some ""))
                  empty_store)
     = Returned (User.mk 1 "a@x.com" "a" "user" 100 100).
Proof. repeat split. Qed.

(** ** UpdateUser and DeleteUser: who is let through *)

(** The authorization test of [UpdateUser] and [DeleteUser] looks at the
    role of the row being changed. *)
Lemma DeleteUser_authorization (now : Z) (token : option Token) (payload : Claims)
    (target : UserRow) (db : Store) :
  authenticates now token payload ->
  Sql.user_by_id (user_id_of target) db = Some target ->
  CumRoadService.DeleteUser now (user_id_of target) token db
  = if negb (claim_user_id payload =? user_id_of target)
       && negb (String.eqb (user_role target) "admin")
    then (Raised Unauthorized, db)
    else if Sql.int64 (user_id_of target)
    then (Returned tt,
          Sql.set_users (Dml.delete_users (user_id_of target) (users db))
            (users_seq db) db)
    else (Crashed CumRoadService.int_too_large_for_sqlite, db).
Proof.
  intros Hauth Hrow. unfold CumRoadService.DeleteUser, bind.
  rewrite (authenticate_ok _ _ _ _ Hauth).
  rewrite (get_user_found _ _ _ Hrow). unfold read_db.
  cbn [Dml.user_columns User.role].
  destruct (negb (claim_user_id payload =? user_id_of target)
            && negb (String.eqb (user_role target) "admin")); [reflexivity|].
  unfold CumRoadService.bind_int.
  destruct (Sql.int64 (user_id_of target)); reflexivity.
Qed.

(** [UpdateUser] applies the same test: it raises Unauthorized exactly
    when the caller is not the target and the target's role is not admin. *)
Lemma UpdateUser_authorization (now : Z) (token : option Token) (payload : Claims)
    (target : UserRow) (upd : UserUpdateInput.t) (db : Store) :
  authenticates now token payload ->
  Sql.user_by_id (user_id_of target) db = Some target ->
  result_of (CumRoadService.UpdateUser now (user_id_of target) upd token db)
  = Raised Unauthorized
  <-> claim_user_id payload <> user_id_of target /\ user_role target <> "admin".
Proof.
  intros Hauth Hrow. unfold CumRoadService.UpdateUser, bind.
  rewrite (authenticate_ok _ _ _ _ Hauth).
  rewrite (get_user_found _ _ _ Hrow). unfold read_db.
  cbn [Dml.user_columns User.role].
  destruct (Z.eqb_spec (claim_user_id payload) (user_id_of target)) as [Hid|Hid];
    destruct (String.eqb_spec (user_role target) "admin") as [Hrole|Hrole];
    cbn [negb andb].
  4: { split; [auto | reflexivity]. }
  all: split; [|tauto]; intros Hres; exfalso; revert Hres;
    unfold CumRoadService._get_user_by_id, CumRoadService.bind_rowid,
      CumRoadService.bind_int, bind;
    unfold CumRoadService._raise_soap_fault, read_db, ret, commit, crash, raise;
    repeat (cbv beta iota zeta;
            match goal with
            | |- context [match ?x with _ => _ end] =>
                lazymatch x with
                | context [match _ with _ => _ end] => fail
                | _ => destruct x
                end
            end);
    discriminate.
Qed.

(** C1. On [staff_db] the administrator's token is refused on another
    user's row, and an ordinary user's token is accepted on the
    administrator's row: the override follows the target's role. *)
Theorem admin_override_follows_target_role :
  result_of (CumRoadService.DeleteUser 200 2 (token_of 1 "root@x.com") staff_db)
  = Raised Unauthorized
  /\ result_of (CumRoadService.UpdateUser 200 2
                  (UserUpdateInput.mk (Some "renamed") None)
                  (token_of 1 "root@x.com") staff_db)
     = Raised Unauthorized
  /\ CumRoadService.DeleteUser 200 1 (token_of 3 "eve@x.com") staff_db
     = (Returned tt,
        mkStore [mkUserRow 2 "bob@x.com" (Sha256Hex "bobpassword") "bob" "user" 20 20;
                 mkUserRow 3 "eve@x.com" (Sha256Hex "evepassword") "eve" "user" 30 30]
          3 [] 0 [] 0)
  /\ result_of (CumRoadService.UpdateUser 200 1
                  (UserUpdateInput.mk (Some "renamed") None)
                  (token_of 3 "eve@x.com") staff_db)
     = Returned (User.mk 1 "root@x.com" "renamed" "admin" 10 200).
Proof. repeat split. Qed.

(** ** Facts about the SQL layer *)

Lemma authenticate_cases (now : Z) (token : option Token) (db : Store) :
  (exists payload, authenticates now token payload
     /\ CumRoadService._authenticate_user now token db = (Returned payload, db))
  \/ (exists f, CumRoadService._authenticate_user now token db = (Raised f, db)).
Proof.
  destruct token as [t|].
  - destruct (AuthManager.verify_token now t) as [payload|] eqn:Hv.
    + left. exists payload.
      assert (Ha : authenticates now (Some t) payload) by (exists t; auto).
      split; [exact Ha | apply authenticate_ok, Ha].
    + right. unfold CumRoadService._authenticate_user. rewrite Hv.
      destruct t as [p k|[|c s]]; eexists; reflexivity.
  - right. eexists. reflexivity.
Qed.

Section KeyedRows.

Context {A : Type} (key : A -> Z).

Lemma find_key_In (l : list A) (i : Z) (r : A) :
  find (fun x => key x =? i) l = Some r -> In r l /\ key r = i.
Proof.
  intros H. apply find_some in H. destruct H as [Hin Hk].
  split; [exact Hin | apply Z.eqb_eq, Hk].
Qed.

(** Under a primary key, a row is determined by its id. *)
Lemma key_determines_row (l : list A) (a b : A) :
  NoDup (map key l) -> In a l -> In b l -> key a = key b -> a = b.
Proof.
  induction l as [|x l IH]; simpl; [tauto|].
  intros Hnd Ha Hb Hk. inversion Hnd as [|? ? Hnotin Hnd']; subst.
  destruct Ha as [-> | Ha], Hb as [-> | Hb]; auto.
  - exfalso. apply Hnotin. rewrite Hk. apply in_map, Hb.
  - exfalso. apply Hnotin. rewrite <- Hk. apply in_map, Ha.
Qed.

Variable upd : A -> A.
Hypothesis upd_key : forall r, key (upd r) = key r.

Let update_where (i : Z) (l : list A) : list A :=
  map (fun r => if key r =? i then upd r else r) l.

Lemma update_where_keys (i : Z) (l : list A) :
  map key (update_where i l) = map key l.
Proof.
  unfold update_where. rewrite map_map. apply map_ext.
  intros r. destruct (key r =? i); [apply upd_key | reflexivity].
Qed.

Lemma find_update_where (i : Z) (l : list A) :
  find (fun x => key x =? i) (update_where i l)
  = option_map upd (find (fun x => key x =? i) l).
Proof.
  unfold update_where. induction l as [|a l IH]; simpl; [reflexivity|].
  destruct (Z.eqb_spec (key a) i) as [E|E].
  - rewrite upd_key. destruct (Z.eqb_spec (key a) i); [reflexivity | contradiction].
  - destruct (Z.eqb_spec (key a) i); [contradiction | exact IH].
Qed.

Lemma find_update_other (i j : Z) (l : list A) :
  j <> i ->
  find (fun x => key x =? j) (update_where i l) = find (fun x => key x =? j) l.
Proof.
  intros Hji. unfold update_where. induction l as [|a l IH]; simpl; [reflexivity|].
  destruct (Z.eqb_spec (key a) i) as [E|E].
  - rewrite upd_key. destruct (Z.eqb_spec (key a) j) as [E'|E']; [lia | exact IH].
  - destruct (key a =? j); [reflexivity | exact IH].
Qed.

(** A column that the update leaves alone reads the same in every row. *)
Lemma update_where_column {B : Type} (col : A -> B) (i : Z) (l : list A) :
  (forall r, col (upd r) = col r) ->
  map col (update_where i l) = map col l.
Proof.
  intros Hcol. unfold update_where. rewrite map_map. apply map_ext.
  intros r. destruct (key r =? i); [apply Hcol | reflexivity].
Qed.

(** A filter on columns the update leaves alone commutes with it. *)
Lemma filter_update_where (c : A -> bool) (i : Z) (l : list A) :
  (forall r, c (upd r) = c r) ->
  filter c (update_where i l) = update_where i (filter c l).
Proof.
  intros Hc. unfold update_where. induction l as [|a l IH]; simpl; [reflexivity|].
  destruct (key a =? i) eqn:E.
  - rewrite Hc. destruct (c a); simpl; [rewrite E, IH | rewrite IH]; reflexivity.
  - destruct (c a); simpl; [rewrite E, IH | rewrite IH]; reflexivity.
Qed.

End KeyedRows.

Lemma filter_nil {A : Type} (c : A -> bool) (l : list A) :
  (forall x, In x l -> c x = false) -> filter c l = [].
Proof.
  induction l as [|a l IH]; simpl; [reflexivity|].
  intros H. rewrite (H a (or_introl eq_refl)). apply IH.
  intros x Hx. apply H. right. exact Hx.
Qed.

(** The first row that [find] gives heads the rows that [filter] gives. *)
Lemma filter_head {A : Type} (c : A -> bool) (l : list A) (r : A) :
  find c l = Some r -> exists rest, filter c l = r :: rest.
Proof.
  induction l as [|a l IH]; simpl; [discriminate|].
  destruct (c a).
  - intros [= ->]. eexists. reflexivity.
  - exact IH.
Qed.

Lemma assign_product_frame (now : Z) (updates : list Dml.product_set) (r : ProductRow) :
  let r' := fold_left (Dml.assign_product now) updates r in
  product_id_of r' = product_id_of r
  /\ product_user_id r' = product_user_id r
  /\ product_created_at r' = product_created_at r.
Proof.
  revert r. induction updates as [|a updates IH]; intros r; simpl; [auto|].
  destruct (IH (Dml.assign_product now r a)) as (H1 & H2 & H3).
  rewrite H1, H2, H3. destruct a; auto.
Qed.

Lemma assign_order_frame (now : Z) (updates : list Dml.order_set) (r : OrderRow) :
  let r' := fold_left (Dml.assign_order now) updates r in
  order_id_of r' = order_id_of r
  /\ order_user_id r' = order_user_id r
  /\ order_product_id r' = order_product_id r
  /\ order_created_at r' = order_created_at r.
Proof.
  revert r. induction updates as [|a updates IH]; intros r; simpl; [auto|].
  destruct (IH (Dml.assign_order now r a)) as (H1 & H2 & H3 & H4).
  rewrite H1, H2, H3, H4. destruct a; auto.
Qed.

Lemma assign_user_frame (now : Z) (updates : list Dml.user_set) (r : UserRow) :
  let r' := fold_left (Dml.assign_user now) updates r in
  user_id_of r' = user_id_of r /\ user_email r' = user_email r
  /\ user_role r' = user_role r.
Proof.
  revert r. induction updates as [|a updates IH]; intros r; simpl; [auto|].
  destruct (IH (Dml.assign_user now r a)) as (H1 & H2 & H3).
  rewrite H1, H2, H3. destruct a; auto.
Qed.

(** ** UpdateProduct *)

(** C8. A successful [UpdateProduct] leaves the product's id, owner and
    creation time as they were, in the returned product and in the stored
    row; in every product row these three columns read as before, every
    other product row is untouched, and so are the users and the orders. *)
Theorem UpdateProduct_keeps_id_owner_created_at (now pid : Z)
    (upd : ProductUpdateInput.t) (token : option Token) (db db' : Store)
    (product : Product.t) :
  CumRoadService.UpdateProduct now pid upd token db = (Returned product, db') ->
  exists before after,
    Sql.product_by_id pid db = Some before
    /\ Sql.product_by_id pid db' = Some after
    /\ product = Dml.product_columns after
    /\ product_id_of after = product_id_of before
    /\ product_user_id after = product_user_id before
    /\ product_created_at after = product_created_at before
    /\ map (fun r => (product_id_of r, product_user_id r, product_created_at r))
         (products db')
       = map (fun r => (product_id_of r, product_user_id r, product_created_at r))
           (products db)
    /\ (forall other, other <> pid ->
          Sql.product_by_id other db' = Sql.product_by_id other db)
    /\ users db' = users db
    /\ orders db' = orders db.
Proof.
  unfold CumRoadService.UpdateProduct, bind.
  destruct (authenticate_cases now token db) as [(payload & _ & ->) | (f & ->)];
    [|discriminate].
  destruct (bind_rowid_cases Sql.product_by_id pid db) as [-> | (_ & _ & ->)];
    [|discriminate].
  unfold read_db.
  destruct (Sql.product_by_id pid db) as [before|] eqn:Hbefore; [|discriminate].
  destruct (negb (product_user_id before =? claim_user_id payload)); [discriminate|].
  destruct (CumRoadService.product_updates upd) as [|a updates] eqn:Hupd.
  - (* nothing to update *)
    unfold ret. rewrite Hbefore. intros [= <- <-].
    exists before, before. repeat split; auto.
  - destruct (existsb Dml.product_set_null (a :: updates)); [discriminate|].
    unfold commit.
    set (sets := (a :: updates) ++ [Dml.SetProductUpdatedAt]).
    assert (Hafter :
      Sql.product_by_id pid
        (Sql.set_products (Dml.update_products now sets pid (products db))
           (products_seq db) db)
      = Some (fold_left (Dml.assign_product now) sets before)).
    { unfold Sql.product_by_id, Sql.set_products, Dml.update_products.
      cbn [products].
      rewrite (find_update_where product_id_of
                 (fold_left (Dml.assign_product now) sets)).
      - unfold Sql.product_by_id in Hbefore. rewrite Hbefore. reflexivity.
      - intros r. apply (assign_product_frame now sets r). }
    rewrite Hafter. intros [= <- <-].
    destruct (assign_product_frame now sets before) as (Hid & Hown & Hcre).
    exists before, (fold_left (Dml.assign_product now) sets before).
    split; [reflexivity|]. split; [exact Hafter|]. split; [reflexivity|].
    split; [exact Hid|]. split; [exact Hown|]. split; [exact Hcre|].
    split; [|split; [|split; reflexivity]].
    + unfold Sql.set_products, Dml.update_products. cbn [products].
      apply (update_where_column product_id_of).
      intros r. destruct (assign_product_frame now sets r) as (H1 & H2 & H3).
      rewrite H1, H2, H3. reflexivity.
    + intros other Hother.
      unfold Sql.product_by_id, Sql.set_products, Dml.update_products.
      cbn [products].
      apply (find_update_other product_id_of); [|exact Hother].
      intros r. apply (assign_product_frame now sets r).
Qed.

Lemma UpdateProduct_keeps_id_owner_created_at_witness :
  exists before after,
    Sql.product_by_id 1 shop_db = Some before
    /\ Sql.product_by_id 1
         (store_of (CumRoadService.UpdateProduct 500 1
                      (ProductUpdateInput.mk (Some "Gadget") None (Some 20%float) None)
                      (token_of 1 "a@x.com") shop_db))
       = Some after
    /\ product_name after = "Gadget"
    /\ product_user_id after = product_user_id before
    /\ product_created_at after = product_created_at before.
Proof.
  destruct (UpdateProduct_keeps_id_owner_created_at 500 1
              (ProductUpdateInput.mk (Some "Gadget") None (Some 20%float) None)
              (token_of 1 "a@x.com") shop_db
              (mkStore (users shop_db) 2
                 [mkProductRow 1 "Gadget" (Some "") 20%float (Some "") 1 300 500]
                 1 (orders shop_db) 2)
              (Product.mk 1 "Gadget" (Some "") 20%float (Some "") 1 300 500)
              eq_refl)
    as (before & after & Hb & Ha & Hp & _ & Hown & Hcre & _).
  exists before, after. repeat split; try assumption.
  vm_compute in Ha. injection Ha as <-. reflexivity.
Defined.

(** ** Reading orders *)

(** C9. With a valid token, asking for an order that exists but belongs
    to another user raises the very fault, Resource Not Found for an order,
    that asking for an id without any order raises, whatever 64-bit
    integer that id is and whatever the store; neither call changes the
    store. *)
Theorem GetOrderById_foreign_order_not_found (now oid : Z) (token : option Token)
    (payload : Claims) (db : Store) (row : OrderRow) :
  authenticates now token payload ->
  order_ids_unique db ->
  Sql.order_by_id oid db = Some row ->
  order_user_id row <> claim_user_id payload ->
  CumRoadService.GetOrderById now oid token db
  = (Raised (ResourceNotFound "order"), db)
  /\ forall absent db0,
       Sql.int64 absent = true ->
       Sql.order_by_id absent db0 = None ->
       CumRoadService.GetOrderById now absent token db0
       = (Raised (ResourceNotFound "order"), db0).
Proof.
  intros Hauth Hpk Hrow Hforeign.
  assert (Hnone : forall i d,
            CumRoadService.bind_rowid Sql.order_by_id i d = (Returned tt, d) ->
            (forall o, In o (orders d) ->
               (order_id_of o =? i) && (order_user_id o =? claim_user_id payload)
               = false) ->
            CumRoadService.GetOrderById now i token d
            = (Raised (ResourceNotFound "order"), d)).
  { intros i d Hbind Hd. unfold CumRoadService.GetOrderById, bind.
    rewrite (authenticate_ok _ _ _ _ Hauth), Hbind.
    unfold read_db, Dml.select_orders.
    rewrite (filter_nil _ _ Hd). reflexivity. }
  split.
  - apply Hnone; [apply (bind_rowid_found _ _ _ row Hrow)|]. intros o Ho.
    destruct (Z.eqb_spec (order_id_of o) oid) as [E|E]; [|reflexivity].
    apply (find_key_In order_id_of) in Hrow. destruct Hrow as [Hin Hid].
    assert (o = row)
      by (apply (key_determines_row order_id_of (orders db)); auto; congruence).
    subst o. cbn [andb]. apply Z.eqb_neq, Hforeign.
  - intros absent db0 Hfits Habsent.
    apply Hnone; [apply bind_rowid_int64, Hfits|]. intros o Ho.
    unfold Sql.order_by_id in Habsent.
    rewrite (find_none _ _ Habsent o Ho). reflexivity.
Qed.

Lemma GetOrderById_foreign_order_not_found_witness :
  CumRoadService.GetOrderById 500 2 (token_of 1 "a@x.com") shop_db
  = (Raised (ResourceNotFound "order"), shop_db)
  /\ CumRoadService.GetOrderById 500 7 (token_of 1 "a@x.com") shop_db
     = (Raised (ResourceNotFound "order"), shop_db).
Proof.
  assert (Hauth : authenticates 500 (token_of 1 "a@x.com")
                    (mkClaims 1 "a@x.com" 86500))
    by (eexists; split; reflexivity).
  assert (Hpk : order_ids_unique shop_db).
  { unfold order_ids_unique. simpl.
    repeat constructor; simpl; intuition discriminate. }
  destruct (GetOrderById_foreign_order_not_found 500 2 (token_of 1 "a@x.com")
              (mkClaims 1 "a@x.com" 86500) shop_db
              (mkOrderRow 2 2 1 1 10%float "pending" 410 410)
              Hauth Hpk eq_refl)
    as [Hforeign Habsent].
  - simpl. discriminate.
  - split; [exact Hforeign | apply Habsent; reflexivity].
Defined.

(** The caller's own order is returned with its product. *)
Example GetOrderById_own_order :
  result_of (CumRoadService.GetOrderById 500 1 (token_of 1 "a@x.com") shop_db)
  = Returned (Order.mk 1 1 1 3 30%float "pending" 400 400
                (Product.mk 1 "Widget" (Some "") 10%float (Some "") 1 300 300)).
Proof. reflexivity. Qed.

Lemma In_select_orders (c : OrderRow -> bool) (db : Store) (v : Order.t) :
  In v (Dml.select_orders c db) <->
  exists o p, In o (orders db) /\ c o = true
              /\ Sql.product_by_id (order_product_id o) db = Some p
              /\ v = Dml.order_columns o p.
Proof.
  unfold Dml.select_orders. rewrite in_flat_map. split.
  - intros (o & Ho & Hv). apply filter_In in Ho. destruct Ho as [Hin Hc].
    unfold Dml.join_product in Hv.
    destruct (Sql.product_by_id (order_product_id o) db) as [p|] eqn:Hp;
      [|contradiction].
    destruct Hv as [<- | []]. exists o, p. auto.
  - intros (o & p & Hin & Hc & Hp & ->). exists o. split.
    + apply filter_In. auto.
    + unfold Dml.join_product. rewrite Hp. left. reflexivity.
Qed.

Lemma flat_map_agree {A B : Type} (f g : A -> list B) (l : list A) :
  (forall a, In a l -> f a = g a) -> flat_map f l = flat_map g l.
Proof.
  induction l as [|a l IH]; simpl; [reflexivity|].
  intros H. rewrite (H a (or_introl eq_refl)). f_equal.
  apply IH. intros a' Ha'. apply H. right. exact Ha'.
Qed.

(** The join reads only the products that the selected orders refer to. *)
Lemma select_orders_agree (c : OrderRow -> bool) (db db2 : Store) :
  filter c (orders db2) = filter c (orders db) ->
  (forall o, In o (orders db) -> c o = true ->
     Sql.product_by_id (order_product_id o) db2
     = Sql.product_by_id (order_product_id o) db) ->
  Dml.select_orders c db2 = Dml.select_orders c db.
Proof.
  intros Hrows Hprod. unfold Dml.select_orders. rewrite Hrows.
  apply flat_map_agree. intros o Ho.
  apply filter_In in Ho. destruct Ho as [Hin Hc].
  unfold Dml.join_product. rewrite (Hprod o Hin Hc). reflexivity.
Qed.

(** C7, as stated, fails: after the product of the caller's order has been
    deleted, the order row is still there and still the caller's, but
    [GetAllOrders] does not return it. *)
Lemma GetAllOrders_omits_order_of_deleted_product :
  orders withdrawn_product_db = [mkOrderRow 1 1 1 2 20%float "pending" 400 400]
  /\ AuthManager.verify_token 700 (AuthManager.generate_token 100 1 "a@x.com")
     = Some (mkClaims 1 "a@x.com" 86500)
  /\ CumRoadService.GetAllOrders 700 (token_of 1 "a@x.com") withdrawn_product_db
     = (Returned [], withdrawn_product_db).
Proof. repeat split. Qed.

(** C7, amended. [GetAllOrders] returns exactly the caller's own orders
    whose product still exists, each with that product's row; so every
    returned order is the caller's, and on two stores that agree on the
    caller's own orders and on the products those orders refer to it
    returns the same list, whatever the other users' orders are. *)
Theorem GetAllOrders_own_joined_orders (now : Z) (token : option Token)
    (payload : Claims) (db : Store) :
  authenticates now token payload ->
  exists result,
    CumRoadService.GetAllOrders now token db = (Returned result, db)
    /\ (forall v, In v result <->
          exists o p, In o (orders db)
                      /\ order_user_id o = claim_user_id payload
                      /\ Sql.product_by_id (order_product_id o) db = Some p
                      /\ v = Dml.order_columns o p)
    /\ (forall v, In v result -> Order.user_id v = claim_user_id payload)
    /\ forall db2,
         filter (fun o => order_user_id o =? claim_user_id payload) (orders db2)
         = filter (fun o => order_user_id o =? claim_user_id payload) (orders db) ->
         (forall o, In o (orders db) ->
            order_user_id o = claim_user_id payload ->
            Sql.product_by_id (order_product_id o) db2
            = Sql.product_by_id (order_product_id o) db) ->
         CumRoadService.GetAllOrders now token db2 = (Returned result, db2).
Proof.
  intros Hauth.
  set (own := fun o => order_user_id o =? claim_user_id payload).
  assert (Hrun : forall d, CumRoadService.GetAllOrders now token d
                           = (Returned (Dml.select_orders own d), d)).
  { intros d. unfold CumRoadService.GetAllOrders, bind.
    rewrite (authenticate_ok _ _ _ _ Hauth). reflexivity. }
  assert (Hmem : forall v, In v (Dml.select_orders own db) <->
            exists o p, In o (orders db)
                        /\ order_user_id o = claim_user_id payload
                        /\ Sql.product_by_id (order_product_id o) db = Some p
                        /\ v = Dml.order_columns o p).
  { intros v. rewrite In_select_orders. split.
    - intros (o & p & Hin & Hc & Hp & Hv). exists o, p.
      repeat split; auto. apply Z.eqb_eq, Hc.
    - intros (o & p & Hin & Hc & Hp & Hv). exists o, p.
      repeat split; auto. apply Z.eqb_eq, Hc. }
  exists (Dml.select_orders own db). split; [apply Hrun|].
  split; [exact Hmem|]. split.
  - intros v Hv. apply Hmem in Hv. destruct Hv as (o & p & _ & Ho & _ & ->).
    exact Ho.
  - intros db2 Hrows Hprod. rewrite Hrun. f_equal. f_equal.
    apply select_orders_agree; [exact Hrows|].
    intros o Hin Hc. apply Hprod; [exact Hin | apply Z.eqb_eq, Hc].
Qed.

Lemma GetAllOrders_own_joined_orders_witness :
  CumRoadService.GetAllOrders 500 (token_of 1 "a@x.com") shop_db_other_orders
  = (Returned [Order.mk 1 1 1 3 30%float "pending" 400 400
                 (Product.mk 1 "Widget" (Some "") 10%float (Some "") 1 300 300)],
     shop_db_other_orders).
Proof.
  assert (Hauth : authenticates 500 (token_of 1 "a@x.com")
                    (mkClaims 1 "a@x.com" 86500))
    by (eexists; split; reflexivity).
  destruct (GetAllOrders_own_joined_orders 500 (token_of 1 "a@x.com")
              (mkClaims 1 "a@x.com" 86500) shop_db Hauth)
    as (result & Hrun & _ & _ & Hsame).
  injection Hrun as <-.
  apply Hsame.
  - reflexivity.
  - intros o Hin Hown. simpl in Hin.
    destruct Hin as [<- | [<- | []]]; [reflexivity | discriminate Hown].
Defined.

(** ** Creating and updating orders *)

Lemma filter_fresh_key {A : Type} (key : A -> Z) (l : list A) (i : Z) :
  ~ In i (map key l) -> filter (fun r => key r =? i) l = [].
Proof.
  intros Hfresh. apply filter_nil. intros x Hx.
  apply Z.eqb_neq. intros E. apply Hfresh. rewrite <- E. apply in_map, Hx.
Qed.

(** What [CreateOrder] does when the input is valid, the product exists
    and the total can be stored. *)
Lemma CreateOrder_valid (now P q : Z) (token : option Token) (payload : Claims)
    (db : Store) (prod : ProductRow) (total : float) :
  authenticates now token payload ->
  P <> 0 -> 1 <= q -> Sql.int64 q = true ->
  Sql.product_by_id P db = Some prod ->
  Py.float_mul_int (product_price prod) q = Some total ->
  PrimFloat.is_nan total = false ->
  let oid := Sql.next_rowid (map order_id_of (orders db)) (orders_seq db) in
  let row := mkOrderRow oid (claim_user_id payload) P q total "pending" now now in
  CumRoadService.CreateOrder now (OrderInput.mk (Some P) (Some q)) token db
  = (Returned (Dml.order_columns row prod),
     Sql.set_orders (orders db ++ [row]) oid db).
Proof.
  intros Hauth HP Hq Hfits Hprod Hmul Hnan oid row.
  unfold CumRoadService.CreateOrder, bind.
  rewrite (authenticate_ok _ _ _ _ Hauth).
  cbn [OrderInput.product_id OrderInput.quantity Py.truthy_int Py.the_int].
  destruct (Z.eqb_spec P 0) as [|_]; [contradiction|].
  destruct (Z.eqb_spec q 0) as [|_]; [lia|].
  destruct (Z.ltb_spec q 1) as [|_]; [lia|].
  cbn [negb orb]. rewrite (bind_rowid_found _ _ _ prod Hprod).
  unfold read_db. rewrite Hprod, Hmul. rewrite (bind_int_int64 _ _ Hfits).
  unfold Sql.real_is_null. rewrite Hnan. unfold commit, ret.
  fold oid. fold row.
  unfold Dml.select_orders, Sql.set_orders. cbn [orders].
  rewrite filter_app.
  rewrite (filter_fresh_key order_id_of) by apply next_rowid_fresh.
  subst row. cbn [filter app order_id_of]. rewrite Z.eqb_refl.
  cbn [flat_map]. unfold Dml.join_product, Sql.product_by_id.
  cbn [order_product_id products].
  unfold Sql.product_by_id in Hprod. rewrite Hprod. reflexivity.
Qed.

(** Whenever [CreateOrder] returns an order for a product that exists, the
    input was valid and the total is the product of the price and the
    quantity. *)
Lemma CreateOrder_returned (now P q : Z) (token : option Token) (db db' : Store)
    (prod : ProductRow) (order : Order.t) :
  Sql.product_by_id P db = Some prod ->
  CumRoadService.CreateOrder now (OrderInput.mk (Some P) (Some q)) token db
  = (Returned order, db') ->
  exists payload total,
    authenticates now token payload /\ P <> 0 /\ 1 <= q /\ Sql.int64 q = true
    /\ Py.float_mul_int (product_price prod) q = Some total
    /\ PrimFloat.is_nan total = false.
Proof.
  intros Hprod. unfold CumRoadService.CreateOrder, bind.
  destruct (authenticate_cases now token db) as [(payload & Hauth & ->) | (f & ->)];
    [|discriminate].
  cbn [OrderInput.product_id OrderInput.quantity Py.truthy_int Py.the_int].
  destruct (Z.eqb_spec P 0) as [|HP]; [discriminate|].
  destruct (Z.eqb_spec q 0) as [|Hq0]; [discriminate|].
  destruct (Z.ltb_spec q 1) as [|Hq]; [discriminate|].
  cbn [negb orb]. rewrite (bind_rowid_found _ _ _ prod Hprod).
  unfold read_db. rewrite Hprod.
  destruct (Py.float_mul_int (product_price prod) q) as [total|] eqn:Hmul;
    [|discriminate].
  unfold CumRoadService.bind_int.
  destruct (Sql.int64 q) eqn:Hfits; [|discriminate].
  unfold Sql.real_is_null.
  destruct (PrimFloat.is_nan total) eqn:Hnan; [discriminate|].
  intros _. exists payload, total. auto 7.
Qed.

(** The joined row that [UpdateOrder] reads back after its UPDATE. *)
Lemma select_updated_order (now oid seq : Z) (sets : list Dml.order_set)
    (db : Store) (row : OrderRow) (prod : ProductRow) :
  Sql.order_by_id oid db = Some row ->
  Sql.product_by_id (order_product_id row) db = Some prod ->
  exists rest,
    Dml.select_orders (fun o => order_id_of o =? oid)
      (Sql.set_orders (Dml.update_orders now sets oid (orders db)) seq db)
    = Dml.order_columns (fold_left (Dml.assign_order now) sets row) prod :: rest.
Proof.
  intros Hrow Hprod. unfold Dml.select_orders, Sql.set_orders, Dml.update_orders.
  cbn [orders].
  rewrite (filter_update_where order_id_of (fold_left (Dml.assign_order now) sets))
    by (intros r; destruct (assign_order_frame now sets r) as (-> & _); reflexivity).
  destruct (filter_head _ _ _ Hrow) as (rest & ->).
  apply (find_key_In order_id_of) in Hrow. destruct Hrow as [_ Hid].
  cbn [map flat_map]. rewrite Hid, Z.eqb_refl.
  unfold Dml.join_product at 1, Sql.product_by_id. cbn [products].
  destruct (assign_order_frame now sets row) as (_ & _ & -> & _).
  unfold Sql.product_by_id in Hprod. rewrite Hprod.
  eexists. reflexivity.
Qed.

Lemma select_stored_order (oid : Z) (db : Store) (row : OrderRow) (prod : ProductRow) :
  Sql.order_by_id oid db = Some row ->
  Sql.product_by_id (order_product_id row) db = Some prod ->
  exists rest,
    Dml.select_orders (fun o => order_id_of o =? oid) db
    = Dml.order_columns row prod :: rest.
Proof.
  intros Hrow Hprod. unfold Dml.select_orders.
  destruct (filter_head _ _ _ Hrow) as (rest & ->).
  cbn [flat_map]. unfold Dml.join_product at 1. rewrite Hprod.
  eexists. reflexivity.
Qed.

Lemma order_by_id_updated (now oid seq : Z) (sets : list Dml.order_set)
    (db : Store) (row : OrderRow) :
  Sql.order_by_id oid db = Some row ->
  Sql.order_by_id oid
    (Sql.set_orders (Dml.update_orders now sets oid (orders db)) seq db)
  = Some (fold_left (Dml.assign_order now) sets row).
Proof.
  intros Hrow. unfold Sql.order_by_id, Sql.set_orders, Dml.update_orders.
  cbn [orders].
  rewrite (find_update_where order_id_of (fold_left (Dml.assign_order now) sets))
    by (intros r; apply (assign_order_frame now sets r)).
  unfold Sql.order_by_id in Hrow. rewrite Hrow. reflexivity.
Qed.

(** What [UpdateOrder] does for the owner of an order whose product exists,
    in terms of the [updates] list it builds. *)
Lemma UpdateOrder_owner (now oid : Z) (upd : OrderUpdateInput.t)
    (token : option Token) (payload : Claims) (db : Store)
    (row : OrderRow) (prod : ProductRow) (qsets : list Dml.order_set) :
  authenticates now token payload ->
  Sql.order_by_id oid db = Some row ->
  order_user_id row = claim_user_id payload ->
  Sql.product_by_id (order_product_id row) db = Some prod ->
  CumRoadService.quantity_updates db (order_product_id row) upd = Returned qsets ->
  existsb Dml.order_set_overflow (qsets ++ CumRoadService.status_updates upd) = false ->
  existsb Dml.order_set_null (qsets ++ CumRoadService.status_updates upd) = false ->
  let sets := qsets ++ CumRoadService.status_updates upd in
  CumRoadService.UpdateOrder now oid upd token db
  = match sets with
    | [] => (Returned (Dml.order_columns row prod), db)
    | _ :: _ =>
        (Returned (Dml.order_columns
                     (fold_left (Dml.assign_order now)
                        (sets ++ [Dml.SetOrderUpdatedAt]) row) prod),
         Sql.set_orders
           (Dml.update_orders now (sets ++ [Dml.SetOrderUpdatedAt]) oid (orders db))
           (orders_seq db) db)
    end.
Proof.
  intros Hauth Hrow Hown Hprod Hq Hover Hnull sets.
  unfold CumRoadService.UpdateOrder, bind.
  rewrite (authenticate_ok _ _ _ _ Hauth).
  rewrite (bind_rowid_found _ _ _ row Hrow). unfold read_db. rewrite Hrow.
  rewrite Hown, Z.eqb_refl. cbn [negb]. rewrite Hq. fold sets.
  destruct sets as [|a sets'] eqn:Hsets.
  - unfold ret. destruct (select_stored_order oid db row prod Hrow Hprod) as (rest & ->).
    reflexivity.
  - fold sets in Hnull, Hover. rewrite Hsets in Hnull, Hover.
    rewrite Hover, Hnull. unfold commit.
    destruct (select_updated_order now oid (orders_seq db)
                ((a :: sets') ++ [Dml.SetOrderUpdatedAt]) db row prod Hrow Hprod)
      as (rest & ->).
    reflexivity.
Qed.

Lemma status_updates_cases (upd : OrderUpdateInput.t) :
  CumRoadService.status_updates upd = []
  \/ exists st, OrderUpdateInput.status upd = Some st
                /\ CumRoadService.status_listed st = true
                /\ CumRoadService.status_updates upd = [Dml.SetOrderStatus st].
Proof.
  unfold CumRoadService.status_updates.
  destruct (OrderUpdateInput.status upd) as [st|]; [|left; reflexivity].
  destruct (Py.truthy_str (Some st)); [|left; reflexivity].
  cbn [Py.the_str andb].
  destruct (CumRoadService.status_listed st) eqn:Hst; [|left; reflexivity].
  right. exists st. auto.
Qed.

Lemma quantity_updates_valid (db : Store) (pid q : Z) (st : option string)
    (prod : ProductRow) :
  1 <= q ->
  Sql.product_by_id pid db = Some prod ->
  CumRoadService.quantity_updates db pid (OrderUpdateInput.mk (Some q) st)
  = match Py.float_mul_int (product_price prod) q with
    | Some total => Returned [Dml.SetOrderQuantity q; Dml.SetOrderTotalPrice total]
    | None => Crashed CumRoadService.int_too_large
    end.
Proof.
  intros Hq Hprod. unfold CumRoadService.quantity_updates.
  cbn [OrderUpdateInput.quantity Py.truthy_int Py.the_int].
  destruct (Z.eqb_spec q 0) as [|_]; [lia|].
  destruct (Z.leb_spec 1 q) as [_|]; [|lia].
  cbn [negb andb]. rewrite Hprod. reflexivity.
Qed.

(** What the owner's [UpdateOrder] with a quantity of at least 1 does when
    the product exists and the new total can be stored. *)
Lemma UpdateOrder_quantity (now oid q : Z) (st : option string)
    (token : option Token) (payload : Claims) (db : Store)
    (row : OrderRow) (prod : ProductRow) (total : float) :
  authenticates now token payload ->
  Sql.order_by_id oid db = Some row ->
  order_user_id row = claim_user_id payload ->
  Sql.product_by_id (order_product_id row) db = Some prod ->
  1 <= q -> Sql.int64 q = true ->
  Py.float_mul_int (product_price prod) q = Some total ->
  PrimFloat.is_nan total = false ->
  exists order db',
    CumRoadService.UpdateOrder now oid (OrderUpdateInput.mk (Some q) st) token db
    = (Returned order, db')
    /\ Order.quantity order = q
    /\ Order.total_price order = total
    /\ Order.status order
       = match CumRoadService.status_updates (OrderUpdateInput.mk (Some q) st) with
         | Dml.SetOrderStatus s :: _ => s
         | _ => order_status row
         end
    /\ Sql.order_by_id oid db'
       = Some (mkOrderRow (order_id_of row) (order_user_id row) (order_product_id row)
                 q total (Order.status order) (order_created_at row) now).
Proof.
  intros Hauth Hrow Hown Hprod Hq Hfits Hmul Hnan.
  set (upd := OrderUpdateInput.mk (Some q) st).
  assert (Hqs : CumRoadService.quantity_updates db (order_product_id row) upd
                = Returned [Dml.SetOrderQuantity q; Dml.SetOrderTotalPrice total]).
  { unfold upd. rewrite (quantity_updates_valid db _ q st prod Hq Hprod), Hmul.
    reflexivity. }
  assert (Hover : existsb Dml.order_set_overflow
                    ([Dml.SetOrderQuantity q; Dml.SetOrderTotalPrice total]
                     ++ CumRoadService.status_updates upd) = false).
  { destruct (status_updates_cases upd) as [-> | (s & _ & _ & ->)];
      cbn; rewrite Hfits; reflexivity. }
  assert (Hnull : existsb Dml.order_set_null
                    ([Dml.SetOrderQuantity q; Dml.SetOrderTotalPrice total]
                     ++ CumRoadService.status_updates upd) = false).
  { destruct (status_updates_cases upd) as [-> | (s & _ & _ & ->)];
      cbn; unfold Sql.real_is_null; rewrite Hnan; reflexivity. }
  pose proof (UpdateOrder_owner now oid upd token payload db row prod _
                Hauth Hrow Hown Hprod Hqs Hover Hnull) as Hrun.
  cbv zeta in Hrun. cbn [app] in Hrun.
  eexists _, _. split; [exact Hrun|].
  rewrite (order_by_id_updated now oid _ _ db row Hrow).
  destruct (status_updates_cases upd) as [-> | (s & _ & _ & ->)];
    cbn; repeat split; reflexivity.
Qed.

(** C2. For a product [P] that exists: whenever [CreateOrder] for [P]
    and quantity [q] returns an order, its total, also as stored, is the
    float product of [P]'s price and [q]; whenever an [UpdateOrder] that
    supplies a quantity [q >= 1] for an order of [P] returns, the total,
    also as stored, is the float product of the price [P] has in the store
    at that call and [q], whatever total the order row held before; and
    both calls do return an order when the caller is authenticated (and
    owns the order), the input is valid, the quantity is a 64-bit integer
    and the total can be stored. *)
Theorem total_price_is_current_price_times_quantity (now P q : Z)
    (token : option Token) (db : Store) (prod : ProductRow) :
  Sql.product_by_id P db = Some prod ->
  (forall order db',
     CumRoadService.CreateOrder now (OrderInput.mk (Some P) (Some q)) token db
     = (Returned order, db') ->
     Py.float_mul_int (product_price prod) q = Some (Order.total_price order)
     /\ Order.quantity order = q
     /\ option_map order_total_price (Sql.order_by_id (Order.id order) db')
        = Some (Order.total_price order))
  /\ (forall oid row st order db',
        Sql.order_by_id oid db = Some row ->
        order_product_id row = P ->
        1 <= q ->
        CumRoadService.UpdateOrder now oid (OrderUpdateInput.mk (Some q) st) token db
        = (Returned order, db') ->
        Py.float_mul_int (product_price prod) q = Some (Order.total_price order)
        /\ Order.quantity order = q
        /\ option_map order_total_price (Sql.order_by_id oid db')
           = Some (Order.total_price order))
  /\ (forall payload total,
        authenticates now token payload ->
        1 <= q ->
        Sql.int64 q = true ->
        Py.float_mul_int (product_price prod) q = Some total ->
        PrimFloat.is_nan total = false ->
        (P <> 0 ->
         exists order db',
           CumRoadService.CreateOrder now (OrderInput.mk (Some P) (Some q)) token db
           = (Returned order, db')
           /\ Order.total_price order = total)
        /\ (forall oid row st,
              Sql.order_by_id oid db = Some row ->
              order_user_id row = claim_user_id payload ->
              order_product_id row = P ->
              exists order db',
                CumRoadService.UpdateOrder now oid (OrderUpdateInput.mk (Some q) st)
                  token db
                = (Returned order, db')
                /\ Order.total_price order = total)).
Proof.
  intros Hprod. split; [|split].
  - intros order db' Hrun.
    destruct (CreateOrder_returned now P q token db db' prod order Hprod Hrun)
      as (payload & total & Hauth & HP & Hq & Hfits & Hmul & Hnan).
    rewrite (CreateOrder_valid now P q token payload db prod total
               Hauth HP Hq Hfits Hprod Hmul Hnan) in Hrun.
    injection Hrun as <- <-.
    cbn [Dml.order_columns Order.total_price Order.quantity Order.id
         order_total_price order_quantity order_id_of].
    split; [exact Hmul|]. split; [reflexivity|].
    unfold Sql.order_by_id, Sql.set_orders. cbn [orders].
    rewrite find_app_fresh
      by (apply (find_id_fresh order_id_of); apply next_rowid_fresh).
    cbn [order_id_of]. rewrite Z.eqb_refl. reflexivity.
  - intros oid row st order db' Hrow HrowP Hq Hrun. subst P.
    assert (Hfacts : exists payload total,
              authenticates now token payload
              /\ order_user_id row = claim_user_id payload
              /\ Sql.int64 q = true
              /\ Py.float_mul_int (product_price prod) q = Some total
              /\ PrimFloat.is_nan total = false).
    { revert Hrun. unfold CumRoadService.UpdateOrder, bind.
      destruct (authenticate_cases now token db)
        as [(payload & Hauth & ->) | (f & ->)]; [|discriminate].
      rewrite (bind_rowid_found _ _ _ row Hrow).
      unfold read_db. rewrite Hrow.
      destruct (Z.eqb_spec (order_user_id row) (claim_user_id payload)) as [Hown|];
        [|discriminate].
      cbn [negb]. rewrite (quantity_updates_valid db _ q st prod Hq Hprod).
      destruct (Py.float_mul_int (product_price prod) q) as [total|];
        [|discriminate].
      destruct (Sql.int64 q) eqn:Hfits.
      2: { destruct (status_updates_cases (OrderUpdateInput.mk (Some q) st))
             as [-> | (s & _ & _ & ->)];
             cbn; rewrite Hfits; discriminate. }
      destruct (PrimFloat.is_nan total) eqn:Hnan.
      - destruct (status_updates_cases (OrderUpdateInput.mk (Some q) st))
          as [-> | (s & _ & _ & ->)];
          cbn; rewrite Hfits; unfold Sql.real_is_null; rewrite Hnan; discriminate.
      - intros _. exists payload, total. auto. }
    destruct Hfacts as (payload & total & Hauth & Hown & Hfits & Hmul & Hnan).
    destruct (UpdateOrder_quantity now oid q st token payload db row prod total
                Hauth Hrow Hown Hprod Hq Hfits Hmul Hnan)
      as (order' & db'' & Hrun' & Hquant & Htotal & _ & Hstored).
    rewrite Hrun' in Hrun. injection Hrun as <- <-.
    rewrite Hstored, Htotal. auto.
  - intros payload total Hauth Hq Hfits Hmul Hnan. split.
    + intros HP. eexists _, _. split.
      * apply (CreateOrder_valid now P q token payload db prod total); assumption.
      * reflexivity.
    + intros oid row st Hrow Hown HrowP. subst P.
      destruct (UpdateOrder_quantity now oid q st token payload db row prod total
                  Hauth Hrow Hown Hprod Hq Hfits Hmul Hnan)
        as (order & db' & Hrun & _ & Htotal & _).
      exists order, db'. auto.
Qed.

Lemma total_price_is_current_price_times_quantity_witness :
  (exists order db',
     CumRoadService.CreateOrder 500 (OrderInput.mk (Some 1) (Some 3))
       (token_of 1 "a@x.com") shop_db
     = (Returned order, db')
     /\ Order.total_price order = 30%float)
  /\ (exists order db',
        CumRoadService.UpdateOrder 500 1 (OrderUpdateInput.mk (Some 5) None)
          (token_of 1 "a@x.com") shop_db
        = (Returned order, db')
        /\ Order.total_price order = 50%float).
Proof.
  assert (Hauth : authenticates 500 (token_of 1 "a@x.com")
                    (mkClaims 1 "a@x.com" 86500))
    by (eexists; split; reflexivity).
  pose (widget := mkProductRow 1 "Widget" (Some "") 10%float (Some "") 1 300 300).
  split.
  - destruct (total_price_is_current_price_times_quantity 500 1 3
                (token_of 1 "a@x.com") shop_db widget eq_refl)
      as (_ & _ & Hreturns).
    destruct (Hreturns (mkClaims 1 "a@x.com" 86500) 30%float Hauth)
      as [Hcreate _]; [lia | reflexivity | reflexivity | reflexivity |].
    apply Hcreate. discriminate.
  - destruct (total_price_is_current_price_times_quantity 500 1 5
                (token_of 1 "a@x.com") shop_db widget eq_refl)
      as (_ & _ & Hreturns).
    destruct (Hreturns (mkClaims 1 "a@x.com" 86500) 50%float Hauth)
      as [_ Hupdate]; [lia | reflexivity | reflexivity | reflexivity |].
    apply (Hupdate 1 (mkOrderRow 1 1 1 3 30%float "pending" 400 400) None);
      reflexivity.
Defined.

(** The total follows the price at update time: an order made at price 10
    and updated to quantity 5 after the price has become 20 totals 100. *)
Example UpdateOrder_reads_price_at_update_time :
  let tok := token_of 1 "a@x.com" in
  let db1 := store_of (CumRoadService.CreateOrder 500
                         (OrderInput.mk (Some 1) (Some 3)) tok shop_db) in
  let db2 := store_of (CumRoadService.UpdateProduct 600 1
                         (ProductUpdateInput.mk None None (Some 20%float) None)
                         tok db1) in
  option_map order_total_price (Sql.order_by_id 3 db1) = Some 30%float
  /\ result_of (CumRoadService.UpdateOrder 700 3 (OrderUpdateInput.mk (Some 5) None)
                  tok db2)
     = Returned (Order.mk 3 1 1 5 100%float "pending" 500 700
                   (Product.mk 1 "Widget" (Some "") 20%float (Some "") 1 300 600)).
Proof. split; reflexivity. Qed.

(** Once the product is gone, the owner's [UpdateOrder] with a new
    quantity stores the quantity, leaves the total as it was and then
    fails on reading the order back. *)
Example UpdateOrder_of_deleted_product :
  let r := CumRoadService.UpdateOrder 700 1 (OrderUpdateInput.mk (Some 3) None)
             (token_of 1 "a@x.com") withdrawn_product_db in
  result_of r = Crashed CumRoadService.none_subscript
  /\ orders (store_of r) = [mkOrderRow 1 1 1 3 20%float "pending" 400 700].
Proof. split; reflexivity. Qed.




Lemma status_updates_listed (q : option Z) (st : string) :
  CumRoadService.status_listed st = true ->
  CumRoadService.status_updates (OrderUpdateInput.mk q (Some st))
  = [Dml.SetOrderStatus st].
Proof.
  intros Hst. unfold CumRoadService.status_updates.
  cbn [OrderUpdateInput.status Py.the_str]. rewrite Hst.
  destruct st; [discriminate Hst | reflexivity].
Qed.




(** ** CreateProduct *)

(** A float below zero is neither zero nor NaN. *)
Lemma negative_is_nonzero (p : float) :
  PrimFloat.ltb p PrimFloat.zero = true ->
  PrimFloat.eqb p PrimFloat.zero = false /\ PrimFloat.is_nan p = false.
Proof.
  unfold PrimFloat.is_nan. rewrite ltb_spec, !eqb_spec.
  change (Prim2SF PrimFloat.zero) with (S754_zero false).
  destruct (Prim2SF p) as [s| s | | s m e]; try destruct s; cbn;
    try discriminate; auto.
  all: unfold SFltb, SFeqb, SFcompare; cbn.
  all: try discriminate.
  all: intros _; split; try reflexivity.
  all: rewrite Z.compare_refl, Pos.compare_refl; reflexivity.
Qed.

(** What the spyne [CreateProduct] does with a name and a price that pass
    its test and a price that can be stored. *)
Lemma CreateProduct_valid (now : Z) (token : option Token) (payload : Claims)
    (nm : string) (descr url : option string) (p : float) (db : Store) :
  authenticates now token payload ->
  nm <> "" ->
  PrimFloat.eqb p PrimFloat.zero = false ->
  PrimFloat.is_nan p = false ->
  let pid := Sql.next_rowid (map product_id_of (products db)) (products_seq db) in
  let row := mkProductRow pid nm (Some (Py.str_or descr "")) p
               (Some (Py.str_or url "")) (claim_user_id payload) now now in
  CumRoadService.CreateProduct now (ProductInput.mk (Some nm) descr (Some p) url)
    token db
  = (Returned (Dml.product_columns row),
     Sql.set_products (products db ++ [row]) pid db).
Proof.
  intros Hauth Hnm Hzero Hnan pid row.
  unfold CumRoadService.CreateProduct, bind.
  rewrite (authenticate_ok _ _ _ _ Hauth).
  cbn [ProductInput.name ProductInput.price ProductInput.description
       ProductInput.image_url Py.the_str Py.the_float Py.truthy_float].
  rewrite (truthy_str_Some nm Hnm), Hzero. cbn [negb orb].
  unfold read_db, Sql.real_is_null. rewrite Hnan. unfold commit, ret.
  fold pid. fold row.
  unfold Sql.product_by_id, Sql.set_products. cbn [products].
  rewrite find_app_fresh
    by (apply (find_id_fresh product_id_of); apply next_rowid_fresh).
  subst row. cbn [product_id_of]. rewrite Z.eqb_refl. reflexivity.
Qed.

(** C3, as stated, fails: the spyne [CreateProduct] accepts the negative
    price -5 and writes the product row. *)
Lemma CreateProduct_accepts_negative_price :
  PrimFloat.ltb (-5)%float 0%float = true
  /\ CumRoadService.CreateProduct 500
       (ProductInput.mk (Some "Refund") None (Some (-5)%float) None)
       (token_of 1 "a@x.com") shop_db
     = (Returned (Product.mk 2 "Refund" (Some "") (-5)%float (Some "") 1 500 500),
        mkStore (users shop_db) 2
          [mkProductRow 1 "Widget" (Some "") 10%float (Some "") 1 300 300;
           mkProductRow 2 "Refund" (Some "") (-5)%float (Some "") 1 500 500]
          2 (orders shop_db) 2).
Proof. split; reflexivity. Qed.

(** A float above zero is neither zero nor NaN. *)
Lemma positive_is_nonzero (p : float) :
  PrimFloat.ltb PrimFloat.zero p = true ->
  PrimFloat.eqb p PrimFloat.zero = false /\ PrimFloat.is_nan p = false.
Proof.
  unfold PrimFloat.is_nan. rewrite ltb_spec, !eqb_spec.
  change (Prim2SF PrimFloat.zero) with (S754_zero false).
  destruct (Prim2SF p) as [s| s | | s m e]; try destruct s; cbn;
    try discriminate; auto.
  all: unfold SFltb, SFeqb, SFcompare; cbn.
  all: try discriminate.
  all: intros _; split; try reflexivity.
  all: rewrite Z.compare_refl, Pos.compare_refl; reflexivity.
Qed.

(** The spyne [CreateProduct] refuses a missing or empty name and a missing
    or zero price, before anything is written. *)
Lemma CreateProduct_refused (now : Z) (token : option Token) (payload : Claims)
    (inp : ProductInput.t) (db : Store) :
  authenticates now token payload ->
  Py.truthy_str (ProductInput.name inp) = false
  \/ Py.truthy_float (ProductInput.price inp) = false ->
  CumRoadService.CreateProduct now inp token db
  = (Raised (ValidationError "Name and price are required"), db).
Proof.
  intros Hauth Hbad. unfold CumRoadService.CreateProduct, bind.
  rewrite (authenticate_ok _ _ _ _ Hauth).
  destruct Hbad as [-> | ->]; [|rewrite orb_true_r]; reflexivity.
Qed.

Section SimplifiedCreateProduct.

Variable float_of_str : string -> option float.

Variables (now : Z) (t : Token) (payload : Claims).
Variables (params : CumRoadSOAPService.Params) (fields : list (string * option string)).
Variable db : Store.

Hypothesis token_given :
  Py.dict_find "token" params = Some (CumRoadSOAPService.Simple (Some t)).
Hypothesis token_valid : AuthManager.verify_token now t = Some payload.
Hypothesis product_given :
  Py.dict_find "product" params = Some (CumRoadSOAPService.Complex fields).

Let name := CumRoadSOAPService.get "name" fields.
Let price := CumRoadSOAPService.get "price" fields.

(** Past authentication, [create_product] is its validation and insert. *)
Lemma create_product_authenticated :
  CumRoadSOAPService.create_product float_of_str now params db
  = if negb (Py.truthy_str name) || negb (Py.truthy_str price)
    then (Returned (CumRoadSOAPService.soap_fault "Client" "Validation Error"
                      (Some "Name and price are required")), db)
    else
      match float_of_str (Py.the_str price) with
      | None =>
          (Returned (CumRoadSOAPService.soap_fault "Client" "Validation Error"
                       (Some "Invalid price format")), db)
      | Some p =>
          if PrimFloat.is_nan p
          then (Crashed (CumRoadService.not_null_failed "products.price"), db)
          else
            let pid :=
              Sql.next_rowid (map product_id_of (products db)) (products_seq db) in
            let row :=
              mkProductRow pid (Py.the_str name)
                (CumRoadSOAPService.get_default "description" "" fields) p
                (CumRoadSOAPService.get_default "image_url" "" fields)
                (claim_user_id payload) now now in
            (Returned (CumRoadSOAPService.CreateProductResponse
                         (CumRoadSOAPService.product_element row)),
             Sql.set_products (products db ++ [row]) pid db)
      end.
Proof.
  unfold CumRoadSOAPService.create_product. rewrite token_given.
  destruct t as [claims key | s]; [|discriminate token_valid].
  rewrite token_valid. unfold bind, CumRoadSOAPService.fields_of.
  rewrite product_given. unfold ret. fold name. fold price.
  destruct (negb (Py.truthy_str name) || negb (Py.truthy_str price));
    [reflexivity|].
  destruct (float_of_str (Py.the_str price)) as [p|]; [|reflexivity].
  unfold read_db, Sql.real_is_null.
  destruct (PrimFloat.is_nan p); [reflexivity|].
  unfold commit, Sql.product_by_id, Sql.set_products. cbn [products].
  rewrite find_app_fresh
    by (apply (find_id_fresh product_id_of); apply next_rowid_fresh).
  cbn [product_id_of]. rewrite Z.eqb_refl. reflexivity.
Qed.

End SimplifiedCreateProduct.

(** C3, amended. For an authenticated caller, [CreateProduct] raises the
    Validation Error fault and writes nothing when the name is absent or
    empty or the price is absent or zero; every other price that is not
    NaN, the negative ones included, is accepted and a product row with
    that price is written.  The simplified service does the same with the
    price text: absent, empty or no number is a Validation Error and no
    write; every number it parses to, zero and the negative ones included,
    is stored. *)
Theorem CreateProduct_validation (now : Z) (token : option Token) (payload : Claims)
    (db : Store) :
  authenticates now token payload ->
  (forall inp,
     Py.truthy_str (ProductInput.name inp) = false
     \/ Py.truthy_float (ProductInput.price inp) = false ->
     CumRoadService.CreateProduct now inp token db
     = (Raised (ValidationError "Name and price are required"), db))
  /\ (forall nm descr url,
        CumRoadService.CreateProduct now
          (ProductInput.mk nm descr (Some 0%float) url) token db
        = (Raised (ValidationError "Name and price are required"), db))
  /\ (forall nm descr url p,
        nm <> "" ->
        PrimFloat.ltb p 0%float = true \/ PrimFloat.ltb 0%float p = true ->
        exists product row,
          CumRoadService.CreateProduct now
            (ProductInput.mk (Some nm) descr (Some p) url) token db
          = (Returned product,
             Sql.set_products (products db ++ [row]) (product_id_of row) db)
          /\ product = Dml.product_columns row
          /\ product_price row = p
          /\ product_name row = nm
          /\ product_user_id row = claim_user_id payload)
  /\ (forall float_of_str t params fields,
        token = Some t ->
        Py.dict_find "token" params = Some (CumRoadSOAPService.Simple (Some t)) ->
        Py.dict_find "product" params = Some (CumRoadSOAPService.Complex fields) ->
        let name := CumRoadSOAPService.get "name" fields in
        let price := CumRoadSOAPService.get "price" fields in
        (Py.truthy_str name = false \/ Py.truthy_str price = false ->
         CumRoadSOAPService.create_product float_of_str now params db
         = (Returned (CumRoadSOAPService.soap_fault "Client" "Validation Error"
                        (Some "Name and price are required")), db))
        /\ (Py.truthy_str name = true -> Py.truthy_str price = true ->
            float_of_str (Py.the_str price) = None ->
            CumRoadSOAPService.create_product float_of_str now params db
            = (Returned (CumRoadSOAPService.soap_fault "Client" "Validation Error"
                           (Some "Invalid price format")), db))
        /\ (forall p,
              Py.truthy_str name = true -> Py.truthy_str price = true ->
              float_of_str (Py.the_str price) = Some p ->
              PrimFloat.is_nan p = false ->
              exists product row,
                CumRoadSOAPService.create_product float_of_str now params db
                = (Returned (CumRoadSOAPService.CreateProductResponse product),
                   Sql.set_products (products db ++ [row]) (product_id_of row) db)
                /\ Product.price product = p
                /\ product_price row = p
                /\ product_user_id row = claim_user_id payload)).
Proof.
  intros Hauth. split; [|split; [|split]].
  - intros inp Hbad. apply (CreateProduct_refused now token payload inp db Hauth Hbad).
  - intros nm descr url.
    apply (CreateProduct_refused now token payload _ db Hauth).
    right. reflexivity.
  - intros nm descr url p Hnm Hsign.
    assert (Hp : PrimFloat.eqb p PrimFloat.zero = false /\ PrimFloat.is_nan p = false)
      by (destruct Hsign; [apply negative_is_nonzero | apply positive_is_nonzero];
          assumption).
    destruct Hp as [Hzero Hnan].
    pose proof (CreateProduct_valid now token payload nm descr url p db
                  Hauth Hnm Hzero Hnan) as Hrun.
    cbv zeta in Hrun. eexists _, _. split; [exact Hrun|].
    repeat split; reflexivity.
  - intros float_of_str t params fields -> Htok Hprod name price.
    assert (Hvalid : AuthManager.verify_token now t = Some payload).
    { destruct Hauth as (t' & [= <-] & Hv). exact Hv. }
    pose proof (create_product_authenticated float_of_str now t payload params
                  fields db Htok Hvalid Hprod) as Hrun.
    cbv zeta in Hrun. subst name price.
    split; [|split].
    + intros [Hn | Hp]; rewrite Hrun.
      * rewrite Hn. reflexivity.
      * rewrite Hp. cbn [negb]. rewrite orb_true_r. reflexivity.
    + intros Hn Hp Hparse. rewrite Hrun, Hn, Hp, Hparse. reflexivity.
    + intros p Hn Hp Hparse Hnan. rewrite Hn, Hp, Hparse in Hrun.
      cbn [negb orb] in Hrun. rewrite Hnan in Hrun.
      eexists _, _. split; [exact Hrun|].
      repeat split; reflexivity.
Qed.

Lemma CreateProduct_validation_witness :
  CumRoadService.CreateProduct 500
    (ProductInput.mk (Some "Free") None (Some 0%float) None)
    (token_of 1 "a@x.com") shop_db
  = (Raised (ValidationError "Name and price are required"), shop_db)
  /\ exists product row,
       CumRoadSOAPService.create_product (fun _ => Some 0%float) 500
         [("token", CumRoadSOAPService.Simple
                      (Some (AuthManager.generate_token 100 1 "a@x.com")));
          ("product", CumRoadSOAPService.Complex
                        [("name", Some "Free"); ("price", Some "0")])]
         shop_db
       = (Returned (CumRoadSOAPService.CreateProductResponse product),
          Sql.set_products (products shop_db ++ [row]) (product_id_of row) shop_db)
       /\ Product.price product = 0%float
       /\ product_price row = 0%float
       /\ product_user_id row = 1.
Proof.
  assert (Hauth : authenticates 500 (token_of 1 "a@x.com")
                    (mkClaims 1 "a@x.com" 86500))
    by (eexists; split; reflexivity).
  destruct (CreateProduct_validation 500 (token_of 1 "a@x.com")
              (mkClaims 1 "a@x.com" 86500) shop_db Hauth)
    as (_ & Hzero & _ & Hsimple).
  split; [apply Hzero|].
  destruct (Hsimple (fun _ => Some 0%float)
              (AuthManager.generate_token 100 1 "a@x.com")
              [("token", CumRoadSOAPService.Simple
                           (Some (AuthManager.generate_token 100 1 "a@x.com")));
               ("product", CumRoadSOAPService.Complex
                             [("name", Some "Free"); ("price", Some "0")])]
              [("name", Some "Free"); ("price", Some "0")]
              eq_refl eq_refl eq_refl)
    as (_ & _ & Hstored).
  apply Hstored; reflexivity.
Defined.

(** ** Email uniqueness *)

Lemma NoDup_snoc {A : Type} (l : list A) (x : A) :
  NoDup l -> ~ In x l -> NoDup (l ++ [x]).
Proof.
  induction l as [|a l IH]; simpl; intros Hnd Hx.
  - constructor; [tauto | constructor].
  - inversion Hnd as [|? ? Ha Hl]; subst. constructor.
    + rewrite in_app_iff. simpl. intros [H | [H | []]]; [tauto | subst; tauto].
    + apply IH; tauto.
Qed.

Lemma NoDup_map_filter {A B : Type} (f : A -> B) (c : A -> bool) (l : list A) :
  NoDup (map f l) -> NoDup (map f (filter c l)).
Proof.
  induction l as [|a l IH]; simpl; intros Hnd; [constructor|].
  inversion Hnd as [|? ? Ha Hl]; subst.
  destruct (c a); simpl; [|apply IH, Hl].
  constructor; [|apply IH, Hl].
  intros Hin. apply Ha. apply in_map_iff in Hin.
  destruct Hin as (x & Hfx & Hx). apply filter_In in Hx.
  rewrite <- Hfx. apply in_map. tauto.
Qed.

Lemma user_by_email_None (e : string) (db : Store) :
  Sql.user_by_email e db = None -> ~ In e (map user_email (users db)).
Proof.
  unfold Sql.user_by_email. intros Hnone Hin.
  apply in_map_iff in Hin. destruct Hin as (u & Hu & Hin).
  pose proof (find_none _ _ Hnone u Hin) as Hneq. cbv beta in Hneq.
  rewrite Hu, String.eqb_refl in Hneq. discriminate.
Qed.

Lemma user_by_email_Some (e : string) (db : Store) (u : UserRow) :
  In u (users db) -> user_email u = e -> exists r, Sql.user_by_email e db = Some r.
Proof.
  intros Hin He. unfold Sql.user_by_email.
  destruct (find (fun r => String.eqb (user_email r) e) (users db)) as [r|] eqn:Hf.
  - exists r. reflexivity.
  - pose proof (find_none _ _ Hf u Hin) as Hneq. cbv beta in Hneq.
    rewrite He, String.eqb_refl in Hneq. discriminate.
Qed.

(** Case analysis over the branches of a handler once its definition is
    unfolded. *)
Ltac authenticate now token db :=
  destruct (authenticate_cases now token db) as [(?payload & ? & ->) | (? & ->)].

Ltac branches :=
  repeat match goal with
         | |- context [match ?x with _ => _ end] => destruct x
         end.

(** The fault with which [CreateUser] refuses an email that a row already
    has: the tests of presence and of the password's length come before
    the lookup of the email.  Nothing is written. *)
Lemma CreateUser_taken_email (now : Z) (inp : UserInput.t) (db : Store)
    (e : string) (r : UserRow) :
  UserInput.email inp = Some e ->
  Sql.user_by_email e db = Some r ->
  CumRoadService.CreateUser now inp db
  = (Raised (if negb (Py.truthy_str (Some e))
                || negb (Py.truthy_str (UserInput.password inp))
             then ValidationError "Email and password are required"
             else if Py.len (Py.the_str (UserInput.password inp)) <? 8
             then InvalidPassword
             else EmailAlreadyRegistered),
     db).
Proof.
  intros He Hr. unfold CumRoadService.CreateUser. rewrite He.
  destruct (negb (Py.truthy_str (Some e))
            || negb (Py.truthy_str (UserInput.password inp))); [reflexivity|].
  cbn [Py.the_str].
  destruct (Py.len (Py.the_str (UserInput.password inp)) <? 8); [reflexivity|].
  unfold bind, read_db. rewrite Hr. reflexivity.
Qed.

(** The same for [create_user] of the simplified service. *)
Lemma create_user_taken_email (now : Z) (params : CumRoadSOAPService.Params)
    (fields : list (string * option string)) (db : Store) (e : string) (r : UserRow) :
  Py.dict_find "user" params = Some (CumRoadSOAPService.Complex fields) ->
  CumRoadSOAPService.get "email" fields = Some e ->
  Sql.user_by_email e db = Some r ->
  let password := CumRoadSOAPService.get "password" fields in
  CumRoadSOAPService.create_user now params db
  = (Returned
       (if negb (Py.truthy_str (Some e)) || negb (Py.truthy_str password)
        then CumRoadSOAPService.soap_fault "Client" "Validation Error"
               (Some "Email and password are required")
        else if Py.len (Py.the_str password) <? 8
        then CumRoadSOAPService.soap_fault "Client" "Invalid Password"
               (Some "Password must be at least 8 characters long")
        else CumRoadSOAPService.soap_fault "Client" "Email Already Registered"
               (Some "The email address is already registered")),
     db).
Proof.
  intros Hparams He Hr password.
  unfold CumRoadSOAPService.create_user, CumRoadSOAPService.fields_of, bind.
  rewrite Hparams. unfold ret. rewrite He. fold password.
  destruct (negb (Py.truthy_str (Some e)) || negb (Py.truthy_str password));
    [reflexivity|].
  cbn [Py.the_str].
  destruct (Py.len (Py.the_str password) <? 8); [reflexivity|].
  unfold read_db. rewrite Hr. reflexivity.
Qed.

(** The three cases of the tests that come before the lookup. *)
Lemma password_tests (e : string) (password : option string) :
  (e = "" \/ Py.truthy_str password = false ->
   negb (Py.truthy_str (Some e)) || negb (Py.truthy_str password) = true)
  /\ (forall pw, e <> "" -> password = Some pw -> pw <> "" ->
        negb (Py.truthy_str (Some e)) || negb (Py.truthy_str password) = false
        /\ (Py.len (Py.the_str password) <? 8) = (Py.len pw <? 8)).
Proof.
  split.
  - intros [-> | ->]; [reflexivity | apply orb_true_r].
  - intros pw He -> Hpw.
    rewrite (truthy_str_Some e He), (truthy_str_Some pw Hpw). split; reflexivity.
Qed.

Lemma CreateUser_emails_unique (now : Z) (inp : UserInput.t) (db : Store) :
  emails_unique db -> emails_unique (store_of (CumRoadService.CreateUser now inp db)).
Proof.
  intros Hu. unfold CumRoadService.CreateUser.
  destruct (negb (Py.truthy_str (UserInput.email inp))
            || negb (Py.truthy_str (UserInput.password inp))); [exact Hu|].
  destruct (Py.len (Py.the_str (UserInput.password inp)) <? 8); [exact Hu|].
  unfold bind, read_db.
  destruct (Sql.user_by_email (Py.the_str (UserInput.email inp)) db) eqn:Hfree;
    [exact Hu|].
  unfold commit.
  assert (Hnew : emails_unique
            (Sql.set_users
               (users db
                ++ [mkUserRow
                      (Sql.next_rowid (map user_id_of (users db)) (users_seq db))
                      (Py.the_str (UserInput.email inp))
                      (AuthManager.hash_password (Py.the_str (UserInput.password inp)))
                      (Py.str_or (UserInput.name inp)
                         (Py.split_at_0 (Py.the_str (UserInput.email inp))))
                      "user" now now])
               (Sql.next_rowid (map user_id_of (users db)) (users_seq db)) db)).
  { unfold emails_unique, Sql.set_users. cbn [users]. rewrite map_app.
    apply NoDup_snoc; [exact Hu | apply user_by_email_None, Hfree]. }
  fetch_user; [|exact Hnew]. branches; exact Hnew.
Qed.

Lemma UpdateUser_emails_unique (now uid : Z) (upd : UserUpdateInput.t)
    (token : option Token) (db : Store) :
  emails_unique db ->
  emails_unique (store_of (CumRoadService.UpdateUser now uid upd token db)).
Proof.
  intros Hu.
  assert (Hupd : forall sets,
            emails_unique
              (Sql.set_users (Dml.update_users now sets uid (users db))
                 (users_seq db) db)).
  { intros sets. unfold emails_unique, Sql.set_users, Dml.update_users.
    cbn [users].
    rewrite (update_where_column user_id_of (fold_left (Dml.assign_user now) sets));
      [exact Hu|].
    intros r. apply (assign_user_frame now sets r). }
  unfold CumRoadService.UpdateUser, bind.
  authenticate now token db; [|exact Hu].
  fetch_user; [|exact Hu]. unfold read_db.
  destruct (option_map Dml.user_columns (Sql.user_by_id uid db)) as [target|];
    [|exact Hu].
  destruct (negb (claim_user_id payload =? uid)
            && negb (String.eqb (User.role target) "admin"));
    [exact Hu|].
  destruct (Py.truthy_str (UserUpdateInput.password upd)).
  - destruct (Py.len (Py.the_str (UserUpdateInput.password upd)) <? 8); [exact Hu|].
    unfold ret, commit.
    destruct (Py.truthy_str (UserUpdateInput.name upd)); cbn [app];
      (fetch_user; [|apply Hupd]); branches; apply Hupd.
  - unfold ret, commit.
    destruct (Py.truthy_str (UserUpdateInput.name upd)); cbn [app];
      (fetch_user; [|first [exact Hu | apply Hupd]]);
      branches; first [exact Hu | apply Hupd].
Qed.

Lemma DeleteUser_emails_unique (now uid : Z) (token : option Token) (db : Store) :
  emails_unique db ->
  emails_unique (store_of (CumRoadService.DeleteUser now uid token db)).
Proof.
  intros Hu. unfold CumRoadService.DeleteUser, bind.
  authenticate now token db; [|exact Hu].
  fetch_user; [|exact Hu]. unfold read_db.
  destruct (option_map Dml.user_columns (Sql.user_by_id uid db)) as [target|];
    [|exact Hu].
  destruct (negb (claim_user_id payload =? uid)
            && negb (String.eqb (User.role target) "admin"));
    [exact Hu|].
  unfold CumRoadService.bind_int. destruct (Sql.int64 uid); [|exact Hu].
  unfold commit, emails_unique, Sql.set_users, Dml.delete_users.
  cbn [store_of snd users ret].
  apply NoDup_map_filter, Hu.
Qed.

(** Closes a goal saying that a handler leaves a table as it was, by going
    through the branches of the handler. *)
Ltac table_untouched now token db :=
  unfold CumRoadService._get_user_by_id, CumRoadService.bind_rowid,
    CumRoadService.bind_int;
  unfold bind; cbv beta iota;
  try (authenticate now token db; [|reflexivity]);
  unfold CumRoadService._raise_soap_fault, read_db, ret, commit, crash, raise;
  repeat (cbv beta iota;
          match goal with
          | |- context [match ?x with _ => _ end] =>
              lazymatch x with
              | context [match _ with _ => _ end] => fail
              | _ => destruct x
              end
          end);
  reflexivity.

Lemma session_and_reads_keep_users (now : Z) (token : option Token) (db : Store) :
  users (store_of (CumRoadService.GetAllUsers db)) = users db
  /\ (forall i, users (store_of (CumRoadService.GetUserById i db)) = users db)
  /\ (forall c, users (store_of (CumRoadService.Login now c db)) = users db)
  /\ users (store_of (CumRoadService.Logout now token db)) = users db
  /\ users (store_of (CumRoadService.GetAllProducts db)) = users db
  /\ (forall i, users (store_of (CumRoadService.GetProductById i db)) = users db)
  /\ users (store_of (CumRoadService.GetAllOrders now token db)) = users db
  /\ (forall i, users (store_of (CumRoadService.GetOrderById now i token db))
                = users db).
Proof.
  split; [reflexivity|]. split; [intros i|]. 2: split; [intros c|].
  3: split; [|split; [reflexivity|]]. 4: split; [intros i|split; [|intros i]].
  - unfold CumRoadService.GetUserById. table_untouched now token db.
  - unfold CumRoadService.Login. table_untouched now token db.
  - unfold CumRoadService.Logout. table_untouched now token db.
  - unfold CumRoadService.GetProductById. table_untouched now token db.
  - unfold CumRoadService.GetAllOrders. table_untouched now token db.
  - unfold CumRoadService.GetOrderById. table_untouched now token db.
Qed.

Lemma product_writes_keep_users (now : Z) (token : option Token) (db : Store) :
  (forall i, users (store_of (CumRoadService.CreateProduct now i token db)) = users db)
  /\ (forall i u, users (store_of (CumRoadService.UpdateProduct now i u token db))
                  = users db)
  /\ (forall i, users (store_of (CumRoadService.DeleteProduct now i token db))
                = users db).
Proof.
  split; [intros i|split; [intros i u|intros i]].
  - unfold CumRoadService.CreateProduct. table_untouched now token db.
  - unfold CumRoadService.UpdateProduct. table_untouched now token db.
  - unfold CumRoadService.DeleteProduct. table_untouched now token db.
Qed.

Lemma order_writes_keep_users (now : Z) (token : option Token) (db : Store) :
  (forall i, users (store_of (CumRoadService.CreateOrder now i token db)) = users db)
  /\ (forall i u, users (store_of (CumRoadService.UpdateOrder now i u token db))
                  = users db)
  /\ (forall i, users (store_of (CumRoadService.DeleteOrder now i token db))
                = users db).
Proof.
  split; [intros i|split; [intros i u|intros i]].
  - unfold CumRoadService.CreateOrder. table_untouched now token db.
  - unfold CumRoadService.UpdateOrder. table_untouched now token db.
  - unfold CumRoadService.DeleteOrder. table_untouched now token db.
Qed.

Lemma insert_user_emails_unique (db : Store) (row : UserRow) (seq : Z) :
  emails_unique db ->
  Sql.user_by_email (user_email row) db = None ->
  emails_unique (Sql.set_users (users db ++ [row]) seq db).
Proof.
  intros Hu Hfree. unfold emails_unique, Sql.set_users. cbn [users].
  rewrite map_app. apply NoDup_snoc; [exact Hu | apply user_by_email_None, Hfree].
Qed.

Lemma create_user_emails_unique (now : Z) (params : CumRoadSOAPService.Params)
    (db : Store) :
  emails_unique db ->
  emails_unique (store_of (CumRoadSOAPService.create_user now params db)).
Proof.
  intros Hu.
  unfold CumRoadSOAPService.create_user, CumRoadSOAPService.fields_of, bind,
    read_db, ret, commit, crash.
  repeat (cbv beta iota;
          match goal with
          | |- context [match ?x with _ => _ end] =>
              lazymatch x with
              | context [match _ with _ => _ end] => fail
              | _ => destruct x eqn:?
              end
          end);
  first [ exact Hu
        | apply insert_user_emails_unique; [exact Hu | assumption] ].
Qed.

Lemma process_request_emails_unique (float_of_str : string -> option float)
    (now : Z) (operation : string) (params : CumRoadSOAPService.Params) (db : Store) :
  emails_unique db ->
  emails_unique
    (snd (CumRoadSOAPService.process_request float_of_str now operation params db)).
Proof.
  intros Hu.
  assert (Hroute : forall (r : outcome CumRoadSOAPService.response * Store),
            emails_unique (snd r) ->
            emails_unique
              (snd (match r with
                    | (Returned x, db') => (x, db')
                    | (Raised f, db') =>
                        (CumRoadSOAPService.create_soap_fault "Server" "Internal Error"
                           (Some (fault_detail f)), db')
                    | (Crashed e, db') =>
                        (CumRoadSOAPService.create_soap_fault "Server" "Internal Error"
                           (Some (CumRoadSOAPService.exn_str e)), db')
                    end)))
    by (intros [[x|f|e] d] H; exact H).
  unfold CumRoadSOAPService.process_request. apply Hroute.
  destruct (String.eqb operation "CreateUserRequest");
    [apply create_user_emails_unique, Hu|].
  destruct (String.eqb operation "GetAllUsersRequest"); [exact Hu|].
  destruct (String.eqb operation "LoginRequest").
  { unfold emails_unique.
    replace (users (snd (CumRoadSOAPService.login now params db))) with (users db);
      [exact Hu|].
    unfold CumRoadSOAPService.login, CumRoadSOAPService.fields_of.
    table_untouched now (@None Token) db. }
  destruct (String.eqb operation "GetAllProductsRequest"); [exact Hu|].
  destruct (String.eqb operation "CreateProductRequest"); [|exact Hu].
  unfold emails_unique.
  replace (users (snd (CumRoadSOAPService.create_product float_of_str now params db)))
    with (users db); [exact Hu|].
  unfold CumRoadSOAPService.create_product, CumRoadSOAPService.fields_of.
  table_untouched now (@None Token) db.
Qed.

Lemma run_emails_unique (now : Z) (op : Operation.t) (db : Store) :
  emails_unique db -> emails_unique (Operation.run now op db).
Proof.
  intros Hu.
  assert (Hkeep : forall d, users d = users db -> emails_unique d)
    by (intros d Hd; unfold emails_unique; rewrite Hd; exact Hu).
  destruct op as [ | i | i | i u tok | i tok | c | tok | | i tok | i | i u tok
                 | i tok | tok | i tok | i tok | i u tok | i tok ];
    cbn [Operation.run].
  - exact Hu.
  - apply CreateUser_emails_unique, Hu.
  - apply Hkeep, (session_and_reads_keep_users now None db).
  - apply UpdateUser_emails_unique, Hu.
  - apply DeleteUser_emails_unique, Hu.
  - apply Hkeep, (session_and_reads_keep_users now None db).
  - apply Hkeep, (session_and_reads_keep_users now tok db).
  - exact Hu.
  - apply Hkeep, (product_writes_keep_users now tok db).
  - apply Hkeep, (session_and_reads_keep_users now None db).
  - apply Hkeep, (product_writes_keep_users now tok db).
  - apply Hkeep, (product_writes_keep_users now tok db).
  - apply Hkeep, (session_and_reads_keep_users now tok db).
  - apply Hkeep, (order_writes_keep_users now tok db).
  - apply Hkeep, (session_and_reads_keep_users now tok db).
  - apply Hkeep, (order_writes_keep_users now tok db).
  - apply Hkeep, (order_writes_keep_users now tok db).
Qed.

(** C4, as stated, fails: with a password shorter than 8 characters, or
    none, the duplicate email is never looked up and the fault is Invalid
    Password, or Validation Error. *)
Lemma CreateUser_duplicate_email_short_password :
  In "a@x.com" (map user_email (users shop_db))
  /\ CumRoadService.CreateUser 500
       (UserInput.mk (Some "a@x.com") (Some "short") None) shop_db
     = (Raised InvalidPassword, shop_db)
  /\ CumRoadService.CreateUser 500 (UserInput.mk (Some "a@x.com") None None) shop_db
     = (Raised (ValidationError "Email and password are required"), shop_db)
  /\ InvalidPassword <> EmailAlreadyRegistered.
Proof.
  split; [left; reflexivity|]. split; [reflexivity|]. split; [reflexivity|].
  discriminate.
Qed.

(** C4, amended. When some user row already has email [e], [CreateUser]
    with email [e] raises a fault and leaves the store, hence the list
    [GetAllUsers] returns, unchanged.  The fault is Validation Error when
    [e] or the password is missing or empty, Invalid Password when the
    password is shorter than 8 characters, and Email Already Registered
    otherwise, i.e. when [e] is not empty and the password has at least 8
    characters; the simplified service answers with its faults of those
    names.  No operation of either service breaks the uniqueness of
    emails, which holds of the empty store. *)
Theorem duplicate_email_refused_and_emails_stay_unique :
  (forall now inp db e u,
     UserInput.email inp = Some e ->
     In u (users db) ->
     user_email u = e ->
     (e = "" \/ Py.truthy_str (UserInput.password inp) = false ->
      CumRoadService.CreateUser now inp db
      = (Raised (ValidationError "Email and password are required"), db))
     /\ (forall pw,
           e <> "" -> UserInput.password inp = Some pw -> pw <> "" ->
           Py.len pw < 8 ->
           CumRoadService.CreateUser now inp db = (Raised InvalidPassword, db))
     /\ (forall pw,
           e <> "" -> UserInput.password inp = Some pw -> 8 <= Py.len pw ->
           CumRoadService.CreateUser now inp db = (Raised EmailAlreadyRegistered, db))
     /\ result_of (CumRoadService.GetAllUsers
                     (store_of (CumRoadService.CreateUser now inp db)))
        = result_of (CumRoadService.GetAllUsers db))
  /\ (forall now params fields db e u,
        Py.dict_find "user" params = Some (CumRoadSOAPService.Complex fields) ->
        CumRoadSOAPService.get "email" fields = Some e ->
        In u (users db) ->
        user_email u = e ->
        let password := CumRoadSOAPService.get "password" fields in
        (e = "" \/ Py.truthy_str password = false ->
         CumRoadSOAPService.create_user now params db
         = (Returned (CumRoadSOAPService.soap_fault "Client" "Validation Error"
                        (Some "Email and password are required")), db))
        /\ (forall pw,
              e <> "" -> password = Some pw -> pw <> "" -> Py.len pw < 8 ->
              CumRoadSOAPService.create_user now params db
              = (Returned (CumRoadSOAPService.soap_fault "Client" "Invalid Password"
                             (Some "Password must be at least 8 characters long")),
                 db))
        /\ (forall pw,
              e <> "" -> password = Some pw -> 8 <= Py.len pw ->
              CumRoadSOAPService.create_user now params db
              = (Returned (CumRoadSOAPService.soap_fault "Client"
                             "Email Already Registered"
                             (Some "The email address is already registered")),
                 db)))
  /\ emails_unique empty_store
  /\ (forall now op db,
        emails_unique db -> emails_unique (Operation.run now op db))
  /\ (forall float_of_str now operation params db,
        emails_unique db ->
        emails_unique
          (snd (CumRoadSOAPService.process_request float_of_str now operation
                  params db))).
Proof.
  split; [|split; [|split; [|split]]].
  - intros now inp db e u He Hin Hu.
    destruct (user_by_email_Some e db u Hin Hu) as (r & Hr).
    pose proof (CreateUser_taken_email now inp db e r He Hr) as Hrun.
    destruct (password_tests e (UserInput.password inp)) as [Hmissing Hgiven].
    split; [|split; [|split]].
    + intros Hm. rewrite Hrun, (Hmissing Hm). reflexivity.
    + intros pw Hne Hpw Hnonempty Hshort.
      destruct (Hgiven pw Hne Hpw Hnonempty) as [Hreq Hlen].
      rewrite Hrun, Hreq, Hlen.
      destruct (Z.ltb_spec (Py.len pw) 8); [reflexivity | lia].
    + intros pw Hne Hpw Hlong.
      destruct (Hgiven pw Hne Hpw) as [Hreq Hlen]; [apply len_nonempty; lia|].
      rewrite Hrun, Hreq, Hlen.
      destruct (Z.ltb_spec (Py.len pw) 8); [lia | reflexivity].
    + rewrite Hrun. reflexivity.
  - intros now params fields db e u Hparams He Hin Hu password.
    destruct (user_by_email_Some e db u Hin Hu) as (r & Hr).
    pose proof (create_user_taken_email now params fields db e r Hparams He Hr)
      as Hrun.
    cbv zeta in Hrun. fold password in Hrun.
    destruct (password_tests e password) as [Hmissing Hgiven].
    split; [|split].
    + intros Hm. rewrite Hrun, (Hmissing Hm). reflexivity.
    + intros pw Hne Hpw Hnonempty Hshort.
      destruct (Hgiven pw Hne Hpw Hnonempty) as [Hreq Hlen].
      rewrite Hrun, Hreq, Hlen.
      destruct (Z.ltb_spec (Py.len pw) 8); [reflexivity | lia].
    + intros pw Hne Hpw Hlong.
      destruct (Hgiven pw Hne Hpw) as [Hreq Hlen]; [apply len_nonempty; lia|].
      rewrite Hrun, Hreq, Hlen.
      destruct (Z.ltb_spec (Py.len pw) 8); [lia | reflexivity].
  - constructor.
  - exact run_emails_unique.
  - exact process_request_emails_unique.
Qed.

Lemma duplicate_email_refused_and_emails_stay_unique_witness :
  CumRoadService.CreateUser 500
    (UserInput.mk (Some "a@x.com") (Some "anotherlongone") (Some "Imposter")) shop_db
  = (Raised EmailAlreadyRegistered, shop_db)
  /\ CumRoadService.CreateUser 500
       (UserInput.mk (Some "a@x.com") (Some "short") None) shop_db
     = (Raised InvalidPassword, shop_db)
  /\ CumRoadSOAPService.create_user 500
       [("user", CumRoadSOAPService.Complex [("email", Some "a@x.com")])] shop_db
     = (Returned (CumRoadSOAPService.soap_fault "Client" "Validation Error"
                    (Some "Email and password are required")), shop_db)
  /\ emails_unique
       (Operation.run 500
          (Operation.CreateUser
             (UserInput.mk (Some "c@x.com") (Some "longenough3") None)) shop_db).
Proof.
  destruct duplicate_email_refused_and_emails_stay_unique
    as (Hdup & Hsimple & _ & Hinv & _).
  pose (alice := mkUserRow 1 "a@x.com" (Sha256Hex "longenough1") "a" "user" 100 100).
  split; [|split; [|split]].
  - destruct (Hdup 500
                (UserInput.mk (Some "a@x.com") (Some "anotherlongone") (Some "Imposter"))
                shop_db "a@x.com" alice eq_refl (or_introl eq_refl) eq_refl)
      as (_ & _ & Htaken & _).
    apply (Htaken "anotherlongone"); [discriminate | reflexivity |].
    vm_compute. discriminate.
  - destruct (Hdup 500 (UserInput.mk (Some "a@x.com") (Some "short") None)
                shop_db "a@x.com" alice eq_refl (or_introl eq_refl) eq_refl)
      as (_ & Hshort & _).
    apply (Hshort "short"); [discriminate | reflexivity | discriminate |].
    vm_compute. reflexivity.
  - destruct (Hsimple 500
                [("user", CumRoadSOAPService.Complex [("email", Some "a@x.com")])]
                [("email", Some "a@x.com")] shop_db "a@x.com" alice
                eq_refl eq_refl (or_introl eq_refl) eq_refl)
      as (Hmissing & _).
    apply Hmissing. right. reflexivity.
  - apply Hinv. unfold emails_unique. simpl.
    repeat constructor; simpl; intuition discriminate.
Defined.

(** ** The primary key of the orders table *)

Lemma insert_order_ids_unique (db : Store) (row : OrderRow) :
  order_ids_unique db ->
  order_id_of row = Sql.next_rowid (map order_id_of (orders db)) (orders_seq db) ->
  order_ids_unique (Sql.set_orders (orders db ++ [row]) (order_id_of row) db).
Proof.
  intros Hu Hid. unfold order_ids_unique, Sql.set_orders. cbn [orders].
  rewrite map_app. apply NoDup_snoc; [exact Hu|].
  cbn [map]. rewrite Hid. apply next_rowid_fresh.
Qed.

Lemma update_order_ids_unique (now oid seq : Z) (sets : list Dml.order_set)
    (db : Store) :
  order_ids_unique db ->
  order_ids_unique (Sql.set_orders (Dml.update_orders now sets oid (orders db)) seq db).
Proof.
  intros Hu. unfold order_ids_unique, Sql.set_orders, Dml.update_orders.
  cbn [orders].
  rewrite (update_where_keys order_id_of (fold_left (Dml.assign_order now) sets));
    [exact Hu|].
  intros r. apply (assign_order_frame now sets r).
Qed.

Lemma delete_order_ids_unique (oid seq : Z) (db : Store) :
  order_ids_unique db ->
  order_ids_unique (Sql.set_orders (Dml.delete_orders oid (orders db)) seq db).
Proof.
  intros Hu. unfold order_ids_unique, Sql.set_orders, Dml.delete_orders.
  cbn [orders]. apply NoDup_map_filter, Hu.
Qed.

(** Every operation of the spyne service keeps the order ids distinct. *)
Lemma run_order_ids_unique (now : Z) (op : Operation.t) (db : Store) :
  order_ids_unique db -> order_ids_unique (Operation.run now op db).
Proof.
  intros Hu.
  destruct op as [ | i | i | i u tok | i tok | c | tok | | i tok | i | i u tok
                 | i tok | tok | i tok | i tok | i u tok | i tok ];
    cbn [Operation.run];
    unfold CumRoadService.GetAllUsers, CumRoadService.CreateUser,
      CumRoadService.GetUserById, CumRoadService.UpdateUser,
      CumRoadService.DeleteUser, CumRoadService.Login, CumRoadService.Logout,
      CumRoadService.GetAllProducts, CumRoadService.CreateProduct,
      CumRoadService.GetProductById, CumRoadService.UpdateProduct,
      CumRoadService.DeleteProduct, CumRoadService.GetAllOrders,
      CumRoadService.CreateOrder, CumRoadService.GetOrderById,
      CumRoadService.UpdateOrder, CumRoadService.DeleteOrder;
    unfold CumRoadService._get_user_by_id, CumRoadService.bind_rowid,
      CumRoadService.bind_int;
    unfold bind; cbv beta iota zeta;
    try (authenticate now tok db; [|exact Hu]);
    unfold CumRoadService._raise_soap_fault, read_db, ret, commit, crash, raise;
    repeat (cbv beta iota zeta;
            match goal with
            | |- context [match ?x with _ => _ end] =>
                lazymatch x with
                | context [match _ with _ => _ end] => fail
                | _ => destruct x
                end
            end);
    first [ exact Hu
          | apply update_order_ids_unique, Hu
          | apply delete_order_ids_unique, Hu
          | apply (insert_order_ids_unique db (mkOrderRow _ _ _ _ _ _ _ _) Hu);
            reflexivity ].
Qed.

(** * Further properties of the handlers *)

(** Unfolds the handler a call dispatches to. *)
Ltac unfold_handler :=
  unfold CumRoadService.GetAllUsers, CumRoadService.CreateUser,
    CumRoadService.GetUserById, CumRoadService.UpdateUser,
    CumRoadService.DeleteUser, CumRoadService.Login, CumRoadService.Logout,
    CumRoadService.GetAllProducts, CumRoadService.CreateProduct,
    CumRoadService.GetProductById, CumRoadService.UpdateProduct,
    CumRoadService.DeleteProduct, CumRoadService.GetAllOrders,
    CumRoadService.CreateOrder, CumRoadService.GetOrderById,
    CumRoadService.UpdateOrder, CumRoadService.DeleteOrder;
  unfold CumRoadService._get_user_by_id, CumRoadService.bind_rowid,
    CumRoadService.bind_int;
  unfold bind; cbv beta iota zeta.

(** Goes through the branches of an unfolded handler, innermost test
    first, remembering what each test gave. *)
Ltac explore :=
  unfold CumRoadService._raise_soap_fault, read_db, ret, commit, crash, raise;
  repeat (cbv beta iota zeta;
          match goal with
          | |- context [match ?x with _ => _ end] =>
              lazymatch x with
              | context [match _ with _ => _ end] => fail
              | _ => destruct x eqn:?
              end
          end).

Lemma authenticate_no_token (now : Z) (token : option Token) (db : Store) :
  no_token token = true ->
  CumRoadService._authenticate_user now token db = (Raised AuthenticationRequired, db).
Proof.
  destruct token as [[p k|[|c s]]|]; simpl; try discriminate; reflexivity.
Qed.

Lemma authenticate_bad_token (now : Z) (t : Token) (db : Store) :
  no_token (Some t) = false ->
  AuthManager.verify_token now t = None ->
  CumRoadService._authenticate_user now (Some t) db = (Raised InvalidToken, db).
Proof.
  intros Hgiven Hbad. unfold CumRoadService._authenticate_user. rewrite Hbad.
  destruct t as [p k|[|c s]]; try reflexivity. discriminate Hgiven.
Qed.

(** X1. Every operation that takes a token checks it before anything
    else: without a token (absent or empty) the call raises Authentication
    Required, with a token that does not verify (malformed, signed with
    another key, or expired) it raises Invalid Token, and in both cases
    the store is left as it was, whatever the other arguments are. *)
Theorem authentication_comes_first (now : Z) (op : Operation.t) (db : Store)
    (token : option Token) :
  Call.token_argument op = Some token ->
  (no_token token = true ->
   Call.exec now op db = (Call.Faulted AuthenticationRequired, db))
  /\ (forall t,
        token = Some t -> no_token token = false ->
        AuthManager.verify_token now t = None ->
        Call.exec now op db = (Call.Faulted InvalidToken, db))
  /\ (forall issued uid email,
        token = Some (AuthManager.generate_token issued uid email) ->
        issued + 86400 <= now ->
        Call.exec now op db = (Call.Faulted InvalidToken, db)).
Proof.
  intros Htok.
  assert (Hfirst : forall f,
            CumRoadService._authenticate_user now token db = (Raised f, db) ->
            Call.exec now op db = (Call.Faulted f, db)).
  { intros f Hauth.
    destruct op; try discriminate Htok; injection Htok as ->;
      cbn [Call.exec]; unfold_handler; rewrite Hauth; reflexivity. }
  split; [|split].
  - intros Hnone. apply Hfirst, authenticate_no_token, Hnone.
  - intros t -> Hgiven Hbad. apply Hfirst, authenticate_bad_token; assumption.
  - intros issued uid email -> Hlate. apply Hfirst, authenticate_bad_token.
    + reflexivity.
    + unfold AuthManager.verify_token, AuthManager.generate_token.
      cbn [claim_exp]. destruct (Z.ltb_spec now (issued + 86400)); [lia|].
      rewrite andb_false_r. reflexivity.
Qed.

Lemma authentication_comes_first_witness :
  Call.exec 500 (Operation.DeleteOrder 1 None) shop_db
  = (Call.Faulted AuthenticationRequired, shop_db)
  /\ Call.exec 500 (Operation.DeleteOrder 1 (Some (Text "not.a.jwt"))) shop_db
     = (Call.Faulted InvalidToken, shop_db)
  /\ Call.exec 86500 (Operation.DeleteOrder 1 (token_of 1 "a@x.com")) shop_db
     = (Call.Faulted InvalidToken, shop_db).
Proof.
  split; [|split].
  - apply (authentication_comes_first 500 (Operation.DeleteOrder 1 None) shop_db
             None eq_refl).
    reflexivity.
  - apply (authentication_comes_first 500
             (Operation.DeleteOrder 1 (Some (Text "not.a.jwt"))) shop_db
             (Some (Text "not.a.jwt")) eq_refl) with (t := Text "not.a.jwt");
      reflexivity.
  - apply (authentication_comes_first 86500
             (Operation.DeleteOrder 1 (token_of 1 "a@x.com")) shop_db
             (token_of 1 "a@x.com") eq_refl) with (issued := 100) (uid := 1)
                                                  (email := "a@x.com").
    + reflexivity.
    + lia.
Defined.

(** X2. A call that ends in a fault has written nothing: the store after
    it is the store before it, for every operation of the service. *)
Theorem fault_leaves_store_unchanged (now : Z) (op : Operation.t) (db db' : Store)
    (f : ServiceFault) :
  Call.exec now op db = (Call.Faulted f, db') -> db' = db.
Proof.
  destruct op as [ | i | i | i u tok | i tok | c | tok | | i tok | i | i u tok
                 | i tok | tok | i tok | i tok | i u tok | i tok ];
    cbn [Call.exec]; unfold_handler;
    try (authenticate now tok db);
    explore; cbn [Call.status_of]; intros Hend;
    first [ discriminate Hend | injection Hend; congruence ].
Qed.

Lemma fault_leaves_store_unchanged_witness :
  fst (Call.exec 500
         (Operation.UpdateUser 1 (UserUpdateInput.mk (Some "renamed") (Some "short"))
            (token_of 1 "a@x.com"))
         shop_db)
  = Call.Faulted InvalidPassword
  /\ snd (Call.exec 500
            (Operation.UpdateUser 1
               (UserUpdateInput.mk (Some "renamed") (Some "short"))
               (token_of 1 "a@x.com"))
            shop_db)
     = shop_db.
Proof.
  split; [reflexivity|].
  exact (fault_leaves_store_unchanged 500
           (Operation.UpdateUser 1 (UserUpdateInput.mk (Some "renamed") (Some "short"))
              (token_of 1 "a@x.com"))
           shop_db _ InvalidPassword eq_refl).
Defined.

(** X3. The eight operations without a write statement (the four list and
    get-by-id reads of users and products, the two order reads, Login and
    Logout) leave the store as it was, however they end. *)
Theorem reads_leave_store_unchanged (now : Z) (op : Operation.t) (db : Store) :
  Call.reads_only op = true -> snd (Call.exec now op db) = db.
Proof.
  destruct op as [ | i | i | i u tok | i tok | c | tok | | i tok | i | i u tok
                 | i tok | tok | i tok | i tok | i u tok | i tok ];
    cbn [Call.reads_only]; intros Hread; try discriminate Hread;
    cbn [Call.exec]; unfold_handler;
    try (authenticate now tok db);
    explore; reflexivity.
Qed.

Lemma reads_leave_store_unchanged_witness :
  snd (Call.exec 500
         (Operation.Login (LoginInput.mk (Some "a@x.com") (Some "longenough1")))
         shop_db)
  = shop_db.
Proof.
  apply (reads_leave_store_unchanged 500
           (Operation.Login (LoginInput.mk (Some "a@x.com") (Some "longenough1")))).
  reflexivity.
Defined.

(** A token that verifies carries the claims it verifies to, was signed
    with the secret and has not expired. *)
Lemma verified_token_shape (now : Z) (t : Token) (claims : Claims) :
  AuthManager.verify_token now t = Some claims ->
  t = Jwt claims JWT_SECRET /\ now < claim_exp claims.
Proof.
  intros Hv. destruct t as [p k|s]; [|discriminate Hv]. simpl in Hv.
  destruct (String.eqb_spec k JWT_SECRET) as [->|]; [|discriminate Hv].
  destruct (Z.ltb_spec now (claim_exp p)); [|discriminate Hv].
  injection Hv as <-. auto.
Qed.

(** X4. A token issued by [generate_token] verifies, to the user id and
    email it was issued for, at every time before 24 hours have passed
    and at no time from then on; and whatever token verifies was signed
    with the service's secret and has not reached its expiry. *)
Theorem token_verifies_until_expiry (now : Z) (t : Token) (claims : Claims) :
  AuthManager.verify_token now t = Some claims ->
  t = Jwt claims JWT_SECRET
  /\ now < claim_exp claims
  /\ forall issued uid email,
       AuthManager.verify_token now (AuthManager.generate_token issued uid email)
       = if now <? issued + 86400
         then Some (mkClaims uid email (issued + 86400))
         else None.
Proof.
  intros Hv. destruct (verified_token_shape now t claims Hv) as [Hsigned Hfresh].
  split; [exact Hsigned|]. split; [exact Hfresh|].
  intros issued uid email.
  unfold AuthManager.verify_token, AuthManager.generate_token.
  rewrite String.eqb_refl. reflexivity.
Qed.

Lemma token_verifies_until_expiry_witness :
  AuthManager.generate_token 100 1 "a@x.com"
  = Jwt (mkClaims 1 "a@x.com" 86500) JWT_SECRET
  /\ 86499 < 86500
  /\ AuthManager.verify_token 86499 (AuthManager.generate_token 86400 7 "b@x.com")
     = Some (mkClaims 7 "b@x.com" 172800).
Proof.
  destruct (token_verifies_until_expiry 86499
              (AuthManager.generate_token 100 1 "a@x.com")
              (mkClaims 1 "a@x.com" 86500) eq_refl)
    as (Hsigned & Hfresh & Hissue).
  split; [exact Hsigned|]. split; [exact Hfresh|].
  rewrite Hissue. reflexivity.
Defined.

(** X5. Products have no admin override: for a product that exists,
    [UpdateProduct] and [DeleteProduct] by an authenticated caller other
    than its owner raise Unauthorized and write nothing, whatever the
    caller's row in the users table says and whatever the update is. *)
Theorem product_mutation_needs_owner (now pid : Z) (token : option Token)
    (payload : Claims) (db : Store) (row : ProductRow) :
  authenticates now token payload ->
  Sql.product_by_id pid db = Some row ->
  product_user_id row <> claim_user_id payload ->
  (forall upd,
     CumRoadService.UpdateProduct now pid upd token db = (Raised Unauthorized, db))
  /\ CumRoadService.DeleteProduct now pid token db = (Raised Unauthorized, db).
Proof.
  intros Hauth Hrow Hother.
  split; [intros upd|];
    unfold CumRoadService.UpdateProduct, CumRoadService.DeleteProduct, bind;
    rewrite (authenticate_ok _ _ _ _ Hauth);
    rewrite (bind_rowid_found _ _ _ row Hrow); unfold read_db; rewrite Hrow;
    destruct (Z.eqb_spec (product_user_id row) (claim_user_id payload));
    [contradiction | reflexivity | contradiction | reflexivity].
Qed.

Lemma product_mutation_needs_owner_witness :
  CumRoadService.UpdateProduct 500 1
    (ProductUpdateInput.mk None None (Some 1%float) None)
    (token_of 1 "root@x.com") staff_shop_db
  = (Raised Unauthorized, staff_shop_db)
  /\ CumRoadService.DeleteProduct 500 1 (token_of 1 "root@x.com") staff_shop_db
     = (Raised Unauthorized, staff_shop_db).
Proof.
  assert (Hauth : authenticates 500 (token_of 1 "root@x.com")
                    (mkClaims 1 "root@x.com" 86500))
    by (eexists; split; reflexivity).
  destruct (product_mutation_needs_owner 500 1 (token_of 1 "root@x.com")
              (mkClaims 1 "root@x.com" 86500) staff_shop_db
              (mkProductRow 1 "Widget" (Some "") 10%float (Some "") 2 300 300)
              Hauth eq_refl)
    as [Hupdate Hdelete].
  - simpl. discriminate.
  - split; [apply Hupdate | exact Hdelete].
Defined.

(** X6. For an order that exists, [UpdateOrder] and [DeleteOrder] by an
    authenticated caller other than its owner raise Unauthorized and write
    nothing, while on an id without an order they raise Resource Not
    Found when the id is a 64-bit integer and end in the [OverflowError]
    of the bind when it is not: unlike [GetOrderById], the two mutations
    tell a caller whether another user's order exists. *)
Theorem order_mutation_needs_owner (now oid : Z) (token : option Token)
    (payload : Claims) (db : Store) (row : OrderRow) :
  authenticates now token payload ->
  Sql.order_by_id oid db = Some row ->
  order_user_id row <> claim_user_id payload ->
  (forall upd,
     CumRoadService.UpdateOrder now oid upd token db = (Raised Unauthorized, db))
  /\ CumRoadService.DeleteOrder now oid token db = (Raised Unauthorized, db)
  /\ forall absent upd,
       Sql.order_by_id absent db = None ->
       CumRoadService.UpdateOrder now absent upd token db
       = not_found_or_overflow "order" absent db
       /\ CumRoadService.DeleteOrder now absent token db
          = not_found_or_overflow "order" absent db.
Proof.
  intros Hauth Hrow Hother.
  split; [intros upd|split; [|intros absent upd Habsent; split]];
    unfold CumRoadService.UpdateOrder, CumRoadService.DeleteOrder, bind;
    rewrite (authenticate_ok _ _ _ _ Hauth).
  1, 2: rewrite (bind_rowid_found _ _ _ row Hrow); unfold read_db; rewrite Hrow;
    destruct (Z.eqb_spec (order_user_id row) (claim_user_id payload));
    [contradiction | reflexivity].
  all: unfold not_found_or_overflow; destruct (Sql.int64 absent) eqn:Hfits;
    [ rewrite (bind_rowid_int64 _ _ _ Hfits); unfold read_db; rewrite Habsent;
      reflexivity
    | rewrite (bind_rowid_overflow _ _ _ Habsent Hfits); reflexivity ].
Qed.

Lemma order_mutation_needs_owner_witness :
  CumRoadService.DeleteOrder 500 2 (token_of 1 "a@x.com") shop_db
  = (Raised Unauthorized, shop_db)
  /\ CumRoadService.DeleteOrder 500 7 (token_of 1 "a@x.com") shop_db
     = (Raised (ResourceNotFound "order"), shop_db)
  /\ CumRoadService.UpdateOrder 500 9223372036854775808
       (OrderUpdateInput.mk (Some 1) None) (token_of 1 "a@x.com") shop_db
     = (Crashed CumRoadService.int_too_large_for_sqlite, shop_db).
Proof.
  assert (Hauth : authenticates 500 (token_of 1 "a@x.com")
                    (mkClaims 1 "a@x.com" 86500))
    by (eexists; split; reflexivity).
  destruct (order_mutation_needs_owner 500 2 (token_of 1 "a@x.com")
              (mkClaims 1 "a@x.com" 86500) shop_db
              (mkOrderRow 2 2 1 1 10%float "pending" 410 410)
              Hauth eq_refl)
    as (_ & Hdelete & Habsent).
  - simpl. discriminate.
  - split; [exact Hdelete|]. split.
    + apply (Habsent 7 (OrderUpdateInput.mk None None)). reflexivity.
    + apply (Habsent 9223372036854775808 (OrderUpdateInput.mk (Some 1) None)).
      reflexivity.
Defined.

(** X7. Asking for, changing or deleting a user or a product under an id
    that no row has, and ordering a product that no row has, raises
    Resource Not Found for that kind of resource when the id is a 64-bit
    integer, and ends in the [OverflowError] of the bind when it is not;
    either way nothing is written.  For the operations that take a token
    this comes right after the token, before the update is looked at. *)
Theorem absent_ids_are_not_found (now : Z) (token : option Token)
    (payload : Claims) (db : Store) :
  authenticates now token payload ->
  (forall uid,
     Sql.user_by_id uid db = None ->
     CumRoadService.GetUserById uid db = not_found_or_overflow "user" uid db
     /\ (forall upd, CumRoadService.UpdateUser now uid upd token db
                     = not_found_or_overflow "user" uid db)
     /\ CumRoadService.DeleteUser now uid token db
        = not_found_or_overflow "user" uid db)
  /\ (forall pid,
        Sql.product_by_id pid db = None ->
        CumRoadService.GetProductById pid db
        = not_found_or_overflow "product" pid db
        /\ (forall upd, CumRoadService.UpdateProduct now pid upd token db
                        = not_found_or_overflow "product" pid db)
        /\ CumRoadService.DeleteProduct now pid token db
           = not_found_or_overflow "product" pid db
        /\ (forall q, pid <> 0 -> 1 <= q ->
                      CumRoadService.CreateOrder now
                        (OrderInput.mk (Some pid) (Some q)) token db
                      = not_found_or_overflow "product" pid db)).
Proof.
  intros Hauth. split.
  - intros uid Habsent.
    split; [|split; [intros upd|]];
      unfold CumRoadService.GetUserById, CumRoadService.UpdateUser,
        CumRoadService.DeleteUser, bind;
      try rewrite (authenticate_ok _ _ _ _ Hauth);
      rewrite (get_user_absent _ _ Habsent); unfold not_found_or_overflow;
      destruct (Sql.int64 uid); reflexivity.
  - intros pid Habsent.
    assert (Hbind : CumRoadService.bind_rowid Sql.product_by_id pid db
                    = if Sql.int64 pid then (Returned tt, db)
                      else (Crashed CumRoadService.int_too_large_for_sqlite, db)).
    { destruct (Sql.int64 pid) eqn:Hfits.
      - apply bind_rowid_int64, Hfits.
      - apply bind_rowid_overflow; assumption. }
    split; [|split; [intros upd|split; [|intros q Hpid Hq]]];
      unfold CumRoadService.GetProductById, CumRoadService.UpdateProduct,
        CumRoadService.DeleteProduct, CumRoadService.CreateOrder, bind;
      try rewrite (authenticate_ok _ _ _ _ Hauth).
    4: { cbn [OrderInput.product_id OrderInput.quantity Py.truthy_int Py.the_int].
         destruct (Z.eqb_spec pid 0) as [|_]; [contradiction|].
         destruct (Z.eqb_spec q 0) as [|_]; [lia|].
         destruct (Z.ltb_spec q 1) as [|_]; [lia|].
         cbn [negb orb]. rewrite Hbind. unfold not_found_or_overflow.
         destruct (Sql.int64 pid); [|reflexivity].
         unfold read_db. rewrite Habsent. reflexivity. }
    all: rewrite Hbind; unfold not_found_or_overflow;
      destruct (Sql.int64 pid); [|reflexivity];
      unfold read_db; rewrite Habsent; reflexivity.
Qed.

Lemma absent_ids_are_not_found_witness :
  CumRoadService.DeleteUser 500 9 (token_of 1 "a@x.com") shop_db
  = (Raised (ResourceNotFound "user"), shop_db)
  /\ CumRoadService.CreateOrder 500 (OrderInput.mk (Some 9) (Some 1))
       (token_of 1 "a@x.com") shop_db
     = (Raised (ResourceNotFound "product"), shop_db)
  /\ CumRoadService.GetUserById 9223372036854775808 shop_db
     = (Crashed CumRoadService.int_too_large_for_sqlite, shop_db)
  /\ CumRoadService.UpdateProduct 500 (-9223372036854775809)
       (ProductUpdateInput.mk (Some "Gadget") None None None)
       (token_of 1 "a@x.com") shop_db
     = (Crashed CumRoadService.int_too_large_for_sqlite, shop_db).
Proof.
  assert (Hauth : authenticates 500 (token_of 1 "a@x.com")
                    (mkClaims 1 "a@x.com" 86500))
    by (eexists; split; reflexivity).
  destruct (absent_ids_are_not_found 500 (token_of 1 "a@x.com")
              (mkClaims 1 "a@x.com" 86500) shop_db Hauth)
    as [Husers Hproducts].
  split; [|split; [|split]].
  - apply (Husers 9 eq_refl).
  - apply (Hproducts 9 eq_refl); [discriminate | lia].
  - apply (Husers 9223372036854775808 eq_refl).
  - apply (Hproducts (-9223372036854775809) eq_refl).
Defined.

(** The ten handlers that bind an id or a quantity of the caller, each on
    an integer just outside 64 bits. *)
Example integers_outside_64_bits :
  let big := 9223372036854775808 in
  let tok := token_of 1 "a@x.com" in
  let overflow := fun A : Type =>
    @Crashed A CumRoadService.int_too_large_for_sqlite in
  result_of (CumRoadService.GetUserById big shop_db) = overflow _
  /\ result_of (CumRoadService.UpdateUser 500 big
                  (UserUpdateInput.mk (Some "renamed") None) tok shop_db) = overflow _
  /\ result_of (CumRoadService.DeleteUser 500 big tok shop_db) = overflow _
  /\ result_of (CumRoadService.GetProductById big shop_db) = overflow _
  /\ result_of (CumRoadService.UpdateProduct 500 big
                  (ProductUpdateInput.mk (Some "Gadget") None None None) tok shop_db)
     = overflow _
  /\ result_of (CumRoadService.DeleteProduct 500 big tok shop_db) = overflow _
  /\ result_of (CumRoadService.CreateOrder 500 (OrderInput.mk (Some big) (Some 1))
                  tok shop_db) = overflow _
  /\ result_of (CumRoadService.CreateOrder 500 (OrderInput.mk (Some 1) (Some big))
                  tok shop_db) = overflow _
  /\ result_of (CumRoadService.GetOrderById 500 big tok shop_db) = overflow _
  /\ result_of (CumRoadService.UpdateOrder 500 big
                  (OrderUpdateInput.mk (Some 1) None) tok shop_db) = overflow _
  /\ result_of (CumRoadService.UpdateOrder 500 1
                  (OrderUpdateInput.mk (Some big) None) tok shop_db) = overflow _
  /\ result_of (CumRoadService.DeleteOrder 500 big tok shop_db) = overflow _
  /\ result_of (CumRoadService.GetOrderById 500 (-big - 1) tok shop_db) = overflow _
  /\ result_of (CumRoadService.GetOrderById 500 (big - 1) tok shop_db)
     = Raised (ResourceNotFound "order").
Proof. cbv zeta. repeat split. Qed.

(** ** Create, then read *)

Lemma authenticates_same_claims (now1 now2 : Z) (token : option Token)
    (p1 p2 : Claims) :
  authenticates now1 token p1 -> authenticates now2 token p2 -> p1 = p2.
Proof.
  intros (t1 & -> & H1) (t2 & [= <-] & H2).
  destruct (verified_token_shape _ _ _ H1) as (E1 & _).
  destruct (verified_token_shape _ _ _ H2) as (E2 & _).
  congruence.
Qed.

(** What a returning [CreateProduct] has done. *)
Lemma CreateProduct_returned (now : Z) (inp : ProductInput.t) (token : option Token)
    (db db' : Store) (product : Product.t) :
  CumRoadService.CreateProduct now inp token db = (Returned product, db') ->
  exists payload row,
    authenticates now token payload
    /\ product = Dml.product_columns row
    /\ db' = Sql.set_products (products db ++ [row]) (product_id_of row) db
    /\ product_id_of row
       = Sql.next_rowid (map product_id_of (products db)) (products_seq db)
    /\ product_user_id row = claim_user_id payload
    /\ Py.truthy_str (ProductInput.name inp) = true
    /\ ProductInput.price inp = Some (product_price row).
Proof.
  unfold CumRoadService.CreateProduct, bind.
  destruct (authenticate_cases now token db) as [(payload & Hauth & ->) | (f & ->)];
    [|discriminate].
  destruct (Py.truthy_str (ProductInput.name inp)) eqn:Hname; [|discriminate].
  destruct (ProductInput.price inp) as [p|] eqn:Hprice; [|discriminate].
  cbn [negb orb].
  destruct (negb (Py.truthy_float (Some p))); [discriminate|].
  unfold read_db. cbn [Py.the_float].
  destruct (Sql.real_is_null p); [discriminate|].
  unfold commit, ret, Sql.product_by_id, Sql.set_products. cbn [products].
  rewrite find_app_fresh
    by (apply (find_id_fresh product_id_of); apply next_rowid_fresh).
  cbn [product_id_of]. rewrite Z.eqb_refl. intros [= <- <-].
  eexists payload, _. repeat split; try reflexivity. exact Hauth.
Qed.

(** X8. After a [CreateProduct] that returns, the product is there to be
    read: [GetProductById] under the returned id gives back the very
    product that was returned, [GetAllProducts] lists it last after the
    products listed before, the id was not in use before and is above
    every id in the table, and the owner is the caller. *)
Theorem CreateProduct_then_read (now : Z) (inp : ProductInput.t)
    (token : option Token) (db db' : Store) (product : Product.t) :
  CumRoadService.CreateProduct now inp token db = (Returned product, db') ->
  CumRoadService.GetProductById (Product.id product) db' = (Returned product, db')
  /\ (exists before,
        CumRoadService.GetAllProducts db = (Returned before, db)
        /\ CumRoadService.GetAllProducts db' = (Returned (before ++ [product]), db'))
  /\ Sql.product_by_id (Product.id product) db = None
  /\ Forall (fun r => product_id_of r < Product.id product) (products db)
  /\ (forall payload, authenticates now token payload ->
                      Product.user_id product = claim_user_id payload).
Proof.
  intros Hrun.
  destruct (CreateProduct_returned now inp token db db' product Hrun)
    as (payload & row & Hauth & -> & -> & Hid & Hown & _).
  assert (Hfresh : Sql.product_by_id (product_id_of row) db = None)
    by (rewrite Hid; apply (find_id_fresh product_id_of), next_rowid_fresh).
  split; [|split; [|split; [|split]]].
  - assert (Hnew : Sql.product_by_id (product_id_of row)
                     (Sql.set_products (products db ++ [row]) (product_id_of row) db)
                   = Some row).
    { unfold Sql.product_by_id, Sql.set_products. cbn [products].
      rewrite find_app_fresh by exact Hfresh. rewrite Z.eqb_refl. reflexivity. }
    unfold CumRoadService.GetProductById, bind.
    cbn [Dml.product_columns Product.id].
    rewrite (bind_rowid_found _ _ _ row Hnew). unfold read_db. rewrite Hnew.
    reflexivity.
  - eexists. split; [reflexivity|].
    unfold CumRoadService.GetAllProducts, bind, read_db, ret, Sql.set_products.
    cbn [products]. rewrite map_app. reflexivity.
  - exact Hfresh.
  - cbn [Dml.product_columns Product.id]. rewrite Hid. apply Forall_forall.
    intros r Hr. unfold Sql.next_rowid.
    pose proof (fold_max_bound (map product_id_of (products db)) (product_id_of r)
                  (in_map _ _ _ Hr)).
    lia.
  - intros payload' Hauth'. cbn [Dml.product_columns Product.user_id].
    rewrite Hown. f_equal. apply (authenticates_same_claims now now token); assumption.
Qed.

Lemma CreateProduct_then_read_witness :
  let gizmo := Product.mk 2 "Gizmo" (Some "small") 5%float (Some "") 2 500 500 in
  let db' := mkStore (users shop_db) 2
               [mkProductRow 1 "Widget" (Some "") 10%float (Some "") 1 300 300;
                mkProductRow 2 "Gizmo" (Some "small") 5%float (Some "") 2 500 500]
               2 (orders shop_db) 2 in
  CumRoadService.GetProductById 2 db' = (Returned gizmo, db')
  /\ Product.user_id gizmo = 2.
Proof.
  intros gizmo db'.
  destruct (CreateProduct_then_read 500
              (ProductInput.mk (Some "Gizmo") (Some "small") (Some 5%float) None)
              (token_of 2 "b@x.com") shop_db db' gizmo eq_refl)
    as (Hget & _ & _ & _ & Hown).
  split; [exact Hget|].
  apply (Hown (mkClaims 2 "b@x.com" 86500)). eexists; split; reflexivity.
Defined.

(** What a returning [CreateUser] has done. *)
Lemma CreateUser_returned (now : Z) (inp : UserInput.t) (db db' : Store)
    (user : User.t) :
  CumRoadService.CreateUser now inp db = (Returned user, db') ->
  exists e pw,
    UserInput.email inp = Some e /\ UserInput.password inp = Some pw
    /\ e <> "" /\ 8 <= Py.len pw /\ Sql.user_by_email e db = None
    /\ let uid := Sql.next_rowid (map user_id_of (users db)) (users_seq db) in
       let row := mkUserRow uid e (AuthManager.hash_password pw)
                    (Py.str_or (UserInput.name inp) (Py.split_at_0 e)) "user" now now in
       user = Dml.user_columns row
       /\ db' = Sql.set_users (users db ++ [row]) uid db.
Proof.
  intros Hrun.
  assert (Hfields : exists e pw,
            UserInput.email inp = Some e /\ UserInput.password inp = Some pw
            /\ e <> "" /\ 8 <= Py.len pw /\ Sql.user_by_email e db = None).
  { revert Hrun. unfold CumRoadService.CreateUser.
    destruct (Py.truthy_str (UserInput.email inp)) eqn:He; [|discriminate].
    destruct (Py.truthy_str (UserInput.password inp)) eqn:Hpw; [|discriminate].
    apply truthy_str_true in He. destruct He as (e & He & Hne).
    apply truthy_str_true in Hpw. destruct Hpw as (pw & Hpw & _).
    rewrite He, Hpw. cbn [negb orb Py.the_str].
    destruct (Z.ltb_spec (Py.len pw) 8) as [|Hlen]; [discriminate|].
    unfold bind, read_db.
    destruct (Sql.user_by_email e db) eqn:Hfree; [discriminate|].
    intros _. exists e, pw. auto. }
  destruct Hfields as (e & pw & He & Hpw & Hne & Hlen & Hfree).
  exists e, pw. repeat (split; [assumption|]).
  pose proof (CreateUser_new_email now e pw (UserInput.name inp) db Hne Hlen Hfree)
    as Hvalid.
  cbv zeta in Hvalid |- *.
  replace inp with (UserInput.mk (Some e) (Some pw) (UserInput.name inp)) in Hrun
    by (destruct inp; cbn in *; congruence).
  rewrite Hvalid in Hrun. injection Hrun as <- <-. split; reflexivity.
Qed.

(** X9. After a [CreateUser] that returns, [GetUserById] under the
    returned id gives back the very user that was returned and
    [GetAllUsers] lists it last after the users listed before; the new
    user has the email that was given, the role [user] whatever the input
    was, both timestamps equal to the time of the call, and an id that was
    not in use and is above every id in the table; products and orders
    are untouched. *)
Theorem CreateUser_then_read (now : Z) (inp : UserInput.t) (db db' : Store)
    (user : User.t) :
  CumRoadService.CreateUser now inp db = (Returned user, db') ->
  CumRoadService.GetUserById (User.id user) db' = (Returned user, db')
  /\ (exists before,
        CumRoadService.GetAllUsers db = (Returned before, db)
        /\ CumRoadService.GetAllUsers db' = (Returned (before ++ [user]), db'))
  /\ UserInput.email inp = Some (User.email user)
  /\ User.role user = "user"
  /\ User.created_at user = now /\ User.updated_at user = now
  /\ Sql.user_by_id (User.id user) db = None
  /\ Forall (fun r => user_id_of r < User.id user) (users db)
  /\ products db' = products db /\ orders db' = orders db.
Proof.
  intros Hrun.
  destruct (CreateUser_returned now inp db db' user Hrun)
    as (e & pw & He & Hpw & Hne & Hlen & Hfree & Hshape).
  cbv zeta in Hshape. destruct Hshape as [-> ->].
  cbn [Dml.user_columns User.id User.email User.role User.created_at
       User.updated_at user_id_of user_email user_role user_created_at
       user_updated_at user_name].
  assert (Hnew : Sql.user_by_id
                   (Sql.next_rowid (map user_id_of (users db)) (users_seq db)) db
                 = None)
    by (apply (find_id_fresh user_id_of), next_rowid_fresh).
  split; [|split; [|repeat split]].
  - unfold CumRoadService.GetUserById, bind.
    erewrite get_user_found; [reflexivity|].
    unfold Sql.user_by_id, Sql.set_users.
    cbn [users]. rewrite find_app_fresh by exact Hnew.
    cbn [user_id_of]. rewrite Z.eqb_refl. reflexivity.
  - eexists. split; [reflexivity|].
    unfold CumRoadService.GetAllUsers, bind, read_db, ret, Sql.set_users.
    cbn [users]. rewrite map_app. reflexivity.
  - exact He.
  - exact Hnew.
  - apply Forall_forall. intros r Hr. unfold Sql.next_rowid.
    pose proof (fold_max_bound (map user_id_of (users db)) (user_id_of r)
                  (in_map _ _ _ Hr)).
    lia.
Qed.

Lemma CreateUser_then_read_witness :
  let carol := User.mk 3 "c@x.com" "Carol" "user" 500 500 in
  let db' := Sql.set_users
               (users shop_db
                ++ [mkUserRow 3 "c@x.com" (Sha256Hex "longenough3") "Carol" "user"
                      500 500]) 3 shop_db in
  CumRoadService.GetUserById 3 db' = (Returned carol, db')
  /\ User.role carol = "user".
Proof.
  intros carol db'.
  destruct (CreateUser_then_read 500
              (UserInput.mk (Some "c@x.com") (Some "longenough3") (Some "Carol"))
              shop_db db' carol eq_refl)
    as (Hget & _ & _ & Hrole & _).
  split; [exact Hget | exact Hrole].
Defined.

(** What a returning [CreateOrder] has done. *)
Lemma CreateOrder_returned_shape (now : Z) (inp : OrderInput.t)
    (token : option Token) (db db' : Store) (order : Order.t) :
  CumRoadService.CreateOrder now inp token db = (Returned order, db') ->
  exists payload P q prod total,
    authenticates now token payload
    /\ inp = OrderInput.mk (Some P) (Some q)
    /\ 1 <= q
    /\ Sql.product_by_id P db = Some prod
    /\ Py.float_mul_int (product_price prod) q = Some total
    /\ let oid := Sql.next_rowid (map order_id_of (orders db)) (orders_seq db) in
       let row := mkOrderRow oid (claim_user_id payload) P q total "pending" now now in
       order = Dml.order_columns row prod
       /\ db' = Sql.set_orders (orders db ++ [row]) oid db.
Proof.
  intros Hrun.
  destruct inp as [[P|] [q|]];
    try (revert Hrun; unfold CumRoadService.CreateOrder, bind;
         destruct (authenticate_cases now token db)
           as [(payload & Hauth & ->) | (f & ->)];
         [|discriminate];
         cbn [OrderInput.product_id OrderInput.quantity Py.truthy_int];
         rewrite ?orb_true_r; cbn [negb orb]; discriminate).
  destruct (Sql.product_by_id P db) as [prod|] eqn:Hprod.
  - destruct (CreateOrder_returned now P q token db db' prod order Hprod Hrun)
      as (payload & total & Hauth & HP & Hq & Hfits & Hmul & Hnan).
    rewrite (CreateOrder_valid now P q token payload db prod total
               Hauth HP Hq Hfits Hprod Hmul Hnan) in Hrun.
    injection Hrun as <- <-.
    exists payload, P, q, prod, total. cbv zeta. repeat split; auto.
  - exfalso. revert Hrun. unfold CumRoadService.CreateOrder, bind.
    destruct (authenticate_cases now token db)
      as [(payload & Hauth & ->) | (f & ->)]; [|discriminate].
    destruct (negb (Py.truthy_int (OrderInput.product_id (OrderInput.mk (Some P) (Some q))))
              || negb (Py.truthy_int (OrderInput.quantity (OrderInput.mk (Some P) (Some q))))
              || (Py.the_int (OrderInput.quantity (OrderInput.mk (Some P) (Some q))) <? 1));
      [discriminate|].
    cbn [OrderInput.product_id Py.the_int].
    bind_id; [|discriminate].
    unfold read_db. rewrite Hprod.
    discriminate.
Qed.

(** X10. After a [CreateOrder] that returns, the caller reads the order
    back: with the same token, while it is valid, [GetOrderById] under
    the returned id gives back the very order that was returned and
    [GetAllOrders] lists it last after the orders listed before.  The
    order is the caller's, refers to the product asked for, is pending,
    and carries the product row as it is in the store; users and products
    are untouched. *)
Theorem CreateOrder_then_read (now later : Z) (inp : OrderInput.t)
    (token : option Token) (payload : Claims) (db db' : Store) (order : Order.t) :
  CumRoadService.CreateOrder now inp token db = (Returned order, db') ->
  authenticates later token payload ->
  CumRoadService.GetOrderById later (Order.id order) token db' = (Returned order, db')
  /\ (exists before,
        CumRoadService.GetAllOrders later token db = (Returned before, db)
        /\ CumRoadService.GetAllOrders later token db'
           = (Returned (before ++ [order]), db'))
  /\ Order.user_id order = claim_user_id payload
  /\ OrderInput.product_id inp = Some (Order.product_id order)
  /\ Order.status order = "pending"
  /\ option_map Dml.product_columns (Sql.product_by_id (Order.product_id order) db)
     = Some (Order.product order)
  /\ users db' = users db /\ products db' = products db.
Proof.
  intros Hrun Hlater.
  destruct (CreateOrder_returned_shape now inp token db db' order Hrun)
    as (payload0 & P & q & prod & total & Hauth & -> & Hq & Hprod & Hmul & Hshape).
  cbv zeta in Hshape. destruct Hshape as [-> ->].
  assert (payload0 = payload)
    by (apply (authenticates_same_claims now later token); assumption).
  subst payload0.
  set (oid := Sql.next_rowid (map order_id_of (orders db)) (orders_seq db)).
  set (row := mkOrderRow oid (claim_user_id payload) P q total "pending" now now).
  assert (Hjoin : forall d, products d = products db ->
                            Dml.join_product d row = [Dml.order_columns row prod]).
  { intros d Hd. unfold Dml.join_product, Sql.product_by_id. rewrite Hd.
    cbn [row order_product_id]. unfold Sql.product_by_id in Hprod.
    rewrite Hprod. reflexivity. }
  split; [|split; [|repeat split]].
  - unfold CumRoadService.GetOrderById, bind.
    rewrite (authenticate_ok _ _ _ _ Hlater).
    rewrite (bind_rowid_found _ _ _ row).
    2: { unfold Sql.order_by_id, Sql.set_orders. cbn [orders].
         rewrite find_app_fresh
           by (apply (find_id_fresh order_id_of); apply next_rowid_fresh).
         cbn [Dml.order_columns Order.id order_id_of row].
         rewrite Z.eqb_refl. reflexivity. }
    unfold read_db.
    unfold Dml.select_orders, Sql.set_orders. cbn [orders].
    rewrite filter_app.
    rewrite (filter_nil _ (orders db)).
    + cbn [Dml.order_columns Order.id order_id_of row filter app order_user_id].
      rewrite !Z.eqb_refl. cbn [andb flat_map].
      rewrite Hjoin by reflexivity. reflexivity.
    + intros o Ho. cbn [Dml.order_columns Order.id order_id_of row].
      destruct (Z.eqb_spec (order_id_of o) oid) as [E|]; [|reflexivity].
      exfalso. apply (next_rowid_fresh (map order_id_of (orders db)) (orders_seq db)).
      fold oid. rewrite <- E. apply in_map, Ho.
  - eexists. split.
    + unfold CumRoadService.GetAllOrders, bind.
      rewrite (authenticate_ok _ _ _ _ Hlater). reflexivity.
    + unfold CumRoadService.GetAllOrders, bind.
      rewrite (authenticate_ok _ _ _ _ Hlater). unfold read_db, ret.
      f_equal. f_equal. unfold Dml.select_orders, Sql.set_orders. cbn [orders].
      rewrite filter_app, flat_map_app. f_equal.
      cbn [filter row order_user_id]. rewrite Z.eqb_refl. cbn [flat_map].
      rewrite Hjoin by reflexivity. reflexivity.
  - cbn [Dml.order_columns Order.product_id Order.product row order_product_id].
    rewrite Hprod. reflexivity.
Qed.

Lemma CreateOrder_then_read_witness :
  let widget := Product.mk 1 "Widget" (Some "") 10%float (Some "") 1 300 300 in
  let order := Order.mk 3 2 1 4 40%float "pending" 500 500 widget in
  let db' := Sql.set_orders
               (orders shop_db ++ [mkOrderRow 3 2 1 4 40%float "pending" 500 500])
               3 shop_db in
  CumRoadService.GetOrderById 600 3 (token_of 2 "b@x.com") db' = (Returned order, db')
  /\ Order.user_id order = 2.
Proof.
  intros widget order db'.
  assert (Hauth : authenticates 600 (token_of 2 "b@x.com")
                    (mkClaims 2 "b@x.com" 86500))
    by (eexists; split; reflexivity).
  destruct (CreateOrder_then_read 500 600 (OrderInput.mk (Some 1) (Some 4))
              (token_of 2 "b@x.com") (mkClaims 2 "b@x.com" 86500)
              shop_db db' order eq_refl Hauth)
    as (Hget & _ & Hown & _).
  split; [exact Hget | exact Hown].
Defined.

(** ** Delete, then read *)

Section DeletedRows.

Context {A : Type} (key : A -> Z).

Let delete_where (i : Z) (l : list A) : list A :=
  filter (fun r => negb (key r =? i)) l.

Lemma find_deleted (i : Z) (l : list A) :
  find (fun r => key r =? i) (delete_where i l) = None.
Proof.
  unfold delete_where. induction l as [|a l IH]; simpl; [reflexivity|].
  destruct (key a =? i) eqn:E; simpl; [exact IH|]. rewrite E. exact IH.
Qed.

Lemma find_delete_other (i j : Z) (l : list A) :
  j <> i ->
  find (fun r => key r =? j) (delete_where i l) = find (fun r => key r =? j) l.
Proof.
  intros Hji. unfold delete_where. induction l as [|a l IH]; simpl; [reflexivity|].
  destruct (Z.eqb_spec (key a) i) as [E|E]; simpl.
  - destruct (Z.eqb_spec (key a) j) as [E'|]; [lia | exact IH].
  - destruct (key a =? j); [reflexivity | exact IH].
Qed.

End DeletedRows.

(** X11. After a [DeleteProduct] that returns, [GetProductById] under
    that id raises Resource Not Found and every other product reads as
    before.  Nothing cascades: users and orders are untouched, so the
    orders of the deleted product stay stored, but no [GetAllOrders],
    of any caller, returns an order of that product any more. *)
Theorem DeleteProduct_then_read (now pid : Z) (token : option Token)
    (db db' : Store) :
  CumRoadService.DeleteProduct now pid token db = (Returned tt, db') ->
  CumRoadService.GetProductById pid db' = (Raised (ResourceNotFound "product"), db')
  /\ (forall other, other <> pid ->
                    Sql.product_by_id other db' = Sql.product_by_id other db)
  /\ users db' = users db
  /\ orders db' = orders db
  /\ forall later tok listed,
       CumRoadService.GetAllOrders later tok db' = (Returned listed, db') ->
       Forall (fun v => Order.product_id v <> pid) listed.
Proof.
  intros Hrun.
  assert (Hshape : Sql.int64 pid = true
                   /\ db' = Sql.set_products (Dml.delete_products pid (products db))
                              (products_seq db) db).
  { revert Hrun. unfold CumRoadService.DeleteProduct, bind.
    destruct (authenticate_cases now token db) as [(payload & _ & ->) | (f & ->)];
      [|discriminate].
    bind_id; [|discriminate].
    unfold read_db. destruct (Sql.product_by_id pid db) as [row|]; [|discriminate].
    destruct (negb (product_user_id row =? claim_user_id payload)); [discriminate|].
    unfold CumRoadService.bind_int.
    destruct (Sql.int64 pid); [|discriminate].
    intros [= <-]. split; reflexivity. }
  destruct Hshape as [Hfits ->].
  assert (Hgone : Sql.product_by_id pid
                    (Sql.set_products (Dml.delete_products pid (products db))
                       (products_seq db) db) = None)
    by apply (find_deleted product_id_of).
  split; [|split; [|split; [|split]]]; try reflexivity.
  - unfold CumRoadService.GetProductById, bind.
    rewrite (bind_rowid_int64 _ _ _ Hfits). unfold read_db. rewrite Hgone.
    reflexivity.
  - intros other Hother. apply (find_delete_other product_id_of). exact Hother.
  - intros later tok listed. unfold CumRoadService.GetAllOrders, bind.
    destruct (authenticate_cases later tok
                (Sql.set_products (Dml.delete_products pid (products db))
                   (products_seq db) db))
      as [(payload & _ & ->) | (f & ->)]; [|discriminate].
    unfold read_db, ret. intros [= <-]. apply Forall_forall. intros v Hv.
    apply In_select_orders in Hv. destruct Hv as (o & p & _ & _ & Hp & ->).
    cbn [Dml.order_columns Order.product_id]. intros E. rewrite E in Hp.
    rewrite Hgone in Hp. discriminate.
Qed.

Lemma DeleteProduct_then_read_witness :
  let db' := Sql.set_products [] 1 shop_db in
  CumRoadService.GetProductById 1 db' = (Raised (ResourceNotFound "product"), db')
  /\ orders db' = orders shop_db
  /\ CumRoadService.GetAllOrders 600 (token_of 2 "b@x.com") db' = (Returned [], db').
Proof.
  intros db'.
  destruct (DeleteProduct_then_read 500 1 (token_of 1 "a@x.com") shop_db db' eq_refl)
    as (Hget & _ & _ & Horders & _).
  split; [exact Hget|]. split; [exact Horders | reflexivity].
Defined.



(** X13. After a [DeleteOrder] that returns, the order is gone from the
    table, [GetOrderById] under that id raises Resource Not Found for every
    caller, every other order reads as before, and users and products are
    untouched. *)
Theorem DeleteOrder_then_read (now oid : Z) (token : option Token)
    (db db' : Store) :
  CumRoadService.DeleteOrder now oid token db = (Returned tt, db') ->
  Sql.order_by_id oid db' = None
  /\ (forall later tok payload,
        authenticates later tok payload ->
        CumRoadService.GetOrderById later oid tok db'
        = (Raised (ResourceNotFound "order"), db'))
  /\ (forall other, other <> oid -> Sql.order_by_id other db' = Sql.order_by_id other db)
  /\ users db' = users db
  /\ products db' = products db.
Proof.
  intros Hrun.
  assert (Hshape : Sql.int64 oid = true
                   /\ db' = Sql.set_orders (Dml.delete_orders oid (orders db))
                              (orders_seq db) db).
  { revert Hrun. unfold CumRoadService.DeleteOrder, bind.
    destruct (authenticate_cases now token db) as [(payload & _ & ->) | (f & ->)];
      [|discriminate].
    bind_id; [|discriminate].
    unfold read_db. destruct (Sql.order_by_id oid db) as [row|]; [|discriminate].
    destruct (negb (order_user_id row =? claim_user_id payload)); [discriminate|].
    unfold CumRoadService.bind_int.
    destruct (Sql.int64 oid); [|discriminate].
    intros [= <-]. split; reflexivity. }
  destruct Hshape as [Hfits ->].
  assert (Hgone : Sql.order_by_id oid
                    (Sql.set_orders (Dml.delete_orders oid (orders db))
                       (orders_seq db) db) = None)
    by apply (find_deleted order_id_of).
  split; [exact Hgone|]. split; [|split; [|split; reflexivity]].
  - intros later tok payload Hauth.
    unfold CumRoadService.GetOrderById, bind.
    rewrite (authenticate_ok _ _ _ _ Hauth).
    rewrite (bind_rowid_int64 _ _ _ Hfits). unfold read_db, Dml.select_orders.
    rewrite filter_nil; [reflexivity|].
    intros o Ho. unfold Sql.order_by_id in Hgone.
    rewrite (find_none _ _ Hgone o Ho). reflexivity.
  - intros other Hother. apply (find_delete_other order_id_of). exact Hother.
Qed.

Lemma DeleteOrder_then_read_witness :
  let db' := Sql.set_orders [mkOrderRow 2 2 1 1 10%float "pending" 410 410] 2 shop_db in
  Sql.order_by_id 1 db' = None
  /\ Sql.order_by_id 2 db' = Sql.order_by_id 2 shop_db.
Proof.
  intros db'.
  destruct (DeleteOrder_then_read 500 1 (token_of 1 "a@x.com") shop_db db' eq_refl)
    as (Hgone & _ & Hother & _).
  split; [exact Hgone | apply Hother; discriminate].
Defined.

(** ** What one call can do to each table *)

Lemma valid_order_quantity (p q : option Z) :
  negb (Py.truthy_int p) || negb (Py.truthy_int q) || (Py.the_int q <? 1) = false ->
  1 <= Py.the_int q.
Proof.
  intros H. apply orb_false_iff in H. destruct H as [_ H].
  apply Z.ltb_ge in H. exact H.
Qed.

Lemma quantity_updates_well_formed (db : Store) (pid : Z) (upd : OrderUpdateInput.t)
    (sets : list Dml.order_set) :
  CumRoadService.quantity_updates db pid upd = Returned sets ->
  Forall order_set_well_formed sets.
Proof.
  unfold CumRoadService.quantity_updates.
  destruct (Py.truthy_int (OrderUpdateInput.quantity upd));
    [|intros [= <-]; constructor].
  cbn [andb].
  destruct (Z.leb_spec 1 (Py.the_int (OrderUpdateInput.quantity upd))) as [Hq|];
    [|intros [= <-]; constructor].
  destruct (Sql.product_by_id pid db) as [price_row|].
  - destruct (Py.float_mul_int _ _); [|discriminate].
    intros [= <-]. repeat constructor. exact Hq.
  - intros [= <-]. repeat constructor. exact Hq.
Qed.

Lemma status_updates_well_formed (upd : OrderUpdateInput.t) :
  Forall order_set_well_formed (CumRoadService.status_updates upd).
Proof.
  destruct (status_updates_cases upd) as [-> | (st & _ & Hst & ->)];
    repeat constructor. exact Hst.
Qed.

(** The users table after a call: as before, or with one new row of role
    [user] under the next rowid, or updated under one id, or with the
    rows of one id deleted. *)
Lemma users_after_call (now : Z) (op : Operation.t) (db : Store) :
  let db' := Operation.run now op db in
  (users db' = users db /\ users_seq db' = users_seq db)
  \/ (exists row,
        users db' = users db ++ [row] /\ users_seq db' = user_id_of row
        /\ user_id_of row = Sql.next_rowid (map user_id_of (users db)) (users_seq db)
        /\ user_role row = "user")
  \/ (exists sets i,
        users db' = Dml.update_users now sets i (users db)
        /\ users_seq db' = users_seq db)
  \/ (exists i,
        users db' = Dml.delete_users i (users db) /\ users_seq db' = users_seq db).
Proof.
  destruct op as [ | i | i | i u tok | i tok | c | tok | | i tok | i | i u tok
                 | i tok | tok | i tok | i tok | i u tok | i tok ];
    cbn [Operation.run]; unfold_handler;
    try (authenticate now tok db);
    explore; cbn [store_of snd];
    first [ left; split; reflexivity
          | right; left; eexists; repeat split; reflexivity
          | right; right; left; eexists _, _; split; reflexivity
          | right; right; right; eexists; split; reflexivity ].
Qed.

(** The products table after a call, likewise. *)
Lemma products_after_call (now : Z) (op : Operation.t) (db : Store) :
  let db' := Operation.run now op db in
  (products db' = products db /\ products_seq db' = products_seq db)
  \/ (exists row,
        products db' = products db ++ [row] /\ products_seq db' = product_id_of row
        /\ product_id_of row
           = Sql.next_rowid (map product_id_of (products db)) (products_seq db))
  \/ (exists sets i,
        products db' = Dml.update_products now sets i (products db)
        /\ products_seq db' = products_seq db)
  \/ (exists i,
        products db' = Dml.delete_products i (products db)
        /\ products_seq db' = products_seq db).
Proof.
  destruct op as [ | i | i | i u tok | i tok | c | tok | | i tok | i | i u tok
                 | i tok | tok | i tok | i tok | i u tok | i tok ];
    cbn [Operation.run]; unfold_handler;
    try (authenticate now tok db);
    explore; cbn [store_of snd];
    first [ left; split; reflexivity
          | right; left; eexists; repeat split; reflexivity
          | right; right; left; eexists _, _; split; reflexivity
          | right; right; right; eexists; split; reflexivity ].
Qed.

(** The orders table after a call, likewise; a new row has a quantity of
    at least 1 and is pending, and an update assigns only quantities of
    at least 1 and listed statuses. *)
Lemma orders_after_call (now : Z) (op : Operation.t) (db : Store) :
  let db' := Operation.run now op db in
  (orders db' = orders db /\ orders_seq db' = orders_seq db)
  \/ (exists row,
        orders db' = orders db ++ [row] /\ orders_seq db' = order_id_of row
        /\ order_id_of row
           = Sql.next_rowid (map order_id_of (orders db)) (orders_seq db)
        /\ 1 <= order_quantity row /\ order_status row = "pending")
  \/ (exists sets i,
        orders db' = Dml.update_orders now sets i (orders db)
        /\ orders_seq db' = orders_seq db
        /\ Forall order_set_well_formed sets)
  \/ (exists i,
        orders db' = Dml.delete_orders i (orders db)
        /\ orders_seq db' = orders_seq db).
Proof.
  destruct op as [ | i | i | i u tok | i tok | c | tok | | i tok | i | i u tok
                 | i tok | tok | i tok | i tok | i u tok | i tok ];
    cbn [Operation.run]; unfold_handler;
    try (authenticate now tok db);
    explore; cbn [store_of snd];
    first [ left; split; reflexivity
          | right; left; eexists; repeat split;
            first [ reflexivity
                  | cbn [order_quantity];
                    eapply valid_order_quantity; eassumption ]
          | right; right; left; eexists _, _;
            split; [reflexivity|]; split; [reflexivity|];
            apply Forall_app; split; [|repeat constructor];
            match goal with
            | H : _ ++ _ = _ :: _ |- _ => rewrite <- H
            end;
            apply Forall_app; split;
            [ eapply quantity_updates_well_formed; eassumption
            | apply status_updates_well_formed ]
          | right; right; right; eexists; split; reflexivity ].
Qed.

Section RowsUnderAKey.

Context {A : Type} (key : A -> Z).

Lemma Forall_update_where (P : A -> Prop) (upd : A -> A) (i : Z) (l : list A) :
  (forall r, P r -> P (upd r)) ->
  Forall P l ->
  Forall P (map (fun r => if key r =? i then upd r else r) l).
Proof.
  intros Hupd Hl. induction Hl as [|a l Ha Hl IH]; simpl; constructor; auto.
  destruct (key a =? i); auto.
Qed.

Lemma Forall_filter (P : A -> Prop) (c : A -> bool) (l : list A) :
  Forall P l -> Forall P (filter c l).
Proof.
  intros Hl. induction Hl as [|a l Ha Hl IH]; simpl; [constructor|].
  destruct (c a); [constructor|]; assumption.
Qed.

Lemma next_rowid_above (l : list A) (seq : Z) :
  seq < Sql.next_rowid (map key l) seq
  /\ Forall (fun r => key r < Sql.next_rowid (map key l) seq) l.
Proof.
  unfold Sql.next_rowid. split; [lia|]. apply Forall_forall. intros r Hr.
  pose proof (fold_max_bound (map key l) (key r) (in_map _ _ _ Hr)). lia.
Qed.

End RowsUnderAKey.

(** X14. Ids are never reused.  In a store where no rowid exceeds the
    sequence value of its table (as in the empty store), every call keeps
    it so, never lowers a sequence value, and gives every row that it
    adds an id above the sequence value, hence above every id that the
    table has ever held, deleted ones included. *)
Theorem ids_are_never_reused (now : Z) (op : Operation.t) (db : Store) :
  sequences_cover_ids db ->
  sequences_cover_ids (Operation.run now op db)
  /\ ids_only_advance db (Operation.run now op db).
Proof.
  intros (Hu & Hp & Ho).
  assert (Hold : forall (A : Type) (key : A -> Z) (seq : Z) (l : list A),
            Forall (fun r => In (key r) (map key l) \/ seq < key r) l)
    by (intros A key seq l; apply Forall_forall; intros r Hr; left;
        apply in_map, Hr).
  assert (Htable : forall (A : Type) (key : A -> Z) (i : Z) (assign : A -> A)
                     (l l' : list A) (seq seq' : Z),
            Forall (fun r => key r <= seq) l ->
            (forall r, key (assign r) = key r) ->
            (l' = l /\ seq' = seq)
            \/ (exists row, l' = l ++ [row] /\ seq' = key row
                            /\ key row = Sql.next_rowid (map key l) seq)
            \/ (l' = map (fun r => if key r =? i then assign r else r) l
                /\ seq' = seq)
            \/ (exists j, l' = filter (fun r => negb (key r =? j)) l /\ seq' = seq) ->
            Forall (fun r => key r <= seq') l'
            /\ seq <= seq'
            /\ Forall (fun r => In (key r) (map key l) \/ seq < key r) l').
  { intros A key i assign l l' seq seq' Hl Hkey
           [[-> ->] | [(row & -> & -> & Hid) | [[-> ->] | (j & -> & ->)]]].
    - split; [exact Hl|]. split; [lia | apply Hold].
    - destruct (next_rowid_above key l seq) as [Hseq Hids]. rewrite <- Hid in *.
      split; [|split; [lia|]].
      + apply Forall_app. split; [|constructor; [lia | constructor]].
        eapply Forall_impl; [|exact Hids]. cbv beta. intros; lia.
      + apply Forall_app. split; [apply Hold|].
        constructor; [right; lia | constructor].
    - split; [|split; [lia|]].
      + apply Forall_update_where; [|exact Hl]. intros r Hr. rewrite Hkey. exact Hr.
      + apply Forall_update_where; [|apply Hold]. intros r Hr. rewrite Hkey. exact Hr.
    - split; [|split; [lia|]]; apply Forall_filter; [exact Hl | apply Hold]. }
  pose proof (users_after_call now op db) as Husers.
  pose proof (products_after_call now op db) as Hproducts.
  pose proof (orders_after_call now op db) as Horders.
  cbv zeta in Husers, Hproducts, Horders.
  unfold sequences_cover_ids, ids_only_advance.
  assert (Hu' : Forall (fun r => user_id_of r <= users_seq (Operation.run now op db))
                  (users (Operation.run now op db))
                /\ users_seq db <= users_seq (Operation.run now op db)
                /\ Forall (fun r => In (user_id_of r) (map user_id_of (users db))
                                    \/ users_seq db < user_id_of r)
                     (users (Operation.run now op db))).
  { destruct Husers as [H | [(row & H1 & H2 & H3 & _) | [(sets & i & H1 & H2) | H]]].
    - apply (Htable _ user_id_of 0 (fun r => r)); auto.
    - apply (Htable _ user_id_of 0 (fun r => r)); auto.
      right; left. exists row. auto.
    - apply (Htable _ user_id_of i
               (fold_left (Dml.assign_user now) sets)); auto.
      intros r. apply (assign_user_frame now sets r).
    - apply (Htable _ user_id_of 0 (fun r => r)); auto. }
  assert (Hp' : Forall (fun r => product_id_of r
                                 <= products_seq (Operation.run now op db))
                  (products (Operation.run now op db))
                /\ products_seq db <= products_seq (Operation.run now op db)
                /\ Forall (fun r => In (product_id_of r)
                                      (map product_id_of (products db))
                                    \/ products_seq db < product_id_of r)
                     (products (Operation.run now op db))).
  { destruct Hproducts as [H | [(row & H1 & H2 & H3) | [(sets & i & H1 & H2) | H]]].
    - apply (Htable _ product_id_of 0 (fun r => r)); auto.
    - apply (Htable _ product_id_of 0 (fun r => r)); auto.
      right; left. exists row. auto.
    - apply (Htable _ product_id_of i
               (fold_left (Dml.assign_product now) sets)); auto.
      intros r. apply (assign_product_frame now sets r).
    - apply (Htable _ product_id_of 0 (fun r => r)); auto. }
  assert (Ho' : Forall (fun r => order_id_of r <= orders_seq (Operation.run now op db))
                  (orders (Operation.run now op db))
                /\ orders_seq db <= orders_seq (Operation.run now op db)
                /\ Forall (fun r => In (order_id_of r) (map order_id_of (orders db))
                                    \/ orders_seq db < order_id_of r)
                     (orders (Operation.run now op db))).
  { destruct Horders
      as [H | [(row & H1 & H2 & H3 & _) | [(sets & i & H1 & H2 & _) | H]]].
    - apply (Htable _ order_id_of 0 (fun r => r)); auto.
    - apply (Htable _ order_id_of 0 (fun r => r)); auto.
      right; left. exists row. auto.
    - apply (Htable _ order_id_of i
               (fold_left (Dml.assign_order now) sets)); auto.
      intros r. apply (assign_order_frame now sets r).
    - apply (Htable _ order_id_of 0 (fun r => r)); auto. }
  tauto.
Qed.

Lemma ids_are_never_reused_witness :
  let tok := token_of 1 "a@x.com" in
  let db1 := Operation.run 500 (Operation.DeleteProduct 1 tok) shop_db in
  let db2 := Operation.run 600
               (Operation.CreateProduct
                  (ProductInput.mk (Some "Gizmo") None (Some 5%float) None) tok)
               db1 in
  products db1 = []
  /\ map product_id_of (products db2) = [2]
  /\ sequences_cover_ids db2.
Proof.
  intros tok db1 db2.
  assert (H0 : sequences_cover_ids shop_db).
  { unfold sequences_cover_ids.
    split; [|split]; apply Forall_forall; intros r Hr; cbn in Hr;
      repeat (destruct Hr as [<- | Hr]; [cbn; lia|]); destruct Hr. }
  split; [reflexivity|]. split; [reflexivity|].
  apply (ids_are_never_reused 600). apply (ids_are_never_reused 500). exact H0.
Defined.

(** X15. Every call keeps the orders well formed: if every stored order
    has a quantity of at least 1 and one of the statuses pending,
    completed and cancelled, then so it is after any operation, whatever
    its arguments and however it ends. *)
Theorem orders_stay_well_formed (now : Z) (op : Operation.t) (db : Store) :
  orders_well_formed db -> orders_well_formed (Operation.run now op db).
Proof.
  unfold orders_well_formed. intros Hwf.
  pose proof (orders_after_call now op db) as Hstep. cbv zeta in Hstep.
  destruct Hstep
    as [[-> _] | [(row & -> & _ & _ & Hq & Hst)
                 | [(sets & i & -> & _ & Hsets) | (i & -> & _)]]].
  - exact Hwf.
  - apply Forall_app. split; [exact Hwf|].
    constructor; [|constructor]. rewrite Hst. split; [exact Hq | reflexivity].
  - apply (Forall_update_where order_id_of); [|exact Hwf].
    clear Hwf. induction Hsets as [|a sets Ha Hsets IH]; intros r Hr; [exact Hr|].
    cbn [fold_left]. apply IH.
    destruct a; cbn [Dml.assign_order order_quantity order_status];
      cbn [order_set_well_formed] in Ha; tauto.
  - apply Forall_filter, Hwf.
Qed.

Lemma orders_stay_well_formed_witness :
  orders_well_formed
    (Operation.run 500
       (Operation.UpdateOrder 1 (OrderUpdateInput.mk (Some 0) (Some "shipped"))
          (token_of 1 "a@x.com"))
       shop_db).
Proof.
  apply orders_stay_well_formed. unfold orders_well_formed.
  apply Forall_forall. intros r Hr. cbn in Hr.
  repeat (destruct Hr as [<- | Hr]; [cbn; split; [lia | reflexivity]|]).
  destruct Hr.
Defined.

(** X16. No call makes an administrator: after any operation every user
    row either has the role [user] or is a row that was there before the
    call under the same id, with the same email and the same role. *)
Theorem no_call_grants_a_role (now : Z) (op : Operation.t) (db : Store) :
  no_role_gained db (Operation.run now op db).
Proof.
  unfold no_role_gained.
  assert (Hold : Forall (fun u' => user_role u' = "user"
                                   \/ exists u, In u (users db)
                                                /\ user_id_of u = user_id_of u'
                                                /\ user_email u = user_email u'
                                                /\ user_role u = user_role u')
                   (users db))
    by (apply Forall_forall; intros u Hu; right; exists u; auto).
  pose proof (users_after_call now op db) as Hstep. cbv zeta in Hstep.
  destruct Hstep
    as [[-> _] | [(row & -> & _ & _ & Hrole) | [(sets & i & -> & _) | (i & -> & _)]]].
  - exact Hold.
  - apply Forall_app. split; [exact Hold|]. constructor; [left; exact Hrole|constructor].
  - unfold Dml.update_users. apply Forall_forall. intros u' Hu'.
    apply in_map_iff in Hu'. destruct Hu' as (u & <- & Hu). right. exists u.
    split; [exact Hu|].
    destruct (user_id_of u =? i); [|auto].
    destruct (assign_user_frame now sets u) as (-> & -> & ->). auto.
  - apply Forall_filter, Hold.
Qed.

(** ** Updating users and logging in *)

Lemma find_map_same_test {A : Type} (c : A -> bool) (g : A -> A) (l : list A) :
  (forall r, c (g r) = c r) ->
  find c (map g l) = option_map g (find c l).
Proof.
  intros Hc. induction l as [|a l IH]; simpl; [reflexivity|].
  rewrite Hc. destruct (c a); [reflexivity | exact IH].
Qed.

(** What [UpdateUser] does once the caller is let through. *)
Lemma UpdateUser_authorized (now : Z) (upd : UserUpdateInput.t)
    (token : option Token) (payload : Claims) (db : Store) (row : UserRow) :
  authenticates now token payload ->
  Sql.user_by_id (user_id_of row) db = Some row ->
  claim_user_id payload = user_id_of row \/ user_role row = "admin" ->
  let name := UserUpdateInput.name upd in
  let password := UserUpdateInput.password upd in
  CumRoadService.UpdateUser now (user_id_of row) upd token db
  = if Py.truthy_str password && (Py.len (Py.the_str password) <? 8)
    then (Raised InvalidPassword, db)
    else if negb (Py.truthy_str name) && negb (Py.truthy_str password)
    then (Returned (Dml.user_columns row), db)
    else
      let row' :=
        mkUserRow (user_id_of row) (user_email row)
          (if Py.truthy_str password
           then AuthManager.hash_password (Py.the_str password)
           else user_password_hash row)
          (if Py.truthy_str name then Py.the_str name else user_name row)
          (user_role row) (user_created_at row) now in
      (Returned (Dml.user_columns row'),
       Sql.set_users
         (map (fun r => if user_id_of r =? user_id_of row
                        then mkUserRow (user_id_of r) (user_email r)
                               (if Py.truthy_str password
                                then AuthManager.hash_password (Py.the_str password)
                                else user_password_hash r)
                               (if Py.truthy_str name then Py.the_str name
                                else user_name r)
                               (user_role r) (user_created_at r) now
                        else r)
              (users db))
         (users_seq db) db).
Proof.
  intros Hauth Hrow Hallowed name password.
  unfold CumRoadService.UpdateUser, bind.
  rewrite (authenticate_ok _ _ _ _ Hauth).
  rewrite (get_user_found _ _ _ Hrow). unfold read_db.
  cbn [Dml.user_columns User.role].
  replace (negb (claim_user_id payload =? user_id_of row)
           && negb (String.eqb (user_role row) "admin")) with false.
  2: { destruct Hallowed as [-> | ->]; [rewrite Z.eqb_refl|rewrite andb_comm];
       reflexivity. }
  fold name. fold password.
  assert (Hread : forall g,
            (forall r, user_id_of (g r) = user_id_of r) ->
            CumRoadService._get_user_by_id (user_id_of row)
              (Sql.set_users
                 (map (fun r => if user_id_of r =? user_id_of row then g r else r)
                      (users db))
                 (users_seq db) db)
            = (Returned (Some (Dml.user_columns (g row))),
               Sql.set_users
                 (map (fun r => if user_id_of r =? user_id_of row then g r else r)
                      (users db))
                 (users_seq db) db)).
  { intros g Hg. apply get_user_found. unfold Sql.user_by_id, Sql.set_users.
    cbn [users]. rewrite (find_update_where user_id_of g Hg).
    unfold Sql.user_by_id in Hrow. rewrite Hrow. reflexivity. }
  destruct (Py.truthy_str password) eqn:Hp, (Py.truthy_str name) eqn:Hn;
    cbn [andb negb];
    try (destruct (Py.len (Py.the_str password) <? 8); [reflexivity|]);
    unfold ret, commit; cbn [app]; unfold Dml.update_users;
    cbn [fold_left Dml.assign_user user_id_of user_email user_password_hash
         user_name user_role user_created_at user_updated_at].
  - rewrite (Hread (fun r => mkUserRow (user_id_of r) (user_email r)
                               (AuthManager.hash_password (Py.the_str password))
                               (Py.the_str name) (user_role r) (user_created_at r) now))
      by reflexivity.
    reflexivity.
  - rewrite (Hread (fun r => mkUserRow (user_id_of r) (user_email r)
                               (AuthManager.hash_password (Py.the_str password))
                               (user_name r) (user_role r) (user_created_at r) now))
      by reflexivity.
    reflexivity.
  - rewrite (Hread (fun r => mkUserRow (user_id_of r) (user_email r)
                               (user_password_hash r)
                               (Py.the_str name) (user_role r) (user_created_at r) now))
      by reflexivity.
    reflexivity.
  - rewrite (get_user_found _ _ _ Hrow). reflexivity.
Qed.



(** X18. A changed password is the one that logs in.  When the lookup by
    the user's email gives the user's row, then after an [UpdateUser] with
    a new password of at least 8 characters [Login] with that email and
    the new password returns the user with a token for its id, and
    [Login] with any password that does not verify against the new
    digest, the old one included, raises Invalid Credentials. *)
Theorem UpdateUser_password_then_Login (now later : Z) (name : option string)
    (pw : string) (token : option Token) (payload : Claims) (db : Store)
    (row : UserRow) :
  authenticates now token payload ->
  Sql.user_by_id (user_id_of row) db = Some row ->
  Sql.user_by_email (user_email row) db = Some row ->
  user_email row <> "" ->
  claim_user_id payload = user_id_of row \/ user_role row = "admin" ->
  8 <= Py.len pw ->
  let db' := store_of (CumRoadService.UpdateUser now (user_id_of row)
                         (UserUpdateInput.mk name (Some pw)) token db) in
  (exists session,
     CumRoadService.Login later (LoginInput.mk (Some (user_email row)) (Some pw)) db'
     = (Returned session, db')
     /\ UserWithToken.id session = user_id_of row
     /\ UserWithToken.token session
        = AuthManager.generate_token later (user_id_of row) (user_email row))
  /\ forall other,
       other <> "" ->
       AuthManager.verify_password other (AuthManager.hash_password pw) = false ->
       CumRoadService.Login later (LoginInput.mk (Some (user_email row)) (Some other)) db'
       = (Raised InvalidCredentials, db').
Proof.
  intros Hauth Hrow Hemail Hne Hallowed Hlen db'.
  assert (Hpw : Py.truthy_str (Some pw) = true)
    by (apply truthy_str_Some, len_nonempty; lia).
  pose proof (UpdateUser_authorized now (UserUpdateInput.mk name (Some pw)) token
                payload db row Hauth Hrow Hallowed) as Hrun.
  cbv zeta in Hrun. cbn [UserUpdateInput.name UserUpdateInput.password] in Hrun.
  rewrite Hpw in Hrun. cbn [Py.the_str andb negb] in Hrun.
  destruct (Z.ltb_spec (Py.len pw) 8) as [|_]; [lia|].
  rewrite andb_false_r in Hrun.
  assert (Hlookup : exists nm,
            Sql.user_by_email (user_email row) db'
            = Some (mkUserRow (user_id_of row) (user_email row)
                      (AuthManager.hash_password pw) nm (user_role row)
                      (user_created_at row) now)).
  { subst db'. rewrite Hrun. cbn [store_of snd].
    unfold Sql.user_by_email, Sql.set_users. cbn [users].
    rewrite find_map_same_test
      by (intros r; destruct (user_id_of r =? user_id_of row); reflexivity).
    unfold Sql.user_by_email in Hemail. rewrite Hemail. cbn [option_map].
    rewrite Z.eqb_refl. eexists. reflexivity. }
  destruct Hlookup as (nm & Hlookup).
  assert (Hlogin : forall p, p <> "" ->
            CumRoadService.Login later (LoginInput.mk (Some (user_email row)) (Some p)) db'
            = if negb (AuthManager.verify_password p (AuthManager.hash_password pw))
              then (Raised InvalidCredentials, db')
              else (Returned
                      (UserWithToken.mk (user_id_of row) (user_email row) nm
                         (user_role row) (user_created_at row) now
                         (AuthManager.generate_token later (user_id_of row)
                            (user_email row))), db')).
  { intros p Hp. unfold CumRoadService.Login.
    cbn [LoginInput.email LoginInput.password Py.the_str].
    rewrite (truthy_str_Some _ Hne), (truthy_str_Some p Hp). cbn [negb orb].
    unfold bind, read_db. rewrite Hlookup.
    cbn [user_password_hash user_id_of user_email user_name user_role
         user_created_at user_updated_at].
    destruct (negb (AuthManager.verify_password p (AuthManager.hash_password pw)));
      reflexivity. }
  split.
  - rewrite (Hlogin pw) by (apply len_nonempty; lia).
    unfold AuthManager.verify_password, AuthManager.hash_password, digest_eqb.
    rewrite String.eqb_refl. cbn [negb]. eexists. repeat split.
  - intros other Hother Hwrong. rewrite (Hlogin other Hother), Hwrong. reflexivity.
Qed.

Lemma UpdateUser_password_then_Login_witness :
  let db' := store_of (CumRoadService.UpdateUser 500 1
                         (UserUpdateInput.mk None (Some "brandnewpass"))
                         (token_of 1 "a@x.com") shop_db) in
  (exists session,
     CumRoadService.Login 600 (LoginInput.mk (Some "a@x.com") (Some "brandnewpass")) db'
     = (Returned session, db')
     /\ UserWithToken.id session = 1)
  /\ CumRoadService.Login 600 (LoginInput.mk (Some "a@x.com") (Some "longenough1")) db'
     = (Raised InvalidCredentials, db').
Proof.
  intros db'.
  assert (Hauth : authenticates 500 (token_of 1 "a@x.com")
                    (mkClaims 1 "a@x.com" 86500))
    by (eexists; split; reflexivity).
  destruct (UpdateUser_password_then_Login 500 600 None "brandnewpass"
              (token_of 1 "a@x.com") (mkClaims 1 "a@x.com" 86500) shop_db
              (mkUserRow 1 "a@x.com" (Sha256Hex "longenough1") "a" "user" 100 100)
              Hauth eq_refl eq_refl)
    as ((session & Hlogin & Hid & _) & Hold).
  - discriminate.
  - left. reflexivity.
  - vm_compute. discriminate.
  - split.
    + exists session. auto.
    + apply Hold; [discriminate | reflexivity].
Defined.

(** X19. [Login] answers an unknown email and a wrong password with one
    and the same fault, Invalid Credentials, so the answer does not tell
    whether the email is registered; a missing or empty email or password
    is a Validation Error; and with the password that verifies against
    the stored digest it returns the row's id, email, name and role with a
    token issued at the time of the call for that id and email. *)
Theorem Login_outcomes (now : Z) (db : Store) :
  (forall cred,
     Py.truthy_str (LoginInput.email cred) = false
     \/ Py.truthy_str (LoginInput.password cred) = false ->
     CumRoadService.Login now cred db
     = (Raised (ValidationError "Email and password are required"), db))
  /\ (forall e pw,
        e <> "" -> pw <> "" ->
        (Sql.user_by_email e db = None ->
         CumRoadService.Login now (LoginInput.mk (Some e) (Some pw)) db
         = (Raised InvalidCredentials, db))
        /\ (forall row,
              Sql.user_by_email e db = Some row ->
              AuthManager.verify_password pw (user_password_hash row) = false ->
              CumRoadService.Login now (LoginInput.mk (Some e) (Some pw)) db
              = (Raised InvalidCredentials, db))
        /\ (forall row,
              Sql.user_by_email e db = Some row ->
              AuthManager.verify_password pw (user_password_hash row) = true ->
              CumRoadService.Login now (LoginInput.mk (Some e) (Some pw)) db
              = (Returned
                   (UserWithToken.mk (user_id_of row) (user_email row) (user_name row)
                      (user_role row) (user_created_at row) (user_updated_at row)
                      (AuthManager.generate_token now (user_id_of row) (user_email row))),
                 db))).
Proof.
  split.
  - intros cred Hmissing. unfold CumRoadService.Login.
    destruct Hmissing as [-> | ->]; [|rewrite orb_true_r]; reflexivity.
  - intros e pw He Hpw.
    assert (Hrun : CumRoadService.Login now (LoginInput.mk (Some e) (Some pw)) db
                   = match Sql.user_by_email e db with
                     | None => (Raised InvalidCredentials, db)
                     | Some row =>
                         if negb (AuthManager.verify_password pw (user_password_hash row))
                         then (Raised InvalidCredentials, db)
                         else
                           (Returned
                              (UserWithToken.mk (user_id_of row) (user_email row)
                                 (user_name row) (user_role row) (user_created_at row)
                                 (user_updated_at row)
                                 (AuthManager.generate_token now (user_id_of row)
                                    (user_email row))), db)
                     end).
    { unfold CumRoadService.Login.
      cbn [LoginInput.email LoginInput.password Py.the_str].
      rewrite (truthy_str_Some e He), (truthy_str_Some pw Hpw). cbn [negb orb].
      unfold bind, read_db.
      destruct (Sql.user_by_email e db) as [row|]; [|reflexivity].
      destruct (negb (AuthManager.verify_password pw (user_password_hash row)));
        reflexivity. }
    split; [|split].
    + intros Hnone. rewrite Hrun, Hnone. reflexivity.
    + intros row Hrow Hwrong. rewrite Hrun, Hrow, Hwrong. reflexivity.
    + intros row Hrow Hright. rewrite Hrun, Hrow, Hright. reflexivity.
Qed.

Lemma Login_outcomes_witness :
  CumRoadService.Login 500 (LoginInput.mk (Some "nobody@x.com") (Some "longenough1"))
    shop_db
  = (Raised InvalidCredentials, shop_db)
  /\ CumRoadService.Login 500 (LoginInput.mk (Some "a@x.com") (Some "wrongpassword"))
       shop_db
     = (Raised InvalidCredentials, shop_db)
  /\ CumRoadService.Login 500 (LoginInput.mk (Some "a@x.com") None) shop_db
     = (Raised (ValidationError "Email and password are required"), shop_db).
Proof.
  destruct (Login_outcomes 500 shop_db) as [Hmissing Hgiven].
  split; [|split].
  - destruct (Hgiven "nobody@x.com" "longenough1") as (Hunknown & _);
      [discriminate | discriminate |].
    apply Hunknown. reflexivity.
  - destruct (Hgiven "a@x.com" "wrongpassword") as (_ & Hwrong & _);
      [discriminate | discriminate |].
    apply (Hwrong (mkUserRow 1 "a@x.com" (Sha256Hex "longenough1") "a" "user" 100 100));
      reflexivity.
  - apply Hmissing. right. reflexivity.
Defined.

(** ** Updating products *)

(** X20. What the owner's [UpdateProduct] writes, field by field: a
    non-empty name and a non-zero price replace the stored ones, while an
    absent or empty name and an absent or zero price are ignored, not
    rejected; a description and an image URL replace the stored ones
    whenever they are supplied, the empty text included; the update time
    becomes the time of the call exactly when some field is written, and a
    call that writes no field returns the product as stored. *)
Theorem UpdateProduct_fields (now pid : Z) (upd : ProductUpdateInput.t)
    (token : option Token) (payload : Claims) (db : Store) (row : ProductRow) :
  authenticates now token payload ->
  Sql.product_by_id pid db = Some row ->
  product_user_id row = claim_user_id payload ->
  PrimFloat.is_nan (Py.the_float (ProductUpdateInput.price upd)) = false ->
  let name := ProductUpdateInput.name upd in
  let price := ProductUpdateInput.price upd in
  let written := Py.truthy_str name || Py.truthy_float price
                 || match ProductUpdateInput.description upd with
                    | Some _ => true | None => false end
                 || match ProductUpdateInput.image_url upd with
                    | Some _ => true | None => false end in
  let row' :=
    mkProductRow (product_id_of row)
      (if Py.truthy_str name then Py.the_str name else product_name row)
      (match ProductUpdateInput.description upd with
       | Some d => Some d | None => product_description row end)
      (if Py.truthy_float price then Py.the_float price else product_price row)
      (match ProductUpdateInput.image_url upd with
       | Some u => Some u | None => product_image_url row end)
      (product_user_id row) (product_created_at row)
      (if written then now else product_updated_at row) in
  result_of (CumRoadService.UpdateProduct now pid upd token db)
  = Returned (Dml.product_columns row')
  /\ Sql.product_by_id pid
       (store_of (CumRoadService.UpdateProduct now pid upd token db))
     = Some row'
  /\ (written = false ->
      store_of (CumRoadService.UpdateProduct now pid upd token db) = db).
Proof.
  intros Hauth Hrow Hown Hnan name price written row'.
  assert (Hread : forall sets,
            Sql.product_by_id pid
              (Sql.set_products (Dml.update_products now sets pid (products db))
                 (products_seq db) db)
            = Some (fold_left (Dml.assign_product now) sets row)).
  { intros sets. unfold Sql.product_by_id, Sql.set_products, Dml.update_products.
    cbn [products].
    rewrite (find_update_where product_id_of
               (fold_left (Dml.assign_product now) sets))
      by (intros r; apply (assign_product_frame now sets r)).
    unfold Sql.product_by_id in Hrow. rewrite Hrow. reflexivity. }
  unfold CumRoadService.UpdateProduct, bind.
  rewrite (authenticate_ok _ _ _ _ Hauth).
  rewrite (bind_rowid_found _ _ _ row Hrow). unfold read_db. rewrite Hrow.
  rewrite Hown, Z.eqb_refl. cbn [negb].
  unfold CumRoadService.product_updates.
  subst row' written name price.
  destruct row as [rid rname rdescr rprice rurl rowner rcreated rupdated].
  destruct (Py.truthy_str (ProductUpdateInput.name upd)) eqn:Hn;
    destruct (ProductUpdateInput.description upd) as [d|];
    destruct (Py.truthy_float (ProductUpdateInput.price upd)) eqn:Hp;
    destruct (ProductUpdateInput.image_url upd) as [u|];
    cbn [app orb existsb Dml.product_set_null];
    unfold Sql.real_is_null; rewrite ?Hnan; cbn [orb];
    unfold ret, commit; cbv beta iota;
    rewrite ?Hread, ?Hrow; cbv beta iota;
    cbn [result_of store_of fst snd]; rewrite ?Hread, ?Hrow;
    cbn [fold_left Dml.assign_product app
         product_id_of product_name product_description product_price
         product_image_url product_user_id product_created_at product_updated_at];
    (split; [reflexivity|]); (split; [reflexivity|]);
    intros Hw; first [discriminate Hw | reflexivity].
Qed.

Lemma UpdateProduct_fields_witness :
  result_of (CumRoadService.UpdateProduct 500 1
               (ProductUpdateInput.mk (Some "") (Some "") (Some 0%float) None)
               (token_of 1 "a@x.com")
               (Sql.set_products
                  [mkProductRow 1 "Widget" (Some "round") 10%float (Some "") 1 300 300]
                  1 shop_db))
  = Returned (Product.mk 1 "Widget" (Some "") 10%float (Some "") 1 300 500).
Proof.
  assert (Hauth : authenticates 500 (token_of 1 "a@x.com")
                    (mkClaims 1 "a@x.com" 86500))
    by (eexists; split; reflexivity).
  exact (proj1 (UpdateProduct_fields 500 1
                  (ProductUpdateInput.mk (Some "") (Some "") (Some 0%float) None)
                  (token_of 1 "a@x.com") (mkClaims 1 "a@x.com" 86500)
                  (Sql.set_products
                     [mkProductRow 1 "Widget" (Some "round") 10%float (Some "") 1
                        300 300]
                     1 shop_db)
                  (mkProductRow 1 "Widget" (Some "round") 10%float (Some "") 1 300 300)
                  Hauth eq_refl eq_refl eq_refl)).
Defined.

(** ** Orders whose product is gone *)

Lemma filter_unique_key {A : Type} (key : A -> Z) (l : list A) (i : Z) (r : A) :
  NoDup (map key l) ->
  find (fun x => key x =? i) l = Some r ->
  filter (fun x => key x =? i) l = [r].
Proof.
  induction l as [|a l IH]; simpl; [discriminate|].
  intros Hnd. inversion Hnd as [|? ? Hnotin Hnd']; subst.
  destruct (Z.eqb_spec (key a) i) as [E|E].
  - intros [= ->]. f_equal. apply filter_nil. intros x Hx.
    apply Z.eqb_neq. intros Ex. apply Hnotin. rewrite E, <- Ex. apply in_map, Hx.
  - intros Hfind. apply IH; assumption.
Qed.

Lemma quantity_updates_no_product (db : Store) (pid : Z) (upd : OrderUpdateInput.t) :
  Sql.product_by_id pid db = None ->
  CumRoadService.quantity_updates db pid upd
  = Returned
      (if Py.truthy_int (OrderUpdateInput.quantity upd)
          && (1 <=? Py.the_int (OrderUpdateInput.quantity upd))
       then [Dml.SetOrderQuantity (Py.the_int (OrderUpdateInput.quantity upd))]
       else []).
Proof.
  intros Hgone. unfold CumRoadService.quantity_updates. rewrite Hgone.
  destruct (Py.truthy_int (OrderUpdateInput.quantity upd)
            && (1 <=? Py.the_int (OrderUpdateInput.quantity upd))); reflexivity.
Qed.

(** X21. Once the product of an order has been deleted, no [UpdateOrder]
    by the owner returns.  With a quantity of at least 1 that is outside
    64 bits it ends in the [OverflowError] of the UPDATE and writes
    nothing.  Otherwise it ends in the exception of reading the order back
    through the join, after the UPDATE has been committed: a quantity of
    at least 1 is stored, with the total left at its old value, and so is
    a listed status. *)
Theorem UpdateOrder_after_product_deleted (now oid : Z) (upd : OrderUpdateInput.t)
    (token : option Token) (payload : Claims) (db : Store) (row : OrderRow) :
  authenticates now token payload ->
  order_ids_unique db ->
  Sql.order_by_id oid db = Some row ->
  order_user_id row = claim_user_id payload ->
  Sql.product_by_id (order_product_id row) db = None ->
  let call := CumRoadService.UpdateOrder now oid upd token db in
  let q := Py.the_int (OrderUpdateInput.quantity upd) in
  (1 <= q -> Sql.int64 q = false ->
   call = (Crashed CumRoadService.int_too_large_for_sqlite, db))
  /\ (q < 1 \/ Sql.int64 q = true ->
      result_of call = Crashed CumRoadService.none_subscript
      /\ (1 <= q ->
          exists row',
            Sql.order_by_id oid (store_of call) = Some row'
            /\ order_quantity row' = q
            /\ order_total_price row' = order_total_price row
            /\ order_updated_at row' = now)
      /\ (forall st, OrderUpdateInput.status upd = Some st ->
            CumRoadService.status_listed st = true ->
            exists row',
              Sql.order_by_id oid (store_of call) = Some row'
              /\ order_status row' = st
              /\ order_total_price row' = order_total_price row)).
Proof.
  intros Hauth Hpk Hrow Hown Hgone call q.
  assert (Hq_eq : Py.truthy_int (OrderUpdateInput.quantity upd) && (1 <=? q)
                  = (1 <=? q)).
  { subst q. destruct (OrderUpdateInput.quantity upd) as [n|]; [|reflexivity].
    cbn [Py.truthy_int Py.the_int].
    destruct (Z.eqb_spec n 0) as [->|]; reflexivity. }
  assert (Hqs : CumRoadService.quantity_updates db (order_product_id row) upd
                = Returned (if 1 <=? q then [Dml.SetOrderQuantity q] else [])).
  { rewrite (quantity_updates_no_product db _ upd Hgone). fold q. rewrite Hq_eq.
    reflexivity. }
  set (qsets := if 1 <=? q then [Dml.SetOrderQuantity q] else []) in *.
  set (sets := qsets ++ CumRoadService.status_updates upd).
  assert (Hnull : existsb Dml.order_set_null sets = false).
  { subst sets qsets.
    destruct (1 <=? q);
      destruct (status_updates_cases upd) as [-> | (s & _ & _ & ->)]; reflexivity. }
  assert (Hover : existsb Dml.order_set_overflow sets
                  = (1 <=? q) && negb (Sql.int64 q)).
  { subst sets qsets.
    destruct (1 <=? q);
      destruct (status_updates_cases upd) as [-> | (s & _ & _ & ->)];
      cbn [app existsb Dml.order_set_overflow andb orb]; rewrite ?orb_false_r;
      reflexivity. }
  assert (Hselect : forall assigns,
            Dml.select_orders (fun o => order_id_of o =? oid)
              (Sql.set_orders (Dml.update_orders now assigns oid (orders db))
                 (orders_seq db) db) = []).
  { intros assigns. unfold Dml.select_orders, Sql.set_orders, Dml.update_orders.
    cbn [orders].
    rewrite (filter_update_where order_id_of
               (fold_left (Dml.assign_order now) assigns))
      by (intros r; destruct (assign_order_frame now assigns r) as (-> & _);
          reflexivity).
    unfold Sql.order_by_id in Hrow.
    rewrite (filter_unique_key order_id_of _ _ _ Hpk Hrow).
    apply (find_key_In order_id_of) in Hrow. destruct Hrow as [_ Hid].
    cbn [map flat_map]. rewrite Hid, Z.eqb_refl.
    unfold Dml.join_product, Sql.product_by_id. cbn [products].
    destruct (assign_order_frame now assigns row) as (_ & _ & -> & _).
    unfold Sql.product_by_id in Hgone. rewrite Hgone. reflexivity. }
  assert (Hrun : call
                 = match sets with
                   | [] => (Crashed CumRoadService.none_subscript, db)
                   | _ :: _ =>
                       if (1 <=? q) && negb (Sql.int64 q)
                       then (Crashed CumRoadService.int_too_large_for_sqlite, db)
                       else
                         (Crashed CumRoadService.none_subscript,
                          Sql.set_orders
                            (Dml.update_orders now (sets ++ [Dml.SetOrderUpdatedAt])
                               oid (orders db))
                            (orders_seq db) db)
                   end).
  { subst call. unfold CumRoadService.UpdateOrder, bind.
    rewrite (authenticate_ok _ _ _ _ Hauth).
    rewrite (bind_rowid_found _ _ _ row Hrow). unfold read_db. rewrite Hrow.
    rewrite Hown, Z.eqb_refl. cbn [negb].
    rewrite Hqs. fold sets.
    destruct sets as [|a sets'] eqn:Hsets.
    - unfold ret. unfold Dml.select_orders.
      unfold Sql.order_by_id in Hrow.
      rewrite (filter_unique_key order_id_of _ _ _ Hpk Hrow). cbn [flat_map].
      unfold Dml.join_product. rewrite Hgone. reflexivity.
    - rewrite Hover. destruct ((1 <=? q) && negb (Sql.int64 q)); [reflexivity|].
      rewrite Hnull. unfold commit. rewrite Hselect. reflexivity. }
  split.
  - intros Hvalid Hfits. rewrite Hrun. subst sets qsets.
    destruct (Z.leb_spec 1 q) as [_|]; [|lia].
    cbn [app andb]. rewrite Hfits. reflexivity.
  - intros Hok.
    assert (Hno : (1 <=? q) && negb (Sql.int64 q) = false).
    { destruct Hok as [Hlt | ->]; [|apply andb_false_r].
      destruct (Z.leb_spec 1 q); [lia | reflexivity]. }
    rewrite Hno in Hrun.
    split; [|split].
    + rewrite Hrun. destruct sets; reflexivity.
    + intros Hvalid. rewrite Hrun. subst sets qsets.
      destruct (Z.leb_spec 1 q) as [_|]; [|lia].
      cbn [app store_of snd].
      rewrite (order_by_id_updated now oid _ _ db row Hrow).
      destruct (status_updates_cases upd) as [-> | (s & _ & _ & ->)];
        eexists; (split; [reflexivity|]); cbn; auto.
    + intros st Hst Hlisted. rewrite Hrun. subst sets qsets.
      assert (Hs : CumRoadService.status_updates upd = [Dml.SetOrderStatus st]).
      { destruct upd as [uq us]. cbn in Hst. subst us.
        apply status_updates_listed, Hlisted. }
      rewrite Hs.
      destruct (1 <=? q); cbn [app store_of snd];
        rewrite (order_by_id_updated now oid _ _ db row Hrow);
        eexists; (split; [reflexivity|]); cbn; auto.
Qed.

Lemma UpdateOrder_after_product_deleted_witness :
  let call := CumRoadService.UpdateOrder 700 1 (OrderUpdateInput.mk (Some 3) None)
                (token_of 1 "a@x.com") withdrawn_product_db in
  (result_of call = Crashed CumRoadService.none_subscript
   /\ exists row',
        Sql.order_by_id 1 (store_of call) = Some row'
        /\ order_quantity row' = 3
        /\ order_total_price row' = 20%float)
  /\ CumRoadService.UpdateOrder 700 1
       (OrderUpdateInput.mk (Some 9223372036854775808) (Some "completed"))
       (token_of 1 "a@x.com") withdrawn_product_db
     = (Crashed CumRoadService.int_too_large_for_sqlite, withdrawn_product_db).
Proof.
  intros call.
  assert (Hauth : authenticates 700 (token_of 1 "a@x.com")
                    (mkClaims 1 "a@x.com" 86500))
    by (eexists; split; reflexivity).
  assert (Hpk : order_ids_unique withdrawn_product_db).
  { unfold order_ids_unique. cbn. repeat constructor. intros []. }
  split.
  - destruct (UpdateOrder_after_product_deleted 700 1
                (OrderUpdateInput.mk (Some 3) None)
                (token_of 1 "a@x.com") (mkClaims 1 "a@x.com" 86500)
                withdrawn_product_db
                (mkOrderRow 1 1 1 2 20%float "pending" 400 400)
                Hauth Hpk eq_refl eq_refl eq_refl)
      as (_ & Hstored).
    destruct Hstored as (Hcrash & Hquantity & _); [right; reflexivity|].
    split; [exact Hcrash|].
    destruct Hquantity as (row' & Hrow' & Hq & Htotal & _); [cbn; lia|].
    exists row'. auto.
  - apply (UpdateOrder_after_product_deleted 700 1
             (OrderUpdateInput.mk (Some 9223372036854775808) (Some "completed"))
             (token_of 1 "a@x.com") (mkClaims 1 "a@x.com" 86500)
             withdrawn_product_db
             (mkOrderRow 1 1 1 2 20%float "pending" 400 400)
             Hauth Hpk eq_refl eq_refl eq_refl).
    + cbn. lia.
    + reflexivity.
Defined.

(** ** The simplified service beside the spyne service *)

(** X22. The two services agree on registration and login.  For a request
    whose user element has children and whose name is either left out or
    not empty, [create_user] of the simplified service does to the store
    what [CreateUser] does on the same email, password and name, and
    answers with the same user or with a fault of the same title and
    detail; and for a request whose credentials element has children,
    [login] answers as [Login] does, token included. *)
Theorem simplified_service_agrees (now : Z) (params : CumRoadSOAPService.Params)
    (fields : list (string * option string)) (db : Store) :
  (Py.dict_find "user" params = Some (CumRoadSOAPService.Complex fields) ->
   Py.dict_find "name" fields = None
   \/ (exists n, Py.dict_find "name" fields = Some (Some n) /\ n <> "") ->
   CumRoadSOAPService.create_user now params db
   = answered CumRoadSOAPService.CreateUserResponse
       (CumRoadService.CreateUser now
          (UserInput.mk (CumRoadSOAPService.get "email" fields)
             (CumRoadSOAPService.get "password" fields)
             (CumRoadSOAPService.get "name" fields)) db))
  /\ (Py.dict_find "credentials" params = Some (CumRoadSOAPService.Complex fields) ->
      CumRoadSOAPService.login now params db
      = answered CumRoadSOAPService.LoginResponse
          (CumRoadService.Login now
             (LoginInput.mk (CumRoadSOAPService.get "email" fields)
                (CumRoadSOAPService.get "password" fields)) db)).
Proof.
  split.
  - intros Hparams Hname.
    unfold CumRoadSOAPService.create_user, CumRoadSOAPService.fields_of, bind.
    rewrite Hparams. unfold ret. unfold CumRoadService.CreateUser.
    cbn [UserInput.email UserInput.password UserInput.name].
    destruct (negb (Py.truthy_str (CumRoadSOAPService.get "email" fields))
              || negb (Py.truthy_str (CumRoadSOAPService.get "password" fields)))
      eqn:Hreq; [reflexivity|].
    destruct (Py.len (Py.the_str (CumRoadSOAPService.get "password" fields)) <? 8);
      [reflexivity|].
    unfold bind, read_db.
    destruct (Sql.user_by_email (Py.the_str (CumRoadSOAPService.get "email" fields)) db);
      [reflexivity|].
    apply orb_false_iff in Hreq. destruct Hreq as [Hemail _].
    apply negb_false_iff in Hemail.
    assert (Hsame : CumRoadSOAPService.get_default "name"
                      (if Py.truthy_str (CumRoadSOAPService.get "email" fields)
                       then Py.split_at_0
                              (Py.the_str (CumRoadSOAPService.get "email" fields))
                       else "User") fields
                    = Some (Py.str_or (CumRoadSOAPService.get "name" fields)
                              (Py.split_at_0
                                 (Py.the_str (CumRoadSOAPService.get "email" fields))))).
    { unfold CumRoadSOAPService.get_default, CumRoadSOAPService.get at 3.
      rewrite Hemail.
      destruct Hname as [-> | (n & -> & Hn)]; [reflexivity|].
      unfold Py.str_or. rewrite (truthy_str_Some n Hn). reflexivity. }
    rewrite Hsame. unfold commit.
    set (uid := Sql.next_rowid (map user_id_of (users db)) (users_seq db)).
    match goal with
    | |- context [Sql.set_users (users db ++ [?r]) uid db] => set (row := r)
    end.
    assert (Hnew : Sql.user_by_id uid (Sql.set_users (users db ++ [row]) uid db)
                   = Some row).
    { unfold Sql.user_by_id, Sql.set_users. cbn [users].
      rewrite find_app_fresh
        by (apply (find_id_fresh user_id_of); apply next_rowid_fresh).
      subst row. cbn [user_id_of]. rewrite Z.eqb_refl. reflexivity. }
    rewrite (get_user_found _ _ _ Hnew).
    unfold CumRoadSOAPService._get_user_by_id. rewrite Hnew. reflexivity.
  - intros Hparams.
    unfold CumRoadSOAPService.login, CumRoadSOAPService.fields_of, bind.
    rewrite Hparams. unfold ret. unfold CumRoadService.Login.
    cbn [LoginInput.email LoginInput.password].
    destruct (negb (Py.truthy_str (CumRoadSOAPService.get "email" fields))
              || negb (Py.truthy_str (CumRoadSOAPService.get "password" fields)));
      [reflexivity|].
    unfold bind, read_db.
    destruct (Sql.user_by_email (Py.the_str (CumRoadSOAPService.get "email" fields)) db)
      as [row|]; [|reflexivity].
    destruct (negb (AuthManager.verify_password
                      (Py.the_str (CumRoadSOAPService.get "password" fields))
                      (user_password_hash row))); reflexivity.
Qed.

Lemma simplified_service_agrees_witness :
  CumRoadSOAPService.create_user 500
    [("user", CumRoadSOAPService.Complex
                [("email", Some "c@x.com"); ("password", Some "longenough3");
                 ("name", Some "Carol")])]
    shop_db
  = answered CumRoadSOAPService.CreateUserResponse
      (CumRoadService.CreateUser 500
         (UserInput.mk (Some "c@x.com") (Some "longenough3") (Some "Carol")) shop_db)
  /\ CumRoadSOAPService.login 500
       [("credentials", CumRoadSOAPService.Complex
                          [("email", Some "a@x.com"); ("password", Some "longenough1")])]
       shop_db
     = answered CumRoadSOAPService.LoginResponse
         (CumRoadService.Login 500
            (LoginInput.mk (Some "a@x.com") (Some "longenough1")) shop_db).
Proof.
  split.
  - apply (proj1 (simplified_service_agrees 500
                    [("user", CumRoadSOAPService.Complex
                                [("email", Some "c@x.com");
                                 ("password", Some "longenough3");
                                 ("name", Some "Carol")])]
                    [("email", Some "c@x.com"); ("password", Some "longenough3");
                     ("name", Some "Carol")] shop_db) eq_refl).
    right. exists "Carol". split; [reflexivity | discriminate].
  - apply (proj2 (simplified_service_agrees 500
                    [("credentials",
                      CumRoadSOAPService.Complex
                        [("email", Some "a@x.com"); ("password", Some "longenough1")])]
                    [("email", Some "a@x.com"); ("password", Some "longenough1")]
                    shop_db) eq_refl).
Defined.

(** ** Tag names *)

Lemma split_nonempty (sep : ascii) (s : string) : SOAPHelper.split sep s <> [].
Proof.
  destruct s as [|a s]; simpl; [discriminate|].
  destruct (Ascii.eqb a sep); [discriminate|].
  destruct (SOAPHelper.split sep s); discriminate.
Qed.

Lemma split_without_separator (sep : ascii) (s : string) :
  SOAPHelper.contains sep s = false -> SOAPHelper.split sep s = [s].
Proof.
  induction s as [|a s IH]; simpl; [reflexivity|].
  destruct (Ascii.eqb a sep); simpl; [discriminate|].
  intros H. rewrite (IH H). reflexivity.
Qed.

Lemma split_pieces_clean (sep : ascii) (s : string) :
  Forall (fun piece => SOAPHelper.contains sep piece = false) (SOAPHelper.split sep s).
Proof.
  induction s as [|a s IH]; simpl; [repeat constructor|].
  destruct (Ascii.eqb a sep) eqn:E; [constructor; [reflexivity | exact IH]|].
  destruct (SOAPHelper.split sep s) as [|piece pieces];
    [repeat constructor; simpl; rewrite E; reflexivity|].
  inversion IH as [|? ? Hpiece Hpieces]; subst.
  constructor; [|exact Hpieces]. simpl. rewrite E. exact Hpiece.
Qed.

Lemma split_after_separator (sep : ascii) (pre name : string) :
  exists front,
    front <> []
    /\ SOAPHelper.split sep (pre ++ String sep name)%string
       = front ++ SOAPHelper.split sep name.
Proof.
  induction pre as [|a pre (front & Hfront & IH)]; simpl.
  - rewrite Ascii.eqb_refl. exists [EmptyString]. split; [discriminate | reflexivity].
  - destruct (Ascii.eqb a sep).
    + exists (EmptyString :: front). split; [discriminate|]. rewrite IH. reflexivity.
    + rewrite IH. destruct front as [|piece pieces]; [contradiction|].
      exists (String a piece :: pieces). split; [discriminate | reflexivity].
Qed.

Lemma contains_separator (sep : ascii) (pre name : string) :
  SOAPHelper.contains sep (pre ++ String sep name)%string = true.
Proof.
  induction pre as [|a pre IH]; simpl.
  - rewrite Ascii.eqb_refl. reflexivity.
  - rewrite IH. apply orb_true_r.
Qed.

Lemma last_app_nonempty {A : Type} (l1 l2 : list A) (d : A) :
  l2 <> [] -> last (l1 ++ l2) d = last l2 d.
Proof.
  intros Hl2. induction l1 as [|a l1 IH]; [reflexivity|].
  simpl. destruct (l1 ++ l2) eqn:E; [|exact IH].
  apply app_eq_nil in E. destruct E as [_ E]. contradiction.
Qed.

(** X23. The element names that [parse_soap_request] routes on are taken
    without their namespace: a tag without ['}'] is its own name, a tag
    that ends in ['}'] followed by a text without ['}'] has that text as
    its name, whatever stands before it, and a name never contains
    ['}']. *)
Theorem local_name_drops_namespace (tag : string) :
  (SOAPHelper.contains "}"%char tag = false -> SOAPHelper.local_name tag = tag)
  /\ (forall namespace name,
        SOAPHelper.contains "}"%char name = false ->
        tag = (namespace ++ String "}"%char name)%string ->
        SOAPHelper.local_name tag = name)
  /\ SOAPHelper.contains "}"%char (SOAPHelper.local_name tag) = false.
Proof.
  split; [|split].
  - intros Hplain. unfold SOAPHelper.local_name. rewrite Hplain. reflexivity.
  - intros namespace name Hname ->. unfold SOAPHelper.local_name.
    rewrite contains_separator.
    destruct (split_after_separator "}"%char namespace name) as (front & _ & ->).
    rewrite last_app_nonempty by apply split_nonempty.
    rewrite (split_without_separator _ _ Hname). reflexivity.
  - unfold SOAPHelper.local_name.
    destruct (SOAPHelper.contains "}"%char tag) eqn:Hhas; [|exact Hhas].
    pose proof (split_pieces_clean "}"%char tag) as Hclean.
    pose proof (split_nonempty "}"%char tag) as Hne.
    destruct (SOAPHelper.split "}"%char tag) as [|piece pieces]; [contradiction|].
    clear Hne. revert piece Hclean.
    induction pieces as [|p pieces IH]; intros piece Hclean.
    + inversion Hclean; assumption.
    + inversion Hclean as [|? ? _ Hrest]; subst. apply (IH p Hrest).
Qed.

Lemma local_name_drops_namespace_witness :
  SOAPHelper.local_name "{http://cumroad.api.soap/types}CreateUserRequest"
  = "CreateUserRequest"
  /\ SOAPHelper.local_name "LoginRequest" = "LoginRequest".
Proof.
  split.
  - apply (proj1 (proj2 (local_name_drops_namespace
                           "{http://cumroad.api.soap/types}CreateUserRequest"))
             "{http://cumroad.api.soap/types" "CreateUserRequest");
      reflexivity.
  - apply (proj1 (local_name_drops_namespace "LoginRequest")). reflexivity.
Defined.

(** [split_at_0] is the first piece of [split] at ['@']. *)
Lemma split_at_0_is_first_piece (s : string) :
  hd EmptyString (SOAPHelper.split "@"%char s) = Py.split_at_0 s.
Proof.
  induction s as [|a s IH]; simpl; [reflexivity|].
  destruct (Ascii.eqb a "@"%char); [reflexivity|].
  pose proof (split_nonempty "@"%char s) as Hne.
  destruct (SOAPHelper.split "@"%char s) as [|piece pieces]; [contradiction|].
  simpl in *. rewrite IH. reflexivity.
Qed.

(** ** The request router of the simplified service *)

Lemma login_keeps_store (now : Z) (params : CumRoadSOAPService.Params) (db : Store) :
  snd (CumRoadSOAPService.login now params db) = db.
Proof.
  unfold CumRoadSOAPService.login, CumRoadSOAPService.fields_of, bind.
  explore; reflexivity.
Qed.

(** X24. [process_request] routes on the exact operation name and writes
    only through the two create operations: under any name other than
    CreateUserRequest and CreateProductRequest the store is left as it
    was, and under a name that is none of the five routed ones the answer
    is the Client fault Unknown Operation that quotes the name. *)
Theorem process_request_routes (float_of_str : string -> option float) (now : Z)
    (operation : string) (params : CumRoadSOAPService.Params) (db : Store) :
  operation <> "CreateUserRequest" ->
  operation <> "CreateProductRequest" ->
  snd (CumRoadSOAPService.process_request float_of_str now operation params db) = db
  /\ (operation <> "GetAllUsersRequest" ->
      operation <> "LoginRequest" ->
      operation <> "GetAllProductsRequest" ->
      fst (CumRoadSOAPService.process_request float_of_str now operation params db)
      = CumRoadSOAPService.soap_fault "Client" "Unknown Operation"
          (Some ("Operation " ++ operation ++ " is not supported")%string)).
Proof.
  intros Huser Hproduct. unfold CumRoadSOAPService.process_request.
  destruct (String.eqb_spec operation "CreateUserRequest"); [contradiction|].
  destruct (String.eqb_spec operation "GetAllUsersRequest") as [->|Hall].
  { split; [reflexivity | intros H; contradiction]. }
  destruct (String.eqb_spec operation "LoginRequest") as [->|Hlogin].
  { split; [|intros _ H; contradiction].
    pose proof (login_keeps_store now params db) as Hkeep.
    destruct (CumRoadSOAPService.login now params db) as [[r|f|e] d]; exact Hkeep. }
  destruct (String.eqb_spec operation "GetAllProductsRequest") as [->|Hproducts].
  { split; [reflexivity | intros _ _ H; contradiction]. }
  destruct (String.eqb_spec operation "CreateProductRequest"); [contradiction|].
  split; [reflexivity | intros _ _ _; reflexivity].
Qed.

Lemma process_request_routes_witness :
  CumRoadSOAPService.process_request (fun _ => None) 500 "CreateUser"
    [("user", CumRoadSOAPService.Complex
                [("email", Some "c@x.com"); ("password", Some "longenough3")])]
    shop_db
  = (CumRoadSOAPService.soap_fault "Client" "Unknown Operation"
       (Some "Operation CreateUser is not supported"),
     shop_db).
Proof.
  destruct (process_request_routes (fun _ => None) 500 "CreateUser"
              [("user", CumRoadSOAPService.Complex
                          [("email", Some "c@x.com"); ("password", Some "longenough3")])]
              shop_db)
    as [Hstore Hfault]; try discriminate.
  rewrite (surjective_pairing
             (CumRoadSOAPService.process_request (fun _ => None) 500 "CreateUser" _ _)).
  rewrite Hstore, Hfault by discriminate. reflexivity.
Defined.

(** X25. Requests to the simplified service that lack what a handler
    reads.  Without a user (or credentials) element the handler finds no
    email and answers with the Validation Error fault; a user (or
    credentials) element without children makes it call [get] on a text,
    and the router turns the exception into the Server fault Internal
    Error; a product request without a token, or with an empty one, is
    answered with Authentication Required, and one whose token is an
    element with children or does not verify with Invalid Token.  None of
    these writes to the store. *)
Theorem simplified_service_missing_parts (float_of_str : string -> option float)
    (now : Z) (params : CumRoadSOAPService.Params) (db : Store) :
  let run := fun operation =>
    CumRoadSOAPService.process_request float_of_str now operation params db in
  let client := fun title detail =>
    (CumRoadSOAPService.soap_fault "Client" title (Some detail), db) in
  (Py.dict_find "user" params = None ->
   run "CreateUserRequest"
   = client "Validation Error" "Email and password are required")
  /\ (Py.dict_find "credentials" params = None ->
      run "LoginRequest"
      = client "Validation Error" "Email and password are required")
  /\ (forall text,
        Py.dict_find "user" params = Some (CumRoadSOAPService.Simple (Some text)) ->
        run "CreateUserRequest"
        = (CumRoadSOAPService.soap_fault "Server" "Internal Error"
             (Some "'str' object has no attribute 'get'"), db))
  /\ (Py.dict_find "token" params = None
      \/ Py.dict_find "token" params = Some (CumRoadSOAPService.Simple None)
      \/ Py.dict_find "token" params
         = Some (CumRoadSOAPService.Simple (Some (Text ""))) ->
      run "CreateProductRequest"
      = client "Authentication Required" "Authentication token is required")
  /\ (forall t,
        Py.dict_find "token" params = Some (CumRoadSOAPService.Simple (Some t)) ->
        t <> Text "" ->
        AuthManager.verify_token now t = None ->
        run "CreateProductRequest"
        = client "Invalid Token" "Authentication token is invalid or expired")
  /\ (forall children,
        Py.dict_find "token" params = Some (CumRoadSOAPService.Complex children) ->
        run "CreateProductRequest"
        = client "Invalid Token" "Authentication token is invalid or expired").
Proof.
  intros run client. subst run client. cbv beta.
  unfold CumRoadSOAPService.process_request.
  cbn [String.eqb Ascii.eqb Bool.eqb].
  repeat split.
  - intros Hmissing. unfold CumRoadSOAPService.create_user,
      CumRoadSOAPService.fields_of, bind. rewrite Hmissing. reflexivity.
  - intros Hmissing. unfold CumRoadSOAPService.login,
      CumRoadSOAPService.fields_of, bind. rewrite Hmissing. reflexivity.
  - intros text Htext. unfold CumRoadSOAPService.create_user,
      CumRoadSOAPService.fields_of, bind. rewrite Htext. reflexivity.
  - intros [Htok | [Htok | Htok]];
      unfold CumRoadSOAPService.create_product; rewrite Htok; reflexivity.
  - intros t Htok Hgiven Hbad.
    unfold CumRoadSOAPService.create_product. rewrite Htok.
    destruct t as [claims key|[|c s]]; try (rewrite Hbad; reflexivity).
    contradiction.
  - intros children Htok.
    unfold CumRoadSOAPService.create_product. rewrite Htok. reflexivity.
Qed.

Lemma simplified_service_missing_parts_witness :
  CumRoadSOAPService.process_request (fun _ => None) 500 "CreateUserRequest" [] shop_db
  = (CumRoadSOAPService.soap_fault "Client" "Validation Error"
       (Some "Email and password are required"), shop_db)
  /\ CumRoadSOAPService.process_request (fun _ => None) 500 "CreateProductRequest"
       [("product", CumRoadSOAPService.Complex
                      [("name", Some "Widget"); ("price", Some "10")])]
       shop_db
     = (CumRoadSOAPService.soap_fault "Client" "Authentication Required"
          (Some "Authentication token is required"), shop_db).
Proof.
  split.
  - apply (simplified_service_missing_parts (fun _ => None) 500 [] shop_db).
    reflexivity.
  - apply (simplified_service_missing_parts (fun _ => None) 500
             [("product", CumRoadSOAPService.Complex
                            [("name", Some "Widget"); ("price", Some "10")])]
             shop_db).
    left. reflexivity.
Defined.

(** ** Quantities that SQLite cannot hold *)

(** X26. A quantity outside 64 bits is refused, not stored.  For an
    authenticated caller, [CreateOrder] for a product that exists with a
    quantity [q >= 1] outside 64 bits, and the owner's [UpdateOrder] with
    such a quantity, end in an [OverflowError] and leave the store as it
    was: the error of sqlite3's bind, or already that of multiplying the
    price by [q] when [q] is beyond the floats. *)
Theorem quantity_outside_64_bits_is_refused (now q : Z) (token : option Token)
    (payload : Claims) (db : Store) :
  authenticates now token payload ->
  1 <= q ->
  Sql.int64 q = false ->
  let overflow_at := fun price : float =>
    match Py.float_mul_int price q with
    | Some _ => CumRoadService.int_too_large_for_sqlite
    | None => CumRoadService.int_too_large
    end in
  (forall P prod,
     P <> 0 ->
     Sql.product_by_id P db = Some prod ->
     CumRoadService.CreateOrder now (OrderInput.mk (Some P) (Some q)) token db
     = (Crashed (overflow_at (product_price prod)), db))
  /\ (forall oid row st,
        Sql.order_by_id oid db = Some row ->
        order_user_id row = claim_user_id payload ->
        CumRoadService.UpdateOrder now oid (OrderUpdateInput.mk (Some q) st) token db
        = (Crashed
             match Sql.product_by_id (order_product_id row) db with
             | Some prod => overflow_at (product_price prod)
             | None => CumRoadService.int_too_large_for_sqlite
             end,
           db)).
Proof.
  intros Hauth Hq Hfits overflow_at. subst overflow_at. cbv beta. split.
  - intros P prod HP Hprod. unfold CumRoadService.CreateOrder, bind.
    rewrite (authenticate_ok _ _ _ _ Hauth).
    cbn [OrderInput.product_id OrderInput.quantity Py.truthy_int Py.the_int].
    destruct (Z.eqb_spec P 0) as [|_]; [contradiction|].
    destruct (Z.eqb_spec q 0) as [|_]; [lia|].
    destruct (Z.ltb_spec q 1) as [|_]; [lia|].
    cbn [negb orb]. rewrite (bind_rowid_found _ _ _ prod Hprod).
    unfold read_db. rewrite Hprod.
    destruct (Py.float_mul_int (product_price prod) q); [|reflexivity].
    rewrite (bind_int_overflow _ _ Hfits). reflexivity.
  - intros oid row st Hrow Hown. unfold CumRoadService.UpdateOrder, bind.
    rewrite (authenticate_ok _ _ _ _ Hauth).
    rewrite (bind_rowid_found _ _ _ row Hrow). unfold read_db. rewrite Hrow.
    rewrite Hown, Z.eqb_refl. cbn [negb].
    unfold CumRoadService.quantity_updates.
    cbn [OrderUpdateInput.quantity Py.truthy_int Py.the_int].
    destruct (Z.eqb_spec q 0) as [|_]; [lia|].
    destruct (Z.leb_spec 1 q) as [_|]; [|lia].
    cbn [negb andb].
    destruct (Sql.product_by_id (order_product_id row) db) as [prod|].
    + destruct (Py.float_mul_int (product_price prod) q); [|reflexivity].
      cbn [app existsb Dml.order_set_overflow]. rewrite Hfits. reflexivity.
    + cbn [app existsb Dml.order_set_overflow]. rewrite Hfits. reflexivity.
Qed.

Lemma quantity_outside_64_bits_is_refused_witness :
  CumRoadService.CreateOrder 500 (OrderInput.mk (Some 1) (Some 9223372036854775808))
    (token_of 1 "a@x.com") shop_db
  = (Crashed CumRoadService.int_too_large_for_sqlite, shop_db)
  /\ CumRoadService.UpdateOrder 500 1
       (OrderUpdateInput.mk (Some 9223372036854775808) (Some "completed"))
       (token_of 1 "a@x.com") shop_db
     = (Crashed CumRoadService.int_too_large_for_sqlite, shop_db).
Proof.
  assert (Hauth : authenticates 500 (token_of 1 "a@x.com")
                    (mkClaims 1 "a@x.com" 86500))
    by (eexists; split; reflexivity).
  destruct (quantity_outside_64_bits_is_refused 500 9223372036854775808
              (token_of 1 "a@x.com") (mkClaims 1 "a@x.com" 86500) shop_db Hauth)
    as [Hcreate Hupdate]; [lia | reflexivity |].
  split.
  - apply (Hcreate 1 (mkProductRow 1 "Widget" (Some "") 10%float (Some "") 1 300 300));
      [discriminate | reflexivity].
  - apply (Hupdate 1 (mkOrderRow 1 1 1 3 30%float "pending" 400 400)
             (Some "completed")); reflexivity.
Defined.
